(** * Afterwon chat front end: streaming assembler, Firestore adapter, upload

    A shallow embedding of parts of the front end, with the properties
    its specification states about them and further properties of the
    code:

    - the chunk handler that [handleSendMessage] passes to
      [api.askUnifiedQuestionStream] (components/Chat/ChatInterface.tsx),
      together with its [onComplete] callback, the record it saves and
      the history it sends;
    - the reader loop of [askUnifiedQuestionStream] (services/api.ts);
    - [firestoreService] (services/firestore.ts): [createChatSession],
      [getChatSessions], [getChatSession], [updateChatSession],
      [deleteChatSession], [addMessage], [getMessages], [uploadFile],
      [deleteFile], [deleteFiles];
    - [handleFileUpload] and the handlers of the session list,
      [formatTimestamp], [loadChatHistory], [handleDeleteChatConfirm] and
      [handleSessionClick] (components/Chat/ChatInterface.tsx).

    Conventions of the embedding.
    - [setMessages(updater)] queues [updater]; React runs the queued
      updaters in order, after the callback that queued them has returned
      and before the next callback is called.  The chunk handler queues
      its updater as its last statement, so the updater is applied where
      it is queued.  [onComplete] clears [textBuffer] after queuing its
      updater, and the updater, which closes over the variable, reads the
      cleared value.  (This is the order when an update is pending at the
      end of the stream; with none pending React may run an updater
      inside the call that queues it.)
    - JavaScript values of type [any] are terms of [JsValue]; numbers are
      integers.  Strings hold the UTF-8 encoding of the text.
    - [Date.now()] readings, store faults and generated document ids are
      inputs of the functions that consume them.
    - The module-level handles [db] and [storage] are assigned once
      ([getFirestore(app)], [getStorage(app)]): the guards on them are
      embedded as written, and a running program has both handles. *)

From Stdlib Require Import ZArith Ascii String DecimalString List Bool Lia Sorting.Sorted.
From stdpp Require Import base option list strings gmap.
Import ListNotations.

Set Warnings "-register-all".

Open Scope Z_scope.
Open Scope stdpp_scope.
Open Scope list_scope.

(** ** JavaScript values *)

Inductive JsValue : Type :=
| JsUndefined
| JsNull
| JsBool (b : bool)
| JsNumber (n : Z)
| JsString (s : string)
| JsArray (xs : list JsValue)
| JsObject (fields : list (string * JsValue)).

(** [ToBoolean]: the test performed by [v ? a : b], [if (v)] and [!v]. *)
Definition truthy (v : JsValue) : bool :=
  match v with
  | JsUndefined | JsNull => false
  | JsBool b => b
  | JsNumber n => negb (n =? 0)
  | JsString s => negb (String.eqb s "")
  | JsArray _ | JsObject _ => true
  end.

(** A string used as a condition: the empty string is falsy. *)
Definition nonEmpty (s : string) : bool := negb (String.eqb s "").

(** ** Strings: [split('\n')] and [trim()] *)

Definition newline : ascii := Ascii.ascii_of_nat 10.

(** [s.split('\n')]: always at least one piece. *)
Fixpoint splitLines (s : string) : list string :=
  match s with
  | EmptyString => [EmptyString]
  | String c rest =>
      if Ascii.eqb c newline then EmptyString :: splitLines rest
      else match splitLines rest with
           | [] => [String c EmptyString]
           | l :: ls => String c l :: ls
           end
  end.

(** The white space and line terminators removed by [trim()], as their
    UTF-8 encodings: U+0009 to U+000D and U+0020 (one byte); U+00A0 (two
    bytes); U+1680, U+2000 to U+200A, U+2028, U+2029, U+202F, U+205F,
    U+3000 and U+FEFF (three bytes). *)
Definition isSpace (c : ascii) : bool :=
  let n := Ascii.nat_of_ascii c in
  ((9 <=? n) && (n <=? 13))%nat || (n =? 32)%nat.

Definition isSpace2 (c1 c2 : ascii) : bool :=
  ((Ascii.nat_of_ascii c1 =? 194) && (Ascii.nat_of_ascii c2 =? 160))%nat.

Definition isSpace3 (c1 c2 c3 : ascii) : bool :=
  let n1 := Ascii.nat_of_ascii c1 in
  let n2 := Ascii.nat_of_ascii c2 in
  let n3 := Ascii.nat_of_ascii c3 in
  ((n1 =? 225) && (n2 =? 154) && (n3 =? 128))%nat
  || ((n1 =? 226) && (n2 =? 128)
      && (((128 <=? n3) && (n3 <=? 138)) || (n3 =? 168) || (n3 =? 169)
          || (n3 =? 175)))%nat
  || ((n1 =? 226) && (n2 =? 129) && (n3 =? 159))%nat
  || ((n1 =? 227) && (n2 =? 128) && (n3 =? 128))%nat
  || ((n1 =? 239) && (n2 =? 187) && (n3 =? 191))%nat.

(** The text without the white space it starts with, the encodings
    being read through [one], [two] and [three]. *)
Fixpoint dropSpaces (one : ascii -> bool) (two : ascii -> ascii -> bool)
    (three : ascii -> ascii -> ascii -> bool) (s : string) : string :=
  match s with
  | EmptyString => EmptyString
  | String c1 rest1 =>
      if one c1 then dropSpaces one two three rest1
      else
        match rest1 with
        | EmptyString => s
        | String c2 rest2 =>
            if two c1 c2 then dropSpaces one two three rest2
            else
              match rest2 with
              | EmptyString => s
              | String c3 rest3 =>
                  if three c1 c2 c3 then dropSpaces one two three rest3 else s
              end
        end
  end.

Definition reverse (s : string) : string :=
  string_of_list_ascii (List.rev (list_ascii_of_string s)).

Definition trimStart (s : string) : string :=
  dropSpaces isSpace isSpace2 isSpace3 s.

(** From the end the bytes of a character come last byte first. *)
Definition trimEnd (s : string) : string :=
  reverse (dropSpaces isSpace (fun c2 c1 => isSpace2 c1 c2)
             (fun c3 c2 c1 => isSpace3 c1 c2 c3) (reverse s)).

Definition trim (s : string) : string := trimEnd (trimStart s).

(** ** Messages of the chat transcript (interface [Message]) *)

Inductive Role : Type := user | assistant.

Record CodeExecution : Type := mkCodeExecution {
  codeChunks : list string;
  isExecuting : bool;
  result : string;
  output : string
}.

Record FileInfo : Type := mkFileInfo {
  fi_filename : string;
  fileSize : Z;
  fileType : string;
  fi_file_id : string
}.

Record TableData : Type := mkTableData {
  data : JsValue;
  columns : list string;
  td_filename : string
}.

Record Message : Type := mkMessage {
  id : string;
  type : Role;
  content : string;
  timestamp : Z;
  isStreaming : option bool;
  chartData : JsValue;
  followUpQuestions : option (list string);
  fileInfo : option FileInfo;
  tableData : option TableData;
  codeExecution : option CodeExecution
}.

Definition setContent (c : string) (m : Message) : Message :=
  mkMessage (id m) (type m) c (timestamp m) (isStreaming m) (chartData m)
    (followUpQuestions m) (fileInfo m) (tableData m) (codeExecution m).

Definition setCodeExecution (ce : option CodeExecution) (m : Message) : Message :=
  mkMessage (id m) (type m) (content m) (timestamp m) (isStreaming m) (chartData m)
    (followUpQuestions m) (fileInfo m) (tableData m) ce.

Definition setChartData (v : JsValue) (m : Message) : Message :=
  mkMessage (id m) (type m) (content m) (timestamp m) (isStreaming m) v
    (followUpQuestions m) (fileInfo m) (tableData m) (codeExecution m).

Definition setFollowUpQuestions (q : option (list string)) (m : Message) : Message :=
  mkMessage (id m) (type m) (content m) (timestamp m) (isStreaming m) (chartData m)
    q (fileInfo m) (tableData m) (codeExecution m).

Definition setIsStreaming (b : option bool) (m : Message) : Message :=
  mkMessage (id m) (type m) (content m) (timestamp m) b (chartData m)
    (followUpQuestions m) (fileInfo m) (tableData m) (codeExecution m).

(** ** The streaming response assembler *)

Module Assembler.

(** A chunk of the event stream.  The handler receives [chunk : any] and
    switches on [chunk.type]; each constructor carries the fields the
    handler reads for that type, [other] standing for every remaining type
    string (the [default] branch). *)
Inductive Chunk : Type :=
| analysis_start (content : string)
| step_update (content : string)
| code_complete_display (code : string)
| code_stream (content : string)
| code_execution_result (content : string)
| chart_generated (chartData : JsValue)
| insights_generated
| analysis_complete (chartData : JsValue)
    (followUpQuestions : option (list string))
    (codeExecution : option CodeExecution)
| text_stream (content : string)
| error (content : string)
| other (type : string) (content : string).

(** The initial assistant message of [handleSendMessage]. *)
Definition processingPlaceholder : string := "처리 중...".

Definition initialAssistantMessage (assistantMessageId : string) (now : Z) : Message :=
  {| id := assistantMessageId; type := assistant;
     content := processingPlaceholder; timestamp := now;
     isStreaming := Some true; chartData := JsUndefined;
     followUpQuestions := None; fileInfo := None; tableData := None;
     codeExecution := None |}.

Definition TEXT_UPDATE_THROTTLE : Z := 0.

(** What the closure of [onChunk] and [onComplete] shares: the transcript
    ([messages] of the component), [textBuffer], [lastTextUpdate] and
    [finalAssistantMessage]. *)
Record Stream : Type := mkStream {
  messages : list Message;
  textBuffer : string;
  lastTextUpdate : Z;
  finalAssistantMessage : Message
}.

(** [code.split('\n').filter(line => line.trim())] *)
Definition codeLines (code : string) : list string :=
  List.filter (fun line => nonEmpty (trim line)) (splitLines code).

(** The body of [if (msg.id === assistantMessageId) { ... }]: the [switch]
    on the chunk type, applied to a copy of [msg].  It reads and, in the
    [analysis_complete] branch, clears [textBuffer]. *)
Definition applyChunk (chunk : Chunk) (textBuffer : string) (msg : Message)
  : Message * string :=
  match chunk with
  | analysis_start c | step_update c => (setContent c msg, textBuffer)
  | code_complete_display code =>
      (setContent ""
         (setCodeExecution
            (Some {| codeChunks := codeLines code; isExecuting := true;
                     result := ""; output := "" |}) msg),
       textBuffer)
  | code_stream _ => (msg, textBuffer)
  | code_execution_result c =>
      match codeExecution msg with
      | Some ce =>
          (setCodeExecution
             (Some {| codeChunks := codeChunks ce; isExecuting := false;
                      result := c; output := c |}) msg,
           textBuffer)
      | None => (msg, textBuffer)
      end
  | chart_generated cd => (setChartData cd msg, textBuffer)
  | insights_generated => (msg, textBuffer)
  | analysis_complete cd fq ce =>
      let flush :=
        match codeExecution msg with None => nonEmpty textBuffer | Some _ => false end in
      let msg1 := if flush then setContent (content msg +:+ textBuffer) msg else msg in
      let textBuffer1 := if flush then "" else textBuffer in
      let msg2 := setChartData cd msg1 in
      let msg3 := setFollowUpQuestions (Some (default [] fq)) msg2 in
      let msg4 := match ce with
                  | Some _ => setCodeExecution ce msg3
                  | None => msg3
                  end in
      (setIsStreaming (Some false) msg4, textBuffer1)
  | text_stream c =>
      let canAddText :=
        match codeExecution msg with
        | None => true
        | Some ce => negb (isExecuting ce)
        end in
      if canAddText && nonEmpty c
      then (setContent (content msg +:+ c) msg, textBuffer)
      else (msg, textBuffer)
  | error c =>
      let msg1 := setContent c msg in
      let msg2 :=
        match codeExecution msg1 with
        | Some ce =>
            setCodeExecution
              (Some {| codeChunks := codeChunks ce; isExecuting := false;
                       result := result ce; output := output ce |}) msg1
        | None => msg1
        end in
      (setIsStreaming (Some false) msg2, textBuffer)
  | other _ c =>
      if nonEmpty c then (setContent c msg, textBuffer) else (msg, textBuffer)
  end.

(** [prevMessages.map(msg => ...)] of the updater: every message whose id
    is [assistantMessageId] goes through [applyChunk], in list order, and
    is recorded in [finalAssistantMessage]. *)
Fixpoint updateMessages (assistantMessageId : string) (chunk : Chunk)
    (msgs : list Message) (textBuffer : string) (final : Message)
  : list Message * string * Message :=
  match msgs with
  | [] => ([], textBuffer, final)
  | msg :: rest =>
      if String.eqb (id msg) assistantMessageId then
        let '(updatedMessage, textBuffer1) := applyChunk chunk textBuffer msg in
        let '(rest1, textBuffer2, final2) :=
          updateMessages assistantMessageId chunk rest textBuffer1 updatedMessage in
        (updatedMessage :: rest1, textBuffer2, final2)
      else
        let '(rest1, textBuffer2, final2) :=
          updateMessages assistantMessageId chunk rest textBuffer final in
        (msg :: rest1, textBuffer2, final2)
  end.

Definition isTextStream (chunk : Chunk) : bool :=
  match chunk with text_stream _ => true | _ => false end.

(** [onChunk]; [now] is the reading of [Date.now()] taken for a
    [text_stream] chunk. *)
Definition onChunk (assistantMessageId : string) (now : Z) (chunk : Chunk)
    (st : Stream) : Stream :=
  let textBuffer1 :=
    match chunk with
    | text_stream c => textBuffer st +:+ c
    | _ => textBuffer st
    end in
  if isTextStream chunk && (now - lastTextUpdate st <? TEXT_UPDATE_THROTTLE)
  then mkStream (messages st) textBuffer1 (lastTextUpdate st) (finalAssistantMessage st)
  else
    let lastTextUpdate1 := if isTextStream chunk then now else lastTextUpdate st in
    let '(msgs, textBuffer2, final) :=
      updateMessages assistantMessageId chunk (messages st) textBuffer1
        (finalAssistantMessage st) in
    mkStream msgs textBuffer2 lastTextUpdate1 final.

(** The updater [onComplete] queues: it closes over the variable
    [textBuffer] and reads it when React runs it. *)
Definition flushUpdater (assistantMessageId : string) (textBuffer : string)
    (prevMessages : list Message) : list Message :=
  List.map (fun msg =>
              if String.eqb (id msg) assistantMessageId
              then setContent (content msg +:+ textBuffer) msg
              else msg) prevMessages.

(** The flush of [onComplete] (the part before the Firestore save):
    with text in the buffer it queues [flushUpdater] and then clears
    [textBuffer]; the updater runs after that, on the cleared variable. *)
Definition onComplete (assistantMessageId : string) (st : Stream) : Stream :=
  if nonEmpty (textBuffer st) then
    let textBuffer1 := "" in
    mkStream (flushUpdater assistantMessageId textBuffer1 (messages st))
      textBuffer1 (lastTextUpdate st) (finalAssistantMessage st)
  else st.

(** The chunks of a stream, each with the clock reading at its arrival. *)
Fixpoint onChunks (assistantMessageId : string) (events : list (Z * Chunk))
    (st : Stream) : Stream :=
  match events with
  | [] => st
  | (now, chunk) :: rest =>
      onChunks assistantMessageId rest (onChunk assistantMessageId now chunk st)
  end.

(** A stream read to its end: every chunk, then [onComplete]. *)
Definition runStream (assistantMessageId : string) (events : list (Z * Chunk))
    (st : Stream) : Stream :=
  onComplete assistantMessageId (onChunks assistantMessageId events st).

(** The state in which [askUnifiedQuestionStream] is called: the initial
    assistant message has been appended to the transcript. *)
Definition startStream (prev : list Message) (assistantMessageId : string)
    (now : Z) : Stream :=
  let initial := initialAssistantMessage assistantMessageId now in
  mkStream (prev ++ [initial]) "" 0 initial.

(** The message the transcript shows for [assistantMessageId]. *)
Definition findMessage (assistantMessageId : string) (msgs : list Message)
  : option Message :=
  List.find (fun msg => String.eqb (id msg) assistantMessageId) msgs.

End Assembler.

(** ** Exceptions, console and the effect monad *)

(** A thrown value: an [Error] instance with its [message], or any other
    value. *)
Inductive Thrown : Type :=
| ErrorInstance (message : string)
| NonError (v : JsValue).

Inductive Outcome (A : Type) : Type :=
| Returned (a : A)
| Raised (e : Thrown).
Arguments Returned {A} a.
Arguments Raised {A} e.

(** [console.error] and [console.warn] calls ([console.log] trace output
    is left out). *)
Inductive Level : Type := LogError | LogWarn.

(** An [async] function over a state [S]: it returns or throws, and leaves
    a state behind in both cases. *)
Definition Eff (S A : Type) : Type := S -> Outcome A * S.

Definition ret {S A} (a : A) : Eff S A := fun s => (Returned a, s).

Definition bind {S A B} (c : Eff S A) (k : A -> Eff S B) : Eff S B :=
  fun s => match c s with
           | (Returned a, s1) => k a s1
           | (Raised e, s1) => (Raised e, s1)
           end.

Definition throw {S A} (e : Thrown) : Eff S A := fun s => (Raised e, s).

(** [try { c } catch (error) { h error }] *)
Definition tryCatch {S A} (c : Eff S A) (h : Thrown -> Eff S A) : Eff S A :=
  fun s => match c s with
           | (Returned a, s1) => (Returned a, s1)
           | (Raised e, s1) => h e s1
           end.

(** [if (cond) { early } ... rest]: [early] ends the function. *)
Definition ifThenElse {S A} (cond : S -> bool) (c1 c2 : Eff S A) : Eff S A :=
  fun s => if cond s then c1 s else c2 s.

Notation "x <- c1 ;; c2" := (bind c1 (fun x => c2))
  (at level 100, c1 at next level, right associativity).
Notation "c1 ;;; c2" := (bind c1 (fun _ => c2))
  (at level 100, right associativity).

(** [n.toString()] for an integer *)
Definition toString (n : Z) : string := NilZero.string_of_int (Z.to_int n).

(** [error instanceof Error ? error.message : fallback] *)
Definition messageOr (fallback : string) (error : Thrown) : string :=
  match error with
  | ErrorInstance message => message
  | NonError _ => fallback
  end.

(** ** services/api.ts: the types of the upload request *)

(** What the code reads of a browser [File] ([mimeType] is [file.type]). *)
Record File : Type := mkFile {
  name : string;
  size : Z;
  mimeType : string
}.

Module api.

(** interface [FileUploadResponse] *)
Record FileUploadResponse : Type := mkFileUploadResponse {
  file_id : string;
  filename : string;
  file_size : Z;
  columns : list string;
  row_count : Z;
  preview : JsValue;
  uploaded_at : string
}.

End api.

(** ** The document store and object storage (Firebase SDK) *)

Module Firestore.

(** interface [ChatMessage]; [codeExecution] is the extra field
    [handleSendMessage] puts on the [messageData : any] it saves. *)
Record ChatMessage : Type := mkChatMessage {
  id : option string;
  sessionId : string;
  userId : string;
  type : Role;
  content : string;
  timestamp : Z;
  chartData : JsValue;
  insights : option (list string);
  followUpQuestions : option (list string);
  fileInfo : option FileInfo;
  tableData : option TableData;
  codeExecution : option CodeExecution
}.

Definition withChartData (v : JsValue) (m : ChatMessage) : ChatMessage :=
  mkChatMessage (id m) (sessionId m) (userId m) (type m) (content m) (timestamp m)
    v (insights m) (followUpQuestions m) (fileInfo m) (tableData m)
    (codeExecution m).

(** The data of a document of collection [chat]: the fields of interface
    [ChatSession] and the [messages] array.  Documents have no schema, so
    every field may be missing. *)
Record ChatSession : Type := mkChatSession {
  cs_id : option string;
  cs_userId : option string;
  title : option string;
  status : option string;
  messages : option (list ChatMessage);
  createdAt : option Z;
  updatedAt : option Z;
  fileId : option string;
  fileName : option string;
  fileUrl : option string;
  projectId : option string
}.

(** A time field: the sentinel [serverTimestamp()] returns, which the
    store replaces by its own time when it writes the document, or a
    time. *)
Inductive TimeField : Type :=
| ServerTimestampSentinel
| Timestamp (ms : Z).

(** interface [FileMetadata]; a [sessionId] of [None] is the property
    [sessionId: undefined] of the object [uploadFile] builds. *)
Record FileMetadata : Type := mkFileMetadata {
  fm_id : option string;
  fm_userId : string;
  fm_fileName : string;
  fm_fileSize : Z;
  fm_fileType : string;
  fm_fileUrl : string;
  uploadedAt : TimeField;
  fm_sessionId : option string;
  processed : bool;
  fm_columns : option (list string);
  rowCount : option Z
}.

(** The world the services act on: the module-level handles [db] and
    [storage] (as their truthiness), the collections, the paths of the
    stored objects, and the inputs of the environment: one entry of
    [faults] per SDK call ([Some e] makes the call reject with [e]), the
    ids the store generates, the download URL of a path, the client and
    server clocks, and the reaction of the analysis backend to an upload. *)
Record World : Type := mkWorld {
  db : bool;
  storage : bool;
  chat : gmap string ChatSession;
  fileMetadataColl : gmap string FileMetadata;
  objects : list string;
  faults : list (option Thrown);
  genId : nat -> string;
  issued : nat;
  downloadURL : string -> string;
  clock : Z;
  serverClock : Z;
  console : list (Level * string);
  backendUpload : File -> Outcome api.FileUploadResponse
}.

Definition withChat (c : gmap string ChatSession) (w : World) : World :=
  mkWorld (db w) (storage w) c (fileMetadataColl w) (objects w) (faults w)
    (genId w) (issued w) (downloadURL w) (clock w) (serverClock w) (console w)
    (backendUpload w).

Definition withFileMetadata (c : gmap string FileMetadata) (w : World) : World :=
  mkWorld (db w) (storage w) (chat w) c (objects w) (faults w)
    (genId w) (issued w) (downloadURL w) (clock w) (serverClock w) (console w)
    (backendUpload w).

Definition withObjects (o : list string) (w : World) : World :=
  mkWorld (db w) (storage w) (chat w) (fileMetadataColl w) o (faults w)
    (genId w) (issued w) (downloadURL w) (clock w) (serverClock w) (console w)
    (backendUpload w).

Definition withFaults (f : list (option Thrown)) (w : World) : World :=
  mkWorld (db w) (storage w) (chat w) (fileMetadataColl w) (objects w) f
    (genId w) (issued w) (downloadURL w) (clock w) (serverClock w) (console w)
    (backendUpload w).

Definition withIssued (n : nat) (w : World) : World :=
  mkWorld (db w) (storage w) (chat w) (fileMetadataColl w) (objects w) (faults w)
    (genId w) n (downloadURL w) (clock w) (serverClock w) (console w)
    (backendUpload w).

Definition withConsole (c : list (Level * string)) (w : World) : World :=
  mkWorld (db w) (storage w) (chat w) (fileMetadataColl w) (objects w) (faults w)
    (genId w) (issued w) (downloadURL w) (clock w) (serverClock w) c
    (backendUpload w).

Definition M (A : Type) : Type := Eff World A.

Definition consoleError (msg : string) : M unit :=
  fun w => (Returned tt, withConsole (console w ++ [(LogError, msg)]) w).

Definition consoleWarn (msg : string) : M unit :=
  fun w => (Returned tt, withConsole (console w ++ [(LogWarn, msg)]) w).

Definition Date_now : M Z := fun w => (Returned (clock w), w).

(** [serverTimestamp()]: the store fills in its own time on write. *)
Definition serverTimestamp : M Z := fun w => (Returned (serverClock w), w).

(** The network round trip of an SDK call: it consumes one entry of
    [faults] and rejects when that entry holds an error. *)
Definition roundTrip : M unit :=
  fun w => match faults w with
           | Some e :: rest => (Raised e, withFaults rest w)
           | _ => (Returned tt, withFaults (tail (faults w)) w)
           end.

Definition invalidHandle : Thrown :=
  ErrorInstance "Expected first argument to collection() to be a CollectionReference, a DocumentReference or FirebaseFirestore".

(** [doc(db, ...)] and [collection(db, ...)] throw on a handle that is not
    a Firestore instance. *)
Definition reference : M unit :=
  fun w => if db w then (Returned tt, w) else (Raised invalidHandle, w).

Definition orElse {A} (new old : option A) : option A :=
  match new with Some _ => new | None => old end.

(** [setDoc(ref, fields, { merge: true })]: the fields given replace those
    of the document, the others stay. *)
Definition mergeSession (fields : ChatSession) (old : option ChatSession) : ChatSession :=
  match old with
  | None => fields
  | Some d =>
      {| cs_id := orElse (cs_id fields) (cs_id d);
         cs_userId := orElse (cs_userId fields) (cs_userId d);
         title := orElse (title fields) (title d);
         status := orElse (status fields) (status d);
         messages := orElse (messages fields) (messages d);
         createdAt := orElse (createdAt fields) (createdAt d);
         updatedAt := orElse (updatedAt fields) (updatedAt d);
         fileId := orElse (fileId fields) (fileId d);
         fileName := orElse (fileName fields) (fileName d);
         fileUrl := orElse (fileUrl fields) (fileUrl d);
         projectId := orElse (projectId fields) (projectId d) |}
  end.

(** [getDoc(doc(db, 'chat', sessionId))]: [None] when the snapshot does
    not exist. *)
Definition getDoc (sessionId : string) : M (option ChatSession) :=
  reference ;;; roundTrip ;;;
  fun w => (Returned (chat w !! sessionId), w).

Definition setDocMerge (sessionId : string) (fields : ChatSession) : M unit :=
  reference ;;; roundTrip ;;;
  fun w =>
    (Returned tt,
     withChat (<[sessionId := mergeSession fields (chat w !! sessionId)]> (chat w)) w).

(** The SDK validates the data of a write before any request: a
    property whose value is [undefined] is refused (the instance is
    created without [ignoreUndefinedProperties]).  The error names the
    field, unless it lies inside an array, and the document. *)
Definition unsupportedUndefined (call : string) (field : option string)
    (document : string) : Thrown :=
  ErrorInstance
    ("Function " +:+ call
     +:+ "() called with invalid data. Unsupported field value: undefined (found"
     +:+ match field with
         | Some f => " in field " +:+ f
         | None => ""
         end
     +:+ " in document " +:+ document +:+ ")").

(** The document the store writes: the sentinel becomes the store's
    time. *)
Definition resolved (now : Z) (t : TimeField) : TimeField :=
  match t with
  | ServerTimestampSentinel => Timestamp now
  | Timestamp ms => Timestamp ms
  end.

(** A stored message with a property whose value is [undefined]; of the
    properties [addMessage] writes only the rows of the table can be,
    when [JSON.stringify] returns [undefined] for them. *)
Definition hasUndefined (message : ChatMessage) : bool :=
  match tableData message with
  | Some td => match data td with JsUndefined => true | _ => false end
  | None => false
  end.

(** [setDoc(chatRef, { messages, updatedAt: serverTimestamp() },
    { merge: true })], [messages] being the stored ones with
    [newMessage] pushed; what was read from the store holds no
    [undefined]. *)
Definition setMessagesDoc (sessionId : string) (stored : list ChatMessage)
    (newMessage : ChatMessage) (updatedAt : Z) : M unit :=
  fun w =>
    if hasUndefined newMessage
    then (Raised (unsupportedUndefined "setDoc" None ("chat/" +:+ sessionId)), w)
    else
      setDocMerge sessionId
        (mkChatSession None None None None (Some (stored ++ [newMessage])) None
           (Some updatedAt) None None None None) w.

(** [addDoc(collection(db, 'chat'), data)]: stores [data] under a
    generated id and returns that id. *)
Definition addDoc (data : ChatSession) : M string :=
  reference ;;; roundTrip ;;;
  fun w =>
    let newId := genId w (issued w) in
    (Returned newId, withIssued (S (issued w)) (withChat (<[newId := data]> (chat w)) w)).

(** [orderBy('updatedAt', 'desc')]: insertion of a document into a list
    ordered by [updatedAt], latest first. *)
Definition updatedAtOf (d : ChatSession) : Z := default 0 (updatedAt d).

Fixpoint insertDesc (x : string * ChatSession) (l : list (string * ChatSession))
  : list (string * ChatSession) :=
  match l with
  | [] => [x]
  | y :: rest =>
      if updatedAtOf (snd y) <? updatedAtOf (snd x)
      then x :: y :: rest
      else y :: insertDesc x rest
  end.

Definition orderByUpdatedAtDesc (l : list (string * ChatSession))
  : list (string * ChatSession) :=
  List.fold_right insertDesc [] l.

(** [where('userId', '==', userId)] together with [orderBy('updatedAt')],
    which leaves out the documents that lack the ordering field. *)
Definition matchesQuery (userId : string) (entry : string * ChatSession) : bool :=
  match cs_userId (snd entry), updatedAt (snd entry) with
  | Some u, Some _ => String.eqb u userId
  | _, _ => false
  end.

(** [getDocs(query(collection(db, 'chat'), where('userId', '==', userId),
    orderBy('updatedAt', 'desc')))] *)
Definition getDocs (userId : string) : M (list (string * ChatSession)) :=
  reference ;;; roundTrip ;;;
  fun w =>
    (Returned (orderByUpdatedAtDesc
                 (List.filter (matchesQuery userId) (map_to_list (chat w)))), w).

(** Storage: [uploadBytes(ref(storage, path), file)] and
    [getDownloadURL(ref(storage, path))]. *)
Definition uploadBytes (path : string) : M unit :=
  roundTrip ;;;
  fun w => (Returned tt, withObjects (objects w ++ [path]) w).

Definition getDownloadURL (path : string) : M string :=
  roundTrip ;;;
  fun w => (Returned (downloadURL w path), w).

(** [addDoc(collection(db, 'fileMetadata'), data)]: the id of the new
    document is generated first, then the data is validated, then the
    document is written. *)
Definition addFileMetadataDoc (data : FileMetadata) : M string :=
  reference ;;;
  fun w =>
    let newId := genId w (issued w) in
    match fm_sessionId data with
    | None =>
        (Raised (unsupportedUndefined "addDoc" (Some "sessionId")
                   ("fileMetadata/" +:+ newId)),
         withIssued (S (issued w)) w)
    | Some _ =>
        (roundTrip ;;;
         fun w =>
           (Returned newId,
            withIssued (S (issued w))
              (withFileMetadata
                 (<[newId :=
                      mkFileMetadata (fm_id data) (fm_userId data)
                        (fm_fileName data) (fm_fileSize data) (fm_fileType data)
                        (fm_fileUrl data)
                        (resolved (serverClock w) (uploadedAt data))
                        (fm_sessionId data) (processed data) (fm_columns data)
                        (rowCount data)]>
                    (fileMetadataColl w)) w))) w
    end.

(** [setDoc(doc(db, 'fileMetadata', fileId), updates, { merge: true })]
    for the updates of [handleFileUpload]: [processed], [columns],
    [rowCount]. On a missing document the merge creates one holding only
    those fields, which [FileMetadata] cannot hold: the collection is
    left as it is then. *)
Definition setFileMetadataMerge (fileId : string) (processed' : bool)
    (columns' : list string) (rowCount' : Z) : M unit :=
  reference ;;; roundTrip ;;;
  fun w =>
    (Returned tt,
     withFileMetadata
       (alter (fun d =>
                 mkFileMetadata (fm_id d) (fm_userId d) (fm_fileName d) (fm_fileSize d)
                   (fm_fileType d) (fm_fileUrl d) (uploadedAt d) (fm_sessionId d)
                   processed' (Some columns') (Some rowCount'))
              fileId (fileMetadataColl w)) w).

End Firestore.

(** ** services/api.ts: [apiService] *)

Module apiService.

(** [uploadFile(file)]: the POST to [/api/files/upload] returns the parsed
    response or throws an [Error]; which of the two is the backend's
    reaction to the file. *)
Definition uploadFile (file : File) : Firestore.M api.FileUploadResponse :=
  fun w => (Firestore.backendUpload w file, w).

End apiService.

(** ** services/firestore.ts: [firestoreService] *)

Module firestoreService.
Import Firestore.

(** [createChatSession(userId, title = 'New Chat')] *)
Definition createChatSession (userId : string) (title : option string) : M string :=
  tryCatch
    (ifThenElse (fun w => negb (db w))
       (consoleError "Firestore not initialized" ;;;
        ret "")
       (createdAt <- serverTimestamp ;;
        updatedAt <- serverTimestamp ;;
        sessionRef <- addDoc
          {| cs_id := None;
             cs_userId := Some userId;
             Firestore.title := Some (default "New Chat" title);
             status := Some "active";
             messages := Some [];
             Firestore.createdAt := Some createdAt;
             Firestore.updatedAt := Some updatedAt;
             fileId := None; fileName := None; fileUrl := None;
             projectId := None |} ;;
        ret sessionRef))
    (fun error =>
       consoleError "Failed to create chat session" ;;;
       throw error).

(** [{ id: doc.id, ...doc.data() }]: an [id] field of the data wins. *)
Definition withDocId (entry : string * ChatSession) : ChatSession :=
  let d := snd entry in
  mkChatSession (orElse (cs_id d) (Some (fst entry))) (cs_userId d) (title d)
    (status d) (messages d) (createdAt d) (updatedAt d) (fileId d) (fileName d)
    (fileUrl d) (projectId d).

(** [!session.status || session.status === 'active'] *)
Definition isActive (session : ChatSession) : bool :=
  match status session with
  | None => true
  | Some s => negb (nonEmpty s) || String.eqb s "active"
  end.

Definition getChatSessions (userId : string) : M (list ChatSession) :=
  snapshot <- getDocs userId ;;
  ret (List.filter isActive (List.map withDocId snapshot)).

Definition getChatSession (sessionId : string) : M (option ChatSession) :=
  tryCatch
    (docSnap <- getDoc sessionId ;;
     match docSnap with
     | Some sessionData => ret (Some (withDocId (sessionId, sessionData)))
     | None => ret None
     end)
    (fun error =>
       consoleError "Failed to get chat session" ;;;
       ret None).

(** [updateChatSession(sessionId, updates)] *)
Definition updateChatSession (sessionId : string) (updates : ChatSession) : M unit :=
  updatedAt <- serverTimestamp ;;
  setDocMerge sessionId
    (mkChatSession (cs_id updates) (cs_userId updates) (title updates)
       (status updates) (messages updates) (createdAt updates) (Some updatedAt)
       (fileId updates) (fileName updates) (fileUrl updates) (projectId updates)).

Definition deleteChatSession (sessionId : string) : M unit :=
  tryCatch
    (ifThenElse (fun w => negb (db w))
       (consoleError "Firestore not initialized" ;;;
        throw (ErrorInstance "Firestore not available"))
       (updatedAt <- serverTimestamp ;;
        setDocMerge sessionId
          (mkChatSession None None None (Some "deleted") None None (Some updatedAt)
             None None None None)))
    (fun error =>
       consoleError "Failed to delete chat session" ;;;
       throw error).

Section JSON.

(** The platform's [JSON.stringify] ([None]: it returns [undefined]) and
    [JSON.parse] ([None]: it throws a [SyntaxError]). *)
Variable JSON_stringify : JsValue -> option string.
Variable JSON_parse : string -> option JsValue.

Definition stringified (v : JsValue) : JsValue :=
  match JSON_stringify v with
  | Some s => JsString s
  | None => JsUndefined
  end.

(** [sanitizedMessage] of [addMessage] *)
Definition sanitize (message : ChatMessage) : ChatMessage :=
  mkChatMessage (id message) (sessionId message) (userId message) (type message)
    (content message) (timestamp message)
    (if truthy (chartData message) then stringified (chartData message) else JsNull)
    (insights message) (followUpQuestions message) (fileInfo message)
    (match tableData message with
     | Some td =>
         Some (mkTableData (stringified (data td)) (columns td) (td_filename td))
     | None => None
     end)
    (codeExecution message).

(** [{ id: messageId, ...sanitizedMessage, timestamp: new Date() }] *)
Definition stamped (messageId : string) (now : Z) (sanitizedMessage : ChatMessage)
  : ChatMessage :=
  mkChatMessage (orElse (id sanitizedMessage) (Some messageId))
    (sessionId sanitizedMessage) (userId sanitizedMessage) (type sanitizedMessage)
    (content sanitizedMessage) now (chartData sanitizedMessage)
    (insights sanitizedMessage) (followUpQuestions sanitizedMessage)
    (fileInfo sanitizedMessage) (tableData sanitizedMessage)
    (codeExecution sanitizedMessage).

(** [addMessage(message)].  [sanitizedMessage] is declared with [const]
    inside the block of [if (chatSnap.exists())]; the [else] block is
    outside its scope, so building the argument of its [setDoc] raises a
    ReferenceError before [setDoc] is called. *)
Definition addMessage (message : ChatMessage) : M string :=
  tryCatch
    (ifThenElse (fun w => negb (db w))
       (consoleError "Firestore not initialized" ;;;
        ret "")
       (now <- Date_now ;;
        let messageId := toString now in
        chatSnap <- getDoc (sessionId message) ;;
        match chatSnap with
        | Some chatData =>
            let messages := default [] (messages chatData) in
            let sanitizedMessage := sanitize message in
            date <- Date_now ;;
            let newMessage := stamped messageId date sanitizedMessage in
            updatedAt <- serverTimestamp ;;
            setMessagesDoc (sessionId message) messages newMessage updatedAt ;;;
            ret messageId
        | None =>
            consoleWarn "Chat session not found, creating new session" ;;;
            throw (ErrorInstance "sanitizedMessage is not defined")
        end))
    (fun error =>
       consoleError "Failed to add message" ;;;
       throw error).

(** The callback of [messages.map] in [getMessages].  Nothing outside its
    two inner [try] blocks can throw, so the outer [catch] is not taken. *)
Definition processMessage (message : ChatMessage) : ChatMessage :=
  let chartData :=
    if truthy (chartData message) then
      match chartData message with
      | JsString s => default JsNull (JSON_parse s)
      | v => v
      end
    else JsNull in
  let tableData :=
    match tableData message with
    | Some td =>
        if truthy (data td) then
          match data td with
          | JsString s =>
              match JSON_parse s with
              | Some v => Some (mkTableData v (columns td) (td_filename td))
              | None => Some td
              end
          | _ => Some td
          end
        else Some td
    | None => None
    end in
  mkChatMessage (id message) (sessionId message) (userId message) (type message)
    (content message) (timestamp message) chartData
    (insights message) (followUpQuestions message) (fileInfo message)
    tableData (codeExecution message).

Definition getMessages (sessionId : string) : M (list ChatMessage) :=
  ifThenElse (fun w => negb (db w))
    (consoleError "Firestore not initialized in getMessages" ;;;
     ret [])
    (chatSnap <- getDoc sessionId ;;
     match chatSnap with
     | Some chatData =>
         ret (List.map processMessage (default [] (messages chatData)))
     | None =>
         consoleWarn "Chat document does not exist for session" ;;;
         ret []
     end).

End JSON.

(** [file.name.split('.').pop()]: what follows the last dot. *)
Fixpoint afterLastDot (s : string) : string :=
  match s with
  | EmptyString => EmptyString
  | String c rest =>
      if existsb (Ascii.eqb ".") (list_ascii_of_string rest)
      then afterLastDot rest
      else if Ascii.eqb c "." then rest else s
  end.

(** [uploadFile(userId, file, sessionId)] *)
Definition uploadFile (userId : string) (file : File) (sessionId : option string)
  : M FileMetadata :=
  tryCatch
    (ifThenElse (fun w => negb (storage w))
       (consoleError "Firebase Storage not initialized" ;;;
        throw (ErrorInstance "Storage not available"))
    (ifThenElse (fun w => negb (db w))
       (consoleError "Firestore not initialized" ;;;
        throw (ErrorInstance "Firestore not available"))
       (now <- Date_now ;;
        let fileId := userId +:+ "/" +:+ toString now +:+ "_" +:+ name file in
        let path := "user-files/" +:+ fileId in
        uploadBytes path ;;;
        fileUrl <- getDownloadURL path ;;
        let fileMetadata :=
          {| fm_id := None; fm_userId := userId; fm_fileName := name file;
             fm_fileSize := size file;
             fm_fileType :=
               if nonEmpty (mimeType file) then mimeType file
               else if nonEmpty (afterLastDot (name file))
                    then afterLastDot (name file) else "unknown";
             fm_fileUrl := fileUrl;
             Firestore.uploadedAt := ServerTimestampSentinel;
             fm_sessionId := sessionId; processed := false;
             fm_columns := None; rowCount := None |} in
        metadataRef <- addFileMetadataDoc fileMetadata ;;
        ret (mkFileMetadata (Some metadataRef) (fm_userId fileMetadata)
               (fm_fileName fileMetadata) (fm_fileSize fileMetadata)
               (fm_fileType fileMetadata) (fm_fileUrl fileMetadata)
               (Firestore.uploadedAt fileMetadata) (fm_sessionId fileMetadata)
               (processed fileMetadata) (fm_columns fileMetadata)
               (rowCount fileMetadata)))))
    (fun error =>
       consoleError "Failed to upload file" ;;;
       throw error).

Definition updateFileMetadata (fileId : string) (processed : bool)
    (columns : list string) (rowCount : Z) : M unit :=
  setFileMetadataMerge fileId processed columns rowCount.

End firestoreService.

(** ** components/Chat/ChatInterface.tsx: [handleFileUpload] *)

Module ChatInterface.

(** The value [handleFileUpload] passes to [setUploadedFile]. *)
Record UploadedFile : Type := mkUploadedFile {
  file_id : string;
  uf_name : string;
  uf_size : Z;
  uf_columns : list string;
  rows : Z;
  uf_preview : JsValue;
  firebaseFileId : option string
}.

Record User : Type := mkUser { uid : string }.

(** The component state the handler reads and sets. *)
Record Chat : Type := mkChat {
  messages : list Message;
  uploadedFile : option UploadedFile;
  currentSessionId : option string;
  user : option User
}.

(** Component state and the world of the services. *)
Record App : Type := mkApp {
  ui : Chat;
  world : Firestore.World
}.

Definition UI (A : Type) : Type := Eff App A.

(** A call into the services. *)
Definition await {A} (c : Firestore.M A) : UI A :=
  fun a => let '(r, w) := c (world a) in (r, mkApp (ui a) w).

Definition setMessages (updater : list Message -> list Message) : UI unit :=
  fun a =>
    (Returned tt,
     mkApp (mkChat (updater (messages (ui a))) (uploadedFile (ui a))
              (currentSessionId (ui a)) (user (ui a))) (world a)).

Definition setUploadedFile (f : option UploadedFile) : UI unit :=
  fun a =>
    (Returned tt,
     mkApp (mkChat (messages (ui a)) f (currentSessionId (ui a)) (user (ui a)))
       (world a)).

Definition updateCurrentSessionId (sessionId : option string) : UI unit :=
  fun a =>
    (Returned tt,
     mkApp (mkChat (messages (ui a)) (uploadedFile (ui a)) sessionId (user (ui a)))
       (world a)).

(** [s.startsWith(p)] and [s.endsWith(p)] *)
Definition startsWith (p s : string) : bool := String.prefix p s.

Definition endsWith (p s : string) : bool :=
  String.eqb (String.substring (String.length s - String.length p)
                (String.length p) s) p
  && (String.length p <=? String.length s)%nat.

(** [toLowerCase()], within the ASCII range. *)
Definition lowerAscii (c : ascii) : ascii :=
  let n := Ascii.nat_of_ascii c in
  if ((65 <=? n) && (n <=? 90))%nat then Ascii.ascii_of_nat (n + 32) else c.

Fixpoint toLowerCase (s : string) : string :=
  match s with
  | EmptyString => EmptyString
  | String c rest => String (lowerAscii c) (toLowerCase rest)
  end.

(** [sessionId && !sessionId.startsWith('temp_')] *)
Definition persistent (sessionId : string) : bool :=
  nonEmpty sessionId && negb (startsWith "temp_" sessionId).

Definition plainMessage (sessionId userId : string) (m : Message) : Firestore.ChatMessage :=
  Firestore.mkChatMessage None sessionId userId (type m) (content m) (timestamp m)
    JsUndefined None None None None None.

Definition uploadStartText : string := "파일을 업로드하고 분석하는 중입니다...".
Definition uploadErrorText : string := "파일 업로드 중 오류가 발생했습니다: ".
Definition unknownErrorText : string := "알 수 없는 오류".

Definition simpleMessage (id' : string) (content' : string) (now : Z) : Message :=
  mkMessage id' assistant content' now None JsUndefined None None None None.

(** [prev.map(msg => msg.id === id ? replacement : msg)] *)
Definition replaceById (id' : string) (replacement : Message)
    (prev : list Message) : list Message :=
  List.map (fun msg => if String.eqb (id msg) id' then replacement else msg) prev.

Section Upload.

(** [JSON.stringify], used by [addMessage], and the locale-dependent
    [Number.prototype.toLocaleString]. *)
Variable JSON_stringify : JsValue -> option string.
Variable toLocaleString : Z -> string.

(** The [try] block of [handleFileUpload]. *)
Definition uploadSteps (u : User) (file : File) (sessionId : string)
    (uploadStartMessage : Message) : UI unit :=
  fileMetadata <- await (firestoreService.uploadFile (uid u) file (Some sessionId)) ;;
  uploadResponse <- await (apiService.uploadFile file) ;;
  setUploadedFile
    (Some {| file_id := api.file_id uploadResponse;
             uf_name := api.filename uploadResponse;
             uf_size := api.file_size uploadResponse;
             uf_columns := api.columns uploadResponse;
             rows := api.row_count uploadResponse;
             uf_preview := api.preview uploadResponse;
             firebaseFileId := Firestore.fm_id fileMetadata |}) ;;;
  match Firestore.fm_id fileMetadata with
  | Some fid =>
      if nonEmpty fid
      then await (firestoreService.updateFileMetadata fid true
                    (api.columns uploadResponse)
                    (api.row_count uploadResponse))
      else ret tt
  | None => ret tt
  end ;;;
  now <- await Firestore.Date_now ;;
  let uploadMessage :=
    {| id := id uploadStartMessage; type := assistant;
       content :=
         "파일이 성공적으로 업로드되었습니다! ("
         +:+ toLocaleString (api.row_count uploadResponse) +:+ "행, "
         +:+ toString (Z.of_nat (List.length (api.columns uploadResponse)))
         +:+ "컬럼)" +:+ String newline (String newline "")
         +:+ "이제 데이터에 대해 질문해보세요.";
       timestamp := now; isStreaming := None; chartData := JsUndefined;
       followUpQuestions := None;
       fileInfo :=
         Some {| fi_filename := api.filename uploadResponse;
                 fileSize := api.file_size uploadResponse;
                 fileType :=
                   if endsWith ".csv" (toLowerCase (api.filename uploadResponse))
                   then "csv" else "excel";
                 fi_file_id := api.file_id uploadResponse |};
       tableData :=
         Some (mkTableData (api.preview uploadResponse)
                 (api.columns uploadResponse)
                 (api.filename uploadResponse));
       codeExecution := None |} in
  setMessages (replaceById (id uploadStartMessage) uploadMessage) ;;;
  (if persistent sessionId
   then
     await (firestoreService.addMessage JSON_stringify
              (Firestore.mkChatMessage None sessionId (uid u) (type uploadMessage)
                 (content uploadMessage) (timestamp uploadMessage) JsUndefined
                 None None (fileInfo uploadMessage) (tableData uploadMessage) None)) ;;;
     ret tt
   else ret tt) ;;;
  (if persistent sessionId
   then
     await (firestoreService.updateChatSession sessionId
              (Firestore.mkChatSession None None None None None None None
                 (Firestore.fm_id fileMetadata) (Some (name file))
                 (Some (Firestore.fm_fileUrl fileMetadata)) None))
   else ret tt).

(** The [catch] block of [handleFileUpload]. *)
Definition uploadFailed (u : User) (sessionId : string)
    (uploadStartMessage : Message) (error : Thrown) : UI unit :=
  await (Firestore.consoleError "Upload error") ;;;
  now <- await Firestore.Date_now ;;
  let errorMessage :=
    simpleMessage (id uploadStartMessage)
      (uploadErrorText +:+ messageOr unknownErrorText error) now in
  setMessages (replaceById (id uploadStartMessage) errorMessage) ;;;
  if persistent sessionId
  then
    tryCatch
      (await (firestoreService.addMessage JSON_stringify
                (plainMessage sessionId (uid u) errorMessage)) ;;;
       ret tt)
      (fun firestoreError =>
         await (Firestore.consoleError "Error saving error message to Firestore"))
  else ret tt.

(** [createChatSession(user.uid)] in its [try], with the temporary id of
    the [catch]. *)
Definition createOrTemp (u : User) : UI string :=
  tryCatch
    (sessionId <- await (firestoreService.createChatSession (uid u) None) ;;
     updateCurrentSessionId (Some sessionId) ;;;
     ret sessionId)
    (fun error =>
       await (Firestore.consoleError "Failed to create session") ;;;
       now <- await Firestore.Date_now ;;
       let sessionId := "temp_" +:+ toString now in
       updateCurrentSessionId (Some sessionId) ;;;
       ret sessionId).

(** The session to upload into: [currentSessionId], or a new one when it
    is not set ([null] or empty). *)
Definition sessionForUpload (u : User) : UI string :=
  fun a =>
    match currentSessionId (ui a) with
    | Some sessionId =>
        if nonEmpty sessionId then (Returned sessionId, a) else createOrTemp u a
    | None => createOrTemp u a
    end.

(** The message announcing the upload, appended to the transcript. *)
Definition announceUpload : UI Message :=
  now <- await Firestore.Date_now ;;
  let uploadStartMessage := simpleMessage (toString now) uploadStartText now in
  setMessages (fun prev => prev ++ [uploadStartMessage]) ;;;
  ret uploadStartMessage.

Definition handleFileUpload (file : File) : UI unit :=
  fun a =>
    match user (ui a) with
    | None => await (Firestore.consoleError "User not available for file upload") a
    | Some u =>
        (sessionId <- sessionForUpload u ;;
         uploadStartMessage <- announceUpload ;;
         tryCatch (uploadSteps u file sessionId uploadStartMessage)
           (uploadFailed u sessionId uploadStartMessage)) a
    end.

End Upload.

End ChatInterface.

(** ** A JSON codec

    [JSON.stringify] and [JSON.parse] belong to the platform; the services
    take them as parameters.  This codec instantiates them in the
    examples.  It follows the JSON grammar of the platform: white space
    between tokens, numbers with fraction and exponent and without
    leading zeros, the escapes of string literals, control characters
    refused inside a literal and escaped when printed.  Within the
    conventions of the embedding: a number that is not an integer has no
    term and is not read, and an integer is one the platform holds
    exactly (below 2^53 in absolute value); an object is the list of its properties in the
    order the platform enumerates them (array indices first, in ascending
    order, then the other names in order of creation), which is the order
    the reader builds. *)

Module JSON.

Definition dquote : ascii := Ascii.ascii_of_nat 34.
Definition backslash : ascii := Ascii.ascii_of_nat 92.

Definition hexDigit (n : nat) : ascii :=
  Ascii.ascii_of_nat (if (n <? 10)%nat then 48 + n else 87 + n).

(** A character inside a printed string literal. *)
Definition escapeChar (c : ascii) : string :=
  let n := Ascii.nat_of_ascii c in
  if Ascii.eqb c dquote || Ascii.eqb c backslash
  then String backslash (String c EmptyString)
  else if (n =? 8)%nat then String backslash "b"
  else if (n =? 9)%nat then String backslash "t"
  else if (n =? 10)%nat then String backslash "n"
  else if (n =? 12)%nat then String backslash "f"
  else if (n =? 13)%nat then String backslash "r"
  else if (n <? 32)%nat
       then String backslash
              ("u00" +:+ String (hexDigit (n / 16))
                           (String (hexDigit (n mod 16)) EmptyString))
  else String c EmptyString.

Fixpoint escape (s : string) : string :=
  match s with
  | EmptyString => EmptyString
  | String c rest => escapeChar c +:+ escape rest
  end.

Definition quote (s : string) : string :=
  String dquote (escape s +:+ String dquote EmptyString).

Fixpoint join (sep : string) (l : list string) : string :=
  match l with
  | [] => ""
  | [x] => x
  | x :: rest => x +:+ sep +:+ join sep rest
  end.

(** [JSON.stringify(v)]; [undefined] is printed as [null] inside an array
    and its field is left out of an object. *)
Fixpoint stringify (v : JsValue) : option string :=
  match v with
  | JsUndefined => None
  | JsNull => Some "null"
  | JsBool b => Some (if b then "true" else "false")
  | JsNumber n => Some (toString n)
  | JsString s => Some (quote s)
  | JsArray xs =>
      Some ("[" +:+ join "," (List.map (fun x => default "null" (stringify x)) xs)
            +:+ "]")
  | JsObject fields =>
      Some ("{" +:+
            join ","
              ((fix members (l : list (string * JsValue)) : list string :=
                  match l with
                  | [] => []
                  | (k, x) :: rest =>
                      match stringify x with
                      | Some t => (quote k +:+ ":" +:+ t) :: members rest
                      | None => members rest
                      end
                  end) fields)
            +:+ "}")
  end.

(** White space between tokens: space, tab, line feed, carriage return. *)
Definition isJsonSpace (c : ascii) : bool :=
  let n := Ascii.nat_of_ascii c in
  ((n =? 32) || (n =? 9) || (n =? 10) || (n =? 13))%nat.

Fixpoint skipSpace (s : string) : string :=
  match s with
  | String c rest => if isJsonSpace c then skipSpace rest else s
  | EmptyString => s
  end.

Definition digit (c : ascii) : option Z :=
  let n := Ascii.nat_of_ascii c in
  if ((48 <=? n) && (n <=? 57))%nat then Some (Z.of_nat n - 48) else None.

Definition hexValue (c : ascii) : option Z :=
  let n := Ascii.nat_of_ascii c in
  if ((48 <=? n) && (n <=? 57))%nat then Some (Z.of_nat n - 48)
  else if ((65 <=? n) && (n <=? 70))%nat then Some (Z.of_nat n - 55)
  else if ((97 <=? n) && (n <=? 102))%nat then Some (Z.of_nat n - 87)
  else None.

(** The four hexadecimal digits of a [\u] escape. *)
Definition readHex4 (s : string) : option (Z * string) :=
  match s with
  | String a (String b (String c (String e rest))) =>
      match hexValue a, hexValue b, hexValue c, hexValue e with
      | Some x, Some y, Some z, Some t =>
          Some (((x * 16 + y) * 16 + z) * 16 + t, rest)
      | _, _, _, _ => None
      end
  | _ => None
  end.

Definition byte (n : Z) : ascii := Ascii.ascii_of_N (Z.to_N n).

(** The UTF-8 encoding of a code point. *)
Definition utf8 (cp : Z) : string :=
  if cp <? 128 then String (byte cp) EmptyString
  else if cp <? 2048
       then String (byte (192 + cp / 64))
              (String (byte (128 + cp mod 64)) EmptyString)
  else if cp <? 65536
       then String (byte (224 + cp / 4096))
              (String (byte (128 + (cp / 64) mod 64))
                 (String (byte (128 + cp mod 64)) EmptyString))
  else String (byte (240 + cp / 262144))
         (String (byte (128 + (cp / 4096) mod 64))
            (String (byte (128 + (cp / 64) mod 64))
               (String (byte (128 + cp mod 64)) EmptyString))).

(** The code point of a [\u] escape whose digits are [high], with the
    text that follows: a high surrogate followed by the escape of a low
    one makes one code point. *)
Definition readEscaped (high : Z) (s : string) : Z * string :=
  if (55296 <=? high) && (high <=? 56319) then
    match s with
    | String b (String u rest) =>
        if Ascii.eqb b backslash && Ascii.eqb u "u" then
          match readHex4 rest with
          | Some (low, rest1) =>
              if (56320 <=? low) && (low <=? 57343)
              then (65536 + (high - 55296) * 1024 + (low - 56320), rest1)
              else (high, s)
          | None => (high, s)
          end
        else (high, s)
    | _ => (high, s)
    end
  else (high, s).

(** The characters of a string literal up to its closing quote; [fuel]
    bounds the number of characters read. *)
Fixpoint readString (fuel : nat) (s : string) : option (string * string) :=
  match fuel with
  | O => None
  | S fuel' =>
      match s with
      | EmptyString => None
      | String c rest =>
          if Ascii.eqb c dquote then Some (EmptyString, rest)
          else if Ascii.eqb c backslash then
            match rest with
            | String e rest1 =>
                let simple (r : ascii) :=
                  match readString fuel' rest1 with
                  | Some (t, rest2) => Some (String r t, rest2)
                  | None => None
                  end in
                if Ascii.eqb e dquote || Ascii.eqb e backslash || Ascii.eqb e "/"
                then simple e
                else if Ascii.eqb e "b" then simple (Ascii.ascii_of_nat 8)
                else if Ascii.eqb e "f" then simple (Ascii.ascii_of_nat 12)
                else if Ascii.eqb e "n" then simple (Ascii.ascii_of_nat 10)
                else if Ascii.eqb e "r" then simple (Ascii.ascii_of_nat 13)
                else if Ascii.eqb e "t" then simple (Ascii.ascii_of_nat 9)
                else if Ascii.eqb e "u" then
                  match readHex4 rest1 with
                  | Some (high, rest2) =>
                      let '(cp, rest3) := readEscaped high rest2 in
                      match readString fuel' rest3 with
                      | Some (t, rest4) => Some (utf8 cp +:+ t, rest4)
                      | None => None
                      end
                  | None => None
                  end
                else None
            | EmptyString => None
            end
          else if (Ascii.nat_of_ascii c <? 32)%nat then None
          else
            match readString fuel' rest with
            | Some (t, rest1) => Some (String c t, rest1)
            | None => None
            end
      end
  end.

(** Digits: their value, their number and the text that follows. *)
Fixpoint readDigits (acc : Z) (count : Z) (s : string) : Z * Z * string :=
  match s with
  | EmptyString => (acc, count, s)
  | String c rest =>
      match digit c with
      | Some d => readDigits (10 * acc + d) (count + 1) rest
      | None => (acc, count, s)
      end
  end.

(** The integer part: [0], or digits that do not start with [0]. *)
Definition readInteger (s : string) : option (Z * string) :=
  match s with
  | String c rest =>
      match digit c with
      | Some 0 =>
          match rest with
          | String e _ => match digit e with
                          | Some _ => None
                          | None => Some (0, rest)
                          end
          | EmptyString => Some (0, rest)
          end
      | Some _ => let '(n, _, rest1) := readDigits 0 0 s in Some (n, rest1)
      | None => None
      end
  | EmptyString => None
  end.

(** The fraction, if any: the digits after the point, at least one. *)
Definition readFraction (s : string) : option (Z * Z * string) :=
  match s with
  | String c rest =>
      if Ascii.eqb c "." then
        let '(n, count, rest1) := readDigits 0 0 rest in
        if count =? 0 then None else Some (n, count, rest1)
      else Some (0, 0, s)
  | EmptyString => Some (0, 0, s)
  end.

(** The exponent, if any: [e] or [E], a sign, at least one digit. *)
Definition readExponent (s : string) : option (Z * string) :=
  match s with
  | String c rest =>
      if Ascii.eqb c "e" || Ascii.eqb c "E" then
        let '(negative, rest1) :=
          match rest with
          | String sign rest1 =>
              if Ascii.eqb sign "-" then (true, rest1)
              else if Ascii.eqb sign "+" then (false, rest1)
              else (false, rest)
          | EmptyString => (false, rest)
          end in
        let '(n, count, rest2) := readDigits 0 0 rest1 in
        if count =? 0 then None
        else Some (if negative then - n else n, rest2)
      else Some (0, s)
  | EmptyString => Some (0, s)
  end.

(** The integer [mantissa * 10 ^ shift], when it is one (and of a size a
    number can have). *)
Definition scaled (mantissa shift : Z) : option Z :=
  if mantissa =? 0 then Some 0
  else if 400 <? Z.abs shift then None
  else if 0 <=? shift then Some (mantissa * 10 ^ shift)
  else if mantissa mod 10 ^ (- shift) =? 0
       then Some (mantissa / 10 ^ (- shift))
  else None.

Definition readNumber (s : string) : option (Z * string) :=
  let '(negative, s1) :=
    match s with
    | String c rest => if Ascii.eqb c "-" then (true, rest) else (false, s)
    | EmptyString => (false, s)
    end in
  match readInteger s1 with
  | Some (whole, s2) =>
      match readFraction s2 with
      | Some (fraction, places, s3) =>
          match readExponent s3 with
          | Some (exponent, s4) =>
              match scaled (whole * 10 ^ places + fraction) (exponent - places) with
              | Some n => Some (if negative then - n else n, s4)
              | None => None
              end
          | None => None
          end
      | None => None
      end
  | None => None
  end.

Definition keyword (k : string) (v : JsValue) (s : string) : option (JsValue * string) :=
  if String.prefix k s
  then Some (v, String.substring (String.length k) (String.length s - String.length k) s)
  else None.

(** The index a property name stands for, when it is an array index. *)
Definition indexKey (k : string) : option Z :=
  match readInteger k with
  | Some (n, EmptyString) => if n <? 4294967295 then Some n else None
  | _ => None
  end.

(** A property defined after those of [fields]: a name that exists
    keeps its place and takes the value; an array index comes before the
    larger indices and the other names; another name comes last. *)
Fixpoint setField (k : string) (v : JsValue) (fields : list (string * JsValue))
  : list (string * JsValue) :=
  match fields with
  | [] => [(k, v)]
  | (k', v') :: rest =>
      if String.eqb k' k then (k, v) :: rest
      else if existsb (fun field => String.eqb (fst field) k) rest
      then (k', v') :: setField k v rest
      else
        match indexKey k, indexKey k' with
        | Some n, Some n' =>
            if n <? n' then (k, v) :: fields else (k', v') :: setField k v rest
        | Some _, None => (k, v) :: fields
        | None, _ => (k', v') :: setField k v rest
        end
  end.

(** A recursive-descent reader; [fuel] bounds the nesting and the number
    of items read. *)
Fixpoint readValue (fuel : nat) (text : string) : option (JsValue * string) :=
  match fuel with
  | O => None
  | S fuel' =>
      let s := skipSpace text in
      match s with
      | EmptyString => None
      | String c rest =>
          if Ascii.eqb c "n" then keyword "null" JsNull s
          else if Ascii.eqb c "t" then keyword "true" (JsBool true) s
          else if Ascii.eqb c "f" then keyword "false" (JsBool false) s
          else if Ascii.eqb c dquote then
            match readString (S (String.length rest)) rest with
            | Some (t, rest1) => Some (JsString t, rest1)
            | None => None
            end
          else if Ascii.eqb c "[" then
            match skipSpace rest with
            | String "]" rest1 => Some (JsArray [], rest1)
            | _ =>
                match readItems fuel' rest with
                | Some (xs, rest1) => Some (JsArray xs, rest1)
                | None => None
                end
            end
          else if Ascii.eqb c "{" then
            match skipSpace rest with
            | String "}" rest1 => Some (JsObject [], rest1)
            | _ =>
                match readMembers fuel' [] rest with
                | Some (fs, rest1) => Some (JsObject fs, rest1)
                | None => None
                end
            end
          else
            match readNumber s with
            | Some (n, rest1) => Some (JsNumber n, rest1)
            | None => None
            end
      end
  end
with readItems (fuel : nat) (s : string) : option (list JsValue * string) :=
  match fuel with
  | O => None
  | S fuel' =>
      match readValue fuel' s with
      | Some (x, rest) =>
          match skipSpace rest with
          | String "," rest1 =>
              match readItems fuel' rest1 with
              | Some (xs, rest2) => Some (x :: xs, rest2)
              | None => None
              end
          | String "]" rest1 => Some ([x], rest1)
          | _ => None
          end
      | None => None
      end
  end
with readMembers (fuel : nat) (fields : list (string * JsValue)) (text : string)
  : option (list (string * JsValue) * string) :=
  match fuel with
  | O => None
  | S fuel' =>
      match skipSpace text with
      | String c rest =>
          if Ascii.eqb c dquote then
            match readString (S (String.length rest)) rest with
            | Some (k, rest1) =>
                match skipSpace rest1 with
                | String ":" rest2 =>
                    match readValue fuel' rest2 with
                    | Some (x, rest3) =>
                        match skipSpace rest3 with
                        | String "," rest4 =>
                            readMembers fuel' (setField k x fields) rest4
                        | String "}" rest4 => Some (setField k x fields, rest4)
                        | _ => None
                        end
                    | None => None
                    end
                | _ => None
                end
            | None => None
            end
          else None
      | EmptyString => None
      end
  end.

(** [JSON.parse(s)]: the whole text must be one value. *)
Definition parse (s : string) : option JsValue :=
  match readValue (2 * String.length s + 2) s with
  | Some (v, rest) =>
      match skipSpace rest with
      | EmptyString => Some v
      | String _ _ => None
      end
  | None => None
  end.

End JSON.

(** ** Vocabulary of the statements *)

(** The assembler as seen from the one message it assembles: when
    [assistantMessageId] names exactly one message of the transcript, the
    handler acts on that message, the buffer and the clock reading, and
    leaves the other messages alone. *)
Module Target.
Import Assembler.

Record Focus : Type := mkFocus {
  target : Message;
  buffer : string;
  lastUpdate : Z;
  final : Message
}.

(** The stream state that holds [f] between the messages [pre] and [post]. *)
Definition plug (pre post : list Message) (f : Focus) : Stream :=
  mkStream (pre ++ target f :: post) (buffer f) (lastUpdate f) (final f).

Definition step (now : Z) (chunk : Chunk) (f : Focus) : Focus :=
  let buffer1 :=
    match chunk with
    | text_stream c => buffer f +:+ c
    | _ => buffer f
    end in
  if isTextStream chunk && (now - lastUpdate f <? TEXT_UPDATE_THROTTLE)
  then mkFocus (target f) buffer1 (lastUpdate f) (final f)
  else
    mkFocus (fst (applyChunk chunk buffer1 (target f)))
      (snd (applyChunk chunk buffer1 (target f)))
      (if isTextStream chunk then now else lastUpdate f)
      (fst (applyChunk chunk buffer1 (target f))).

Fixpoint steps (events : list (Z * Chunk)) (f : Focus) : Focus :=
  match events with
  | [] => f
  | (now, chunk) :: rest => steps rest (step now chunk f)
  end.

Definition complete (f : Focus) : Focus :=
  if nonEmpty (buffer f)
  then mkFocus (setContent (content (target f) +:+ "") (target f)) ""
         (lastUpdate f) (final f)
  else f.

(** No message of [l] carries the id. *)
Definition others (assistantMessageId : string) (l : list Message) : Prop :=
  Forall (fun msg => id msg <> assistantMessageId) l.

(** The message has a code block that is marked executing. *)
Definition executing (msg : Message) : Prop :=
  exists ce, codeExecution msg = Some ce /\ isExecuting ce = true.

(** The ordered concatenation of texts. *)
Definition concatText (texts : list string) : string :=
  List.fold_right String.append "" texts.

(** A stream made of [text_stream] chunks only, from their arrival times
    and contents. *)
Definition textEvents (texts : list (Z * string)) : list (Z * Chunk) :=
  List.map (fun e => (fst e, text_stream (snd e))) texts.

(** The text a chunk delivers, and the text a stream delivers: the
    contents of its [text_stream] chunks, in order. *)
Definition chunkText (chunk : Chunk) : string :=
  match chunk with
  | text_stream c => c
  | _ => ""
  end.

Fixpoint streamedText (events : list (Z * Chunk)) : string :=
  match events with
  | [] => ""
  | (_, chunk) :: rest => chunkText chunk +:+ streamedText rest
  end.

Definition withBuffer (b : string) (f : Focus) : Focus :=
  mkFocus (target f) b (lastUpdate f) (final f).

(** A chunk that leaves the text of the content in place: a text delta,
    or a chunk that does not write the content. *)
Definition deltaOrSilent (chunk : Chunk) : bool :=
  match chunk with
  | text_stream _ | chart_generated _ | insights_generated | code_stream _
  | code_execution_result _ => true
  | other _ c => negb (nonEmpty c)
  | _ => false
  end.

(** The clock readings taken for the [text_stream] chunks never go back,
    starting from [last]. *)
Fixpoint timely (last : Z) (events : list (Z * Chunk)) : bool :=
  match events with
  | [] => true
  | (now, text_stream _) :: rest => (last <=? now) && timely now rest
  | _ :: rest => timely last rest
  end.

(** Clock readings that never go back, starting from [last]. *)
Fixpoint nondecreasing (last : Z) (times : list Z) : bool :=
  match times with
  | [] => true
  | t :: rest => (last <=? t) && nondecreasing t rest
  end.

(** The chart, table and code fields of the messages of a transcript. *)
Definition payloads (msgs : list Message)
  : list (JsValue * option TableData * option CodeExecution) :=
  List.map (fun msg => (chartData msg, tableData msg, codeExecution msg)) msgs.

(** The content the transcript shows for the id. *)
Definition shown (assistantMessageId : string) (st : Stream) : option string :=
  option_map content (findMessage assistantMessageId (messages st)).

End Target.

(** A value that [JSON.parse] reads back from the text [JSON.stringify]
    prints for it (the text of a value is never empty). *)
Definition roundTrips (stringify : JsValue -> option string)
    (parse : string -> option JsValue) (v : JsValue) : Prop :=
  exists s, stringify v = Some s /\ nonEmpty s = true /\ parse s = Some v.

(** The order of [getChatSessions]: the later update comes first. *)
Definition latestFirst (a b : Firestore.ChatSession) : Prop :=
  Firestore.updatedAtOf b <= Firestore.updatedAtOf a.

(** The first [n] SDK calls meet no fault. *)
Fixpoint noFault (n : nat) (faults : list (option Thrown)) : bool :=
  match n, faults with
  | O, _ => true
  | S _, [] => true
  | S n', None :: rest => noFault n' rest
  | S _, Some _ :: _ => false
  end.

(** ** Sample data of the examples *)

Definition sampleId : string := "1730000000001".

Definition sampleUserMessage : Message :=
  {| id := "1729999990000"; type := user; content := "Plot sales by month";
     timestamp := 1729999990000; isStreaming := None; chartData := JsUndefined;
     followUpQuestions := None; fileInfo := None; tableData := None;
     codeExecution := None |}.

Definition sampleCode : string :=
  "import pandas as pd" +:+ String newline (String newline "  ")
  +:+ String newline "df.describe()".

Definition sampleDoneEvents : list (Z * Assembler.Chunk) :=
  [(1, Assembler.analysis_start "Analysing");
   (2, Assembler.code_complete_display sampleCode);
   (3, Assembler.code_execution_result "ok");
   (4, Assembler.text_stream "Done");
   (5, Assembler.analysis_complete JsUndefined None None)].

Definition sampleExecutingMessage : Message :=
  setContent ""
    (setCodeExecution
       (Some {| codeChunks := Assembler.codeLines sampleCode; isExecuting := true;
                result := ""; output := "" |})
       (Assembler.initialAssistantMessage sampleId 0)).

(** The stream after [code_complete_display]: the code block is executing. *)
Definition sampleExecuting : Assembler.Stream :=
  Assembler.onChunk sampleId 2 (Assembler.code_complete_display sampleCode)
    (Assembler.startStream [sampleUserMessage] sampleId 0).

Definition sampleSession : Firestore.ChatSession :=
  {| Firestore.cs_id := None; Firestore.cs_userId := Some "u1";
     Firestore.title := Some "Sales"; Firestore.status := Some "active";
     Firestore.messages := Some [];
     Firestore.createdAt := Some 1729000000000;
     Firestore.updatedAt := Some 1729000000000;
     Firestore.fileId := None; Firestore.fileName := None;
     Firestore.fileUrl := None; Firestore.projectId := None |}.

Definition sampleUpload : api.FileUploadResponse :=
  {| api.file_id := "f-1"; api.filename := "sales.csv";
     api.file_size := 2048; api.columns := ["month"; "sales"];
     api.row_count := 12;
     api.preview := JsArray [JsObject [("month", JsString "Jan");
                                       ("sales", JsNumber 10)]];
     api.uploaded_at := "2024-10-27T00:00:00Z" |}.

(** A world with one session of user [u1], no fault pending. *)
Definition sampleWorld : Firestore.World :=
  {| Firestore.db := true; Firestore.storage := true;
     Firestore.chat := {[ "s1" := sampleSession ]};
     Firestore.fileMetadataColl := ∅;
     Firestore.objects := [];
     Firestore.faults := [];
     Firestore.genId := fun n => "doc" +:+ toString (Z.of_nat n);
     Firestore.issued := 0%nat;
     Firestore.downloadURL := fun path => "https://storage.example/" +:+ path;
     Firestore.clock := 1730000000000;
     Firestore.serverClock := 1730000000005;
     Firestore.console := [];
     Firestore.backendUpload := fun _ => Returned sampleUpload |}.

(** The same world when the next SDK call is rejected. *)
Definition sampleFault : Thrown := ErrorInstance "Missing or insufficient permissions.".

Definition sampleWorldFaulty : Firestore.World :=
  Firestore.withFaults [Some sampleFault] sampleWorld.

(** A chart payload with the nested arrays the store refuses inside an
    array element. *)
Definition sampleChart : JsValue :=
  JsObject [("data", JsArray [JsObject [("x", JsArray [JsNumber 1; JsNumber 2]);
                                         ("y", JsArray [JsArray [JsNumber 3];
                                                        JsArray [JsNumber (-4)]])]]);
            ("layout", JsObject [("title", JsString "Sales")])].

Definition sampleTable : TableData :=
  mkTableData (JsArray [JsArray [JsString "Jan"; JsNumber 10];
                        JsArray [JsString "Feb"; JsNumber 12]])
    ["month"; "sales"] "sales.csv".

Definition sampleChatMessage (sessionId : string) (chart : JsValue)
    (table : option TableData) : Firestore.ChatMessage :=
  Firestore.mkChatMessage None sessionId "u1" assistant "Here is the chart"
    1730000000000 chart None None None table None.

Definition sessionOf (userId title status : string) (updatedAt : Z)
  : Firestore.ChatSession :=
  Firestore.mkChatSession None (Some userId) (Some title) (Some status) (Some [])
    (Some 1729000000000) (Some updatedAt) None None None None.

(** A world with four sessions: two active ones and a deleted one of user
    [u1], and one of user [u2]. *)
Definition sampleWorldSessions : Firestore.World :=
  Firestore.withChat
    {[ "a" := sessionOf "u1" "Older" "active" 100;
       "b" := sessionOf "u1" "Removed" "deleted" 300;
       "c" := sessionOf "u1" "Newer" "active" 200;
       "d" := sessionOf "u2" "Other user" "active" 400 ]}
    sampleWorld.

Definition sampleFile : File := mkFile "sales.csv" 2048 "text/csv".

(** The component with a signed-in user, an open session and no active
    file, over a world whose next SDK call is rejected. *)
Definition sampleAppFaulty : ChatInterface.App :=
  ChatInterface.mkApp
    (ChatInterface.mkChat [sampleUserMessage] None (Some "s1")
       (Some (ChatInterface.mkUser "u1")))
    sampleWorldFaulty.

(** The same component over a world whose analysis backend rejects the
    upload. *)
Definition sampleAppBackendDown : ChatInterface.App :=
  ChatInterface.mkApp
    (ChatInterface.mkChat [sampleUserMessage] None (Some "s1")
       (Some (ChatInterface.mkUser "u1")))
    (Firestore.mkWorld true true (Firestore.chat sampleWorld) ∅ [] []
       (Firestore.genId sampleWorld) 0%nat (Firestore.downloadURL sampleWorld)
       1730000000000 1730000000005 []
       (fun _ => Raised (ErrorInstance "Unsupported file"))).

(** ** services/api.ts: [ApiService.askUnifiedQuestionStream] *)

Module ApiService.

(** [String(v)], the conversion [new Error(v)] applies to its argument. *)
Fixpoint jsToString (v : JsValue) : string :=
  match v with
  | JsUndefined => "undefined"
  | JsNull => "null"
  | JsBool b => if b then "true" else "false"
  | JsNumber n => toString n
  | JsString s => s
  | JsArray xs =>
      JSON.join ","
        (List.map (fun x => match x with
                            | JsUndefined | JsNull => ""
                            | _ => jsToString x
                            end) xs)
  | JsObject _ => "[object Object]"
  end.

(** [fields.detail] in an object literal read by [JSON.parse]: the last
    member of that name. *)
Fixpoint lastField (k : string) (fields : list (string * JsValue)) : JsValue :=
  match fields with
  | [] => JsUndefined
  | (k', v) :: rest =>
      if existsb (fun kv => String.eqb (fst kv) k) rest then lastField k rest
      else if String.eqb k' k then v else JsUndefined
  end.

(** [errorData.detail]: a [TypeError] on [null] and [undefined]. *)
Definition detailOf (errorData : JsValue) : Outcome JsValue :=
  match errorData with
  | JsObject fields => Returned (lastField "detail" fields)
  | JsNull =>
      Raised (ErrorInstance "Cannot read properties of null (reading 'detail')")
  | JsUndefined =>
      Raised (ErrorInstance "Cannot read properties of undefined (reading 'detail')")
  | _ => Returned JsUndefined
  end.

(** One [reader.read()] before the end of the body: it resolves with
    bytes, here already decoded (the body is valid UTF-8, which
    [TextDecoder] in streaming mode hands over unchanged), or rejects. *)
Inductive Read : Type :=
| Piece (value : string)
| ReadError (e : Thrown).

(** What [fetch] and the response give the method: [fetch] rejects; the
    response is not [ok], with the value [response.json()] resolves to
    ([None] when it rejects); the response has no body to read; or the
    reads of the body, followed by [done]. *)
Inductive Fetched : Type :=
| FetchRejected (e : Thrown)
| NotOk (status : Z) (errorData : option JsValue)
| NoBody
| Body (reads : list Read).

(** The state of the caller's callbacks and the console. *)
Record Client (S : Type) : Type := mkClient {
  handler : S;
  console : list (Level * string)
}.
Arguments mkClient {S} handler console.
Arguments handler {S} c.
Arguments console {S} c.

Section Stream.

Context {S : Type}.

(** [JSON.parse] and the three callbacks; [onError] and [onComplete] are
    optional. *)
Variable JSON_parse : string -> option JsValue.
Variable onChunk : JsValue -> Eff S unit.
Variable onError : option (Thrown -> Eff S unit).
Variable onComplete : option (Eff S unit).

Definition call {A} (c : Eff S A) : Eff (Client S) A :=
  fun cl => let '(r, s) := c (handler cl) in (r, mkClient s (console cl)).

Definition log (level : Level) (msg : string) : Eff (Client S) unit :=
  fun cl => (Returned tt, mkClient (handler cl) (console cl ++ [(level, msg)])).

(** [callback?.(...)] *)
Definition callOptional (c : option (Eff S unit)) : Eff (Client S) unit :=
  match c with
  | Some f => call f
  | None => ret tt
  end.

(** The body of [for (const line of lines)].  [JSON.parse] and [onChunk]
    run in one [try]: what either throws is logged as a parse error. *)
Definition handleLine (line : string) : Eff (Client S) unit :=
  if negb (nonEmpty (trim line)) then ret tt
  else if String.prefix "data: " line then
    let jsonStr := String.substring 6 (String.length line - 6) line in
    match JSON_parse jsonStr with
    | Some chunk =>
        tryCatch (call (onChunk chunk))
          (fun parseError => log LogWarn "JSON 파싱 오류")
    | None => log LogWarn "JSON 파싱 오류"
    end
  else ret tt.

Fixpoint forEachLine (lines : list string) : Eff (Client S) unit :=
  match lines with
  | [] => ret tt
  | line :: rest => handleLine line ;;; forEachLine rest
  end.

(** The [while (true)] loop: the reads left and the text kept in
    [buffer]. *)
Fixpoint readLoop (reads : list Read) (buffer : string) : Eff (Client S) unit :=
  match reads with
  | [] => callOptional onComplete
  | ReadError e :: _ => throw e
  | Piece value :: rest =>
      let buffer1 := buffer +:+ value in
      let lines := splitLines buffer1 in
      let buffer2 := List.last lines "" in
      forEachLine (List.removelast lines) ;;;
      readLoop rest buffer2
  end.

Definition askUnifiedQuestionStream (fetched : Fetched) : Eff (Client S) unit :=
  tryCatch
    (match fetched with
     | FetchRejected e => throw e
     | NotOk status errorData =>
         match detailOf (default (JsObject []) errorData) with
         | Returned detail =>
             throw (ErrorInstance
                      (if truthy detail then jsToString detail
                       else "HTTP error! status: " +:+ toString status))
         | Raised e => throw e
         end
     | NoBody =>
         throw (ErrorInstance "스트리밍을 지원하지 않는 브라우저입니다.")
     | Body reads => readLoop reads ""
     end)
    (fun error =>
       log LogError "스트리밍 오류" ;;;
       match onError with
       | Some f => call (f error)
       | None => ret tt
       end).

(** The end of a body that was read to its end: [onComplete], inside the
    [try] of the method. *)
Definition finish : Eff (Client S) unit :=
  tryCatch (callOptional onComplete)
    (fun error =>
       log LogError "스트리밍 오류" ;;;
       match onError with
       | Some f => call (f error)
       | None => ret tt
       end).

End Stream.

(** A computation whose result and effect on the callbacks' state do not
    depend on what the console holds. *)
Definition parametric {S A} (c : Eff (Client S) A) : Prop :=
  forall cl1 cl2 : Client S,
    handler cl1 = handler cl2 ->
    fst (c cl1) = fst (c cl2) /\ handler (snd (c cl1)) = handler (snd (c cl2)).

(** The text of complete lines: each one followed by a line feed. *)
Definition unlines (lines : list string) : string :=
  List.fold_right (fun line rest => line +:+ String newline rest) "" lines.

Definition hasNewline (s : string) : bool :=
  existsb (Ascii.eqb newline) (list_ascii_of_string s).

(** The pieces of a body, in order, as one text. *)
Definition bodyText (pieces : list string) : string :=
  List.fold_right String.append "" pieces.

End ApiService.

(** Sample callbacks: the state is the list of the chunks received, to
    which [onComplete] adds a mark. *)
Definition collectChunk (chunk : JsValue) : Eff (list JsValue) unit :=
  fun received => (Returned tt, received ++ [chunk]).

Definition markComplete : Eff (list JsValue) unit :=
  fun received => (Returned tt, received ++ [JsString "complete"]).

Definition sampleBody : string :=
  ApiService.unlines ["data: [1,2]"; "data: 3"].

(** ** components/Chat/ChatInterface.tsx: around the stream *)

Module Streaming.
Import Assembler.

(** [messageData] of [onComplete]: the record saved for the assistant
    message, built from [finalAssistantMessage]; the optional fields are
    copied when truthy ([Message] carries no [insights]). *)
Definition messageData (sessionId userId : string) (final : Message)
  : Firestore.ChatMessage :=
  Firestore.mkChatMessage None sessionId userId (type final) (content final)
    (timestamp final)
    (if truthy (chartData final) then chartData final else JsUndefined)
    None (followUpQuestions final) (fileInfo final) (tableData final)
    (codeExecution final).

(** interface [ConversationMessage] of services/api.ts *)
Record ConversationMessage : Type := mkConversationMessage {
  role : Role;
  cm_content : string;
  cm_timestamp : string
}.

(** [l.slice(-n)] *)
Definition sliceLast {A} (n : nat) (l : list A) : list A :=
  List.skipn (List.length l - n) l.

(** [conversationHistory] of [handleSendMessage]; [toISOString] is the
    platform's rendering of a date. *)
Definition conversationHistory (toISOString : Z -> string)
    (messages : list Message) : list ConversationMessage :=
  List.map
    (fun msg =>
       {| role := match type msg with user => user | assistant => assistant end;
          cm_content := content msg;
          cm_timestamp := toISOString (timestamp msg) |})
    (sliceLast 10
       (List.filter (fun msg => match type msg with
                                | user => true
                                | assistant => true
                                end) messages)).

(** The chunks that clear the streaming flag. *)
Definition endsStreaming (chunk : Chunk) : bool :=
  match chunk with
  | analysis_complete _ _ _ | error _ => true
  | _ => false
  end.

(** Two transcripts with the same ids at the same places, equal outside
    the message the stream assembles. *)
Definition sameFrame (assistantMessageId : string) (before after : list Message)
  : Prop :=
  Forall2 (fun m m' => id m' = id m /\ (id m <> assistantMessageId -> m' = m))
    before after.

(** Every code block of the first transcript is still there in the
    second. *)
Definition keepsCodeBlocks (before after : list Message) : Prop :=
  Forall2 (fun m m' => codeExecution m <> None -> codeExecution m' <> None)
    before after.

End Streaming.

(** ** services/firestore.ts: deleting files *)

Module FileStore.
Import Firestore.

(** [deleteDoc(doc(db, 'fileMetadata', fileId))]: deleting a document
    that does not exist succeeds. *)
Definition deleteDoc (fileId : string) : M unit :=
  reference ;;; roundTrip ;;;
  fun w => (Returned tt, withFileMetadata (delete fileId (fileMetadataColl w)) w).

(** [ref(storage, fileUrl)] throws a [TypeError] on a handle that is
    not a Storage instance, with the text of the engine (here V8's). *)
Definition invalidStorage : Thrown :=
  ErrorInstance "Cannot read properties of undefined (reading '_location')".

Definition storageRef : M unit :=
  fun w => if storage w then (Returned tt, w) else (Raised invalidStorage, w).

Definition objectNotFound (fileUrl : string) : Thrown :=
  ErrorInstance ("Firebase Storage: Object '" +:+ fileUrl
                 +:+ "' does not exist. (storage/object-not-found)").

(** The stored object a download URL refers to. *)
Definition refersTo (w : World) (fileUrl path : string) : bool :=
  String.eqb (downloadURL w path) fileUrl.

(** [deleteObject(ref(storage, fileUrl))]: it rejects when no object is
    stored there. *)
Definition deleteObject (fileUrl : string) : M unit :=
  roundTrip ;;;
  fun w =>
    if existsb (refersTo w fileUrl) (objects w)
    then (Returned tt,
          withObjects
            (List.filter (fun path => negb (refersTo w fileUrl path)) (objects w)) w)
    else (Raised (objectNotFound fileUrl), w).

(** [deleteFile(fileId, fileUrl)] *)
Definition deleteFile (fileId fileUrl : string) : M unit :=
  tryCatch
    (deleteDoc fileId ;;;
     storageRef ;;;
     deleteObject fileUrl)
    (fun error =>
       consoleError "Failed to delete file" ;;;
       throw error).

(** [deleteFiles(files)]: each file is a pair of its [id] and [fileUrl]. *)
Fixpoint deleteFiles (files : list (string * string)) : M unit :=
  match files with
  | [] => ret tt
  | file :: rest =>
      tryCatch
        (deleteFile (fst file) (snd file))
        (fun error => consoleError ("Failed to delete file " +:+ fst file)) ;;;
      deleteFiles rest
  end.

(** The path [uploadFile] stores a file at:
    [user-files/${userId}/${Date.now()}_${file.name}]. *)
Definition storagePath (userId : string) (now : Z) (file : File) : string :=
  "user-files/" +:+ (userId +:+ "/" +:+ toString now +:+ "_" +:+ name file).

(** The [fileMetadata] record of [uploadFile], with and without its id. *)
Definition storedMetadata (docId : option string) (userId : string) (file : File)
    (sessionId : option string) (fileUrl : string) (uploadedAt : TimeField)
  : FileMetadata :=
  mkFileMetadata docId userId (name file) (size file)
    (if nonEmpty (mimeType file) then mimeType file
     else if nonEmpty (firestoreService.afterLastDot (name file))
          then firestoreService.afterLastDot (name file) else "unknown")
    fileUrl uploadedAt sessionId false None None.

(** No SDK call to come meets a fault. *)
Definition answering (faults : list (option Thrown)) : bool :=
  forallb (fun fault => match fault with None => true | Some _ => false end) faults.

End FileStore.

(** ** What a handler leaves in place *)

Module Frame.
Import ChatInterface.

(** [c] relates the component state it starts from to the one it leaves
    by [P], whether it returns or raises. *)
Definition keeps {A} (P : Chat -> Chat -> Prop) (c : UI A) : Prop :=
  forall a, P (ui a) (ui (snd (c a))).

(** The same ids at the same places, for the same user. *)
Definition sameIds (before after : Chat) : Prop :=
  List.map id (messages after) = List.map id (messages before)
  /\ user after = user before.

(** The same active file. *)
Definition sameFile (before after : Chat) : Prop :=
  uploadedFile after = uploadedFile before.

End Frame.

(** ** components/Chat/ChatInterface.tsx: the session list *)

Module Sessions.

(** What [formatTimestamp] is given: nothing ([null] or [undefined]), a
    Firestore [Timestamp] (it has [toDate]), a [Date], which holds a time
    or is invalid, or a number of milliseconds; a time is held in
    milliseconds. *)
Inductive TimestampValue : Type :=
| NoTimestamp
| FirestoreTimestamp (ms : Z)
| DateValue (ms : Z)
| InvalidDate
| Millis (ms : Z).

(** The largest time value of a [Date]; [new Date(ms)] beyond it is an
    invalid date. *)
Definition maxTime : Z := 8640000000000000.

Section Format.

(** [date.toLocaleDateString('ko-KR')] for a valid date. *)
Variable toLocaleDateString : Z -> string.

(** The part of [formatTimestamp] after [date] is known. *)
Definition formatAge (now date : Z) : string :=
  let diffMs := now - date in
  let diffMins := diffMs / (1000 * 60) in
  let diffHours := diffMins / 60 in
  let diffDays := diffHours / 24 in
  if diffMins <? 1 then "방금 전"
  else if diffMins <? 60 then toString diffMins +:+ "분 전"
  else if diffHours <? 24 then toString diffHours +:+ "시간 전"
  else if diffDays =? 1 then "어제"
  else if diffDays <? 7 then toString diffDays +:+ "일 전"
  else toLocaleDateString date.

(** [formatTimestamp(timestamp)], [now] being the reading of
    [new Date()].  With an invalid date every comparison fails and
    [toLocaleDateString] prints "Invalid Date". *)
Definition formatTimestamp (now : Z) (timestamp : TimestampValue) : string :=
  match timestamp with
  | NoTimestamp => ""
  | FirestoreTimestamp ms | DateValue ms => formatAge now ms
  | InvalidDate => "Invalid Date"
  | Millis ms =>
      if ms =? 0 then ""
      else if Z.abs ms <=? maxTime then formatAge now ms
      else "Invalid Date"
  end.

End Format.

(** The file [handleSessionClick] makes active again: from a message
    ([columns], [rows], [preview]) or from the session document
    ([fileUrl]). *)
Record RestoredFile : Type := mkRestoredFile {
  rf_file_id : string;
  rf_name : string;
  rf_size : Z;
  rf_columns : option (list string);
  rf_rows : option JsValue;
  rf_preview : option JsValue;
  restored : bool;
  rf_fileUrl : option (option string)
}.

(** The values [setUploadedFile] is given by the handlers. *)
Inductive ActiveFile : Type :=
| Uploaded (f : ChatInterface.UploadedFile)
| Restored (f : RestoredFile).

(** State [deleteConfirmModal] *)
Record Modal : Type := mkModal {
  isOpen : bool;
  modalSessionId : option string;
  sessionTitle : option string
}.

(** The component state the session handlers read and set, the
    [currentSessionId] item of [localStorage], and the world of the
    services. *)
Record Page : Type := mkPage {
  messages : list Message;
  uploadedFile : option ActiveFile;
  currentSessionId : option string;
  user : option ChatInterface.User;
  chatHistory : list Firestore.ChatSession;
  deleteConfirmModal : Modal;
  currentPage : string;
  inputKey : Z;
  localSessionId : option string;
  world : Firestore.World
}.

Definition H (A : Type) : Type := Eff Page A.

Definition await {A} (c : Firestore.M A) : H A :=
  fun p =>
    let '(r, w) := c (world p) in
    (r, mkPage (messages p) (uploadedFile p) (currentSessionId p) (user p)
          (chatHistory p) (deleteConfirmModal p) (currentPage p) (inputKey p)
          (localSessionId p) w).

Definition setMessages (msgs : list Message) : H unit :=
  fun p =>
    (Returned tt,
     mkPage msgs (uploadedFile p) (currentSessionId p) (user p) (chatHistory p)
       (deleteConfirmModal p) (currentPage p) (inputKey p) (localSessionId p)
       (world p)).

Definition setUploadedFile (f : option ActiveFile) : H unit :=
  fun p =>
    (Returned tt,
     mkPage (messages p) f (currentSessionId p) (user p) (chatHistory p)
       (deleteConfirmModal p) (currentPage p) (inputKey p) (localSessionId p)
       (world p)).

Definition setChatHistory (sessions : list Firestore.ChatSession) : H unit :=
  fun p =>
    (Returned tt,
     mkPage (messages p) (uploadedFile p) (currentSessionId p) (user p) sessions
       (deleteConfirmModal p) (currentPage p) (inputKey p) (localSessionId p)
       (world p)).

Definition setDeleteConfirmModal (m : Modal) : H unit :=
  fun p =>
    (Returned tt,
     mkPage (messages p) (uploadedFile p) (currentSessionId p) (user p)
       (chatHistory p) m (currentPage p) (inputKey p) (localSessionId p)
       (world p)).

Definition setCurrentPage (page : string) : H unit :=
  fun p =>
    (Returned tt,
     mkPage (messages p) (uploadedFile p) (currentSessionId p) (user p)
       (chatHistory p) (deleteConfirmModal p) page (inputKey p)
       (localSessionId p) (world p)).

Definition setInputKey (key : Z) : H unit :=
  fun p =>
    (Returned tt,
     mkPage (messages p) (uploadedFile p) (currentSessionId p) (user p)
       (chatHistory p) (deleteConfirmModal p) (currentPage p) key
       (localSessionId p) (world p)).

(** [updateCurrentSessionId(sessionId)], in the browser: the state and
    the [localStorage] item, which is removed for [null] and for the
    empty string. *)
Definition updateCurrentSessionId (sessionId : option string) : H unit :=
  fun p =>
    (Returned tt,
     mkPage (messages p) (uploadedFile p) sessionId (user p) (chatHistory p)
       (deleteConfirmModal p) (currentPage p) (inputKey p)
       (match sessionId with
        | Some s => if nonEmpty s then Some s else None
        | None => None
        end)
       (world p)).

(** [loadChatHistory(user)] *)
Definition loadChatHistory (u : ChatInterface.User) : H unit :=
  tryCatch
    (sessions <- await (firestoreService.getChatSessions (ChatInterface.uid u)) ;;
     setChatHistory sessions)
    (fun error =>
       await (Firestore.consoleWarn
                "Failed to load chat history (continuing without it)") ;;;
       setChatHistory []).

(** [currentSessionId === sessionId] *)
Definition isCurrent (current : option string) (sessionId : string) : bool :=
  match current with
  | Some s => String.eqb s sessionId
  | None => false
  end.

Definition closedModal : Modal := mkModal false None None.

(** [handleDeleteChatConfirm()]; [user], [deleteConfirmModal] and
    [currentSessionId] are those of the render the handler belongs to. *)
Definition handleDeleteChatConfirm : H unit :=
  fun p =>
    match user p, modalSessionId (deleteConfirmModal p) with
    | Some u, Some sessionId =>
        if nonEmpty sessionId then
          (tryCatch
             (await (firestoreService.deleteChatSession sessionId) ;;;
              loadChatHistory u ;;;
              if isCurrent (currentSessionId p) sessionId
              then
                updateCurrentSessionId None ;;;
                setMessages [] ;;;
                setUploadedFile None
              else ret tt)
             (fun error =>
                await (Firestore.consoleError "Failed to delete chat")) ;;;
           setDeleteConfirmModal closedModal) p
        else (Returned tt, p)
    | _, _ => (Returned tt, p)
    end.

(** [a || b] on values *)
Definition orValue (a b : JsValue) : JsValue := if truthy a then a else b.

(** [v?.length]: the length of an array or of a string (ASCII), the
    [length] field of an object, [undefined] otherwise. *)
Definition lengthOf (v : JsValue) : JsValue :=
  match v with
  | JsArray xs => JsNumber (Z.of_nat (List.length xs))
  | JsString s => JsNumber (Z.of_nat (String.length s))
  | JsObject fields =>
      match List.find (fun field => String.eqb (fst field) "length") fields with
      | Some field => snd field
      | None => JsUndefined
      end
  | _ => JsUndefined
  end.

(** [sessionFileInfo] as a message with a file id sets it. *)
Definition fileOfMessage (msg : Firestore.ChatMessage) (fi : FileInfo) : RestoredFile :=
  let data := match Firestore.tableData msg with
              | Some td => data td
              | None => JsUndefined
              end in
  {| rf_file_id := fi_file_id fi;
     rf_name := fi_filename fi;
     rf_size := fileSize fi;
     rf_columns := Some (match Firestore.tableData msg with
                         | Some td => columns td
                         | None => []
                         end);
     rf_rows := Some (orValue (lengthOf data) (JsNumber 0));
     rf_preview := Some (orValue data (JsArray []));
     restored := false;
     rf_fileUrl := None |}.

Section Click.

(** [JSON.parse], used by [getMessages], and [toString()] of a stored
    timestamp. *)
Variable JSON_parse : string -> option JsValue.
Variable timestampToString : Z -> string.

(** [msg.id || msg.timestamp?.toString() || `msg-${index}`] *)
Definition messageId (index : nat) (msg : Firestore.ChatMessage) : string :=
  let fromTimestamp :=
    if nonEmpty (timestampToString (Firestore.timestamp msg))
    then timestampToString (Firestore.timestamp msg)
    else "msg-" +:+ toString (Z.of_nat index) in
  match Firestore.id msg with
  | Some i => if nonEmpty i then i else fromTimestamp
  | None => fromTimestamp
  end.

(** The callback of [sessionMessages.map] with the [sessionFileInfo] it
    assigns; [index] counts the messages.  The stored timestamp is a
    Firestore [Timestamp], converted by [toDate()].  ([Message] carries
    no [insights].) *)
Fixpoint convertMessages (index : nat) (sessionMessages : list Firestore.ChatMessage)
    (sessionFileInfo : option RestoredFile)
  : list Message * option RestoredFile :=
  match sessionMessages with
  | [] => ([], sessionFileInfo)
  | msg :: rest =>
      let sessionFileInfo1 :=
        match Firestore.fileInfo msg, sessionFileInfo with
        | Some fi, None =>
            if nonEmpty (fi_file_id fi) then Some (fileOfMessage msg fi) else None
        | _, _ => sessionFileInfo
        end in
      let converted :=
        {| id := messageId index msg;
           type := Firestore.type msg;
           content := Firestore.content msg;
           timestamp := Firestore.timestamp msg;
           isStreaming := None;
           chartData := Firestore.chartData msg;
           followUpQuestions := Firestore.followUpQuestions msg;
           fileInfo := Firestore.fileInfo msg;
           tableData := Firestore.tableData msg;
           codeExecution := Firestore.codeExecution msg |} in
      let '(rest1, sessionFileInfo2) :=
        convertMessages (S index) rest sessionFileInfo1 in
      (converted :: rest1, sessionFileInfo2)
  end.

(** A stored message that names a file. *)
Definition hasFileId (msg : Firestore.ChatMessage) : bool :=
  match Firestore.fileInfo msg with
  | Some fi => nonEmpty (fi_file_id fi)
  | None => false
  end.

(** The file of the first stored message that names one. *)
Definition firstFile (sessionMessages : list Firestore.ChatMessage)
  : option RestoredFile :=
  match List.find hasFileId sessionMessages with
  | Some msg => option_map (fileOfMessage msg) (Firestore.fileInfo msg)
  | None => None
  end.

(** A stored message and the message shown for it. *)
Definition shows (stored : Firestore.ChatMessage) (shown : Message) : Prop :=
  type shown = Firestore.type stored
  /\ content shown = Firestore.content stored
  /\ timestamp shown = Firestore.timestamp stored
  /\ chartData shown = Firestore.chartData stored
  /\ followUpQuestions shown = Firestore.followUpQuestions stored
  /\ fileInfo shown = Firestore.fileInfo stored
  /\ tableData shown = Firestore.tableData stored
  /\ codeExecution shown = Firestore.codeExecution stored
  /\ isStreaming shown = None
  /\ forall i, Firestore.id stored = Some i -> nonEmpty i = true -> id shown = i.

(** The file of the session document, when it names one. *)
Definition fileOfSession (sessionData : option Firestore.ChatSession)
  : option ActiveFile :=
  match sessionData with
  | Some d =>
      match Firestore.fileId d, Firestore.fileName d with
      | Some fileId, Some fileName =>
          if nonEmpty fileId && nonEmpty fileName
          then Some (Restored
                       {| rf_file_id := fileId; rf_name := fileName; rf_size := 0;
                          rf_columns := None; rf_rows := None; rf_preview := None;
                          restored := false;
                          rf_fileUrl := Some (Firestore.fileUrl d) |})
          else None
      | _, _ => None
      end
  | None => None
  end.

(** [error.message] throws a [TypeError] on [null] and [undefined]. *)
Definition readMessage (error : Thrown) : H unit :=
  match error with
  | NonError JsUndefined =>
      throw (ErrorInstance "Cannot read properties of undefined (reading 'message')")
  | NonError JsNull =>
      throw (ErrorInstance "Cannot read properties of null (reading 'message')")
  | _ => ret tt
  end.

(** [handleSessionClick(sessionId)]; [user] and [currentSessionId] are
    those of the render the handler belongs to. *)
Definition handleSessionClick (sessionId : string) : H unit :=
  fun p =>
    match user p with
    | None => (Returned tt, p)
    | Some u =>
        if isCurrent (currentSessionId p) sessionId then (Returned tt, p)
        else
          tryCatch
            (updateCurrentSessionId (Some sessionId) ;;;
             setCurrentPage "chat" ;;;
             sessionMessages <-
               await (firestoreService.getMessages JSON_parse sessionId) ;;
             match sessionMessages with
             | [] =>
                 await (Firestore.consoleWarn "No messages found for session") ;;;
                 setMessages [] ;;;
                 setUploadedFile None
             | _ :: _ =>
                 let '(convertedMessages, sessionFileInfo) :=
                   convertMessages 0 sessionMessages None in
                 setMessages convertedMessages ;;;
                 now <- await Firestore.Date_now ;;
                 setInputKey now ;;;
                 match sessionFileInfo with
                 | Some f => setUploadedFile (Some (Restored f))
                 | None =>
                     setUploadedFile None ;;;
                     tryCatch
                       (sessionData <-
                          await (firestoreService.getChatSession sessionId) ;;
                        setUploadedFile (fileOfSession sessionData))
                       (fun error =>
                          await (Firestore.consoleWarn
                                   "Could not restore file info from session metadata") ;;;
                          setUploadedFile None)
                 end
             end)
            (fun error =>
               await (Firestore.consoleError "Failed to load session") ;;;
               readMessage error ;;;
               await (Firestore.consoleError "Error details") ;;;
               setUploadedFile None) p
    end.

End Click.

End Sessions.

(** The page of user [u1] showing session [c], with the dialog open to
    delete that session. *)
Definition samplePage : Sessions.Page :=
  Sessions.mkPage [sampleUserMessage] None (Some "c")
    (Some (ChatInterface.mkUser "u1"))
    [firestoreService.withDocId ("c", sessionOf "u1" "Newer" "active" 200);
     firestoreService.withDocId ("a", sessionOf "u1" "Older" "active" 100)]
    (Sessions.mkModal true (Some "c") (Some "Newer")) "chat" 0 (Some "c")
    sampleWorldSessions.

(** The same page when the next SDK call is rejected. *)
Definition samplePageFaulty : Sessions.Page :=
  Sessions.mkPage (Sessions.messages samplePage) None (Some "c")
    (Some (ChatInterface.mkUser "u1")) (Sessions.chatHistory samplePage)
    (Sessions.mkModal true (Some "c") (Some "Newer")) "chat" 0 (Some "c")
    (Firestore.withFaults [Some sampleFault] sampleWorldSessions).

(** A stored session with a question and the message of an upload. *)
Definition sampleStoredQuestion : Firestore.ChatMessage :=
  Firestore.mkChatMessage (Some "1729999990000") "m" "u1" user
    "Plot sales by month" 1729999990000 JsNull None None None None None.

Definition sampleStoredUpload : Firestore.ChatMessage :=
  Firestore.mkChatMessage (Some "1730000000000") "m" "u1" assistant
    "The file was uploaded" 1730000000000 JsNull None None
    (Some (mkFileInfo "sales.csv" 2048 "csv" "f-1")) (Some sampleTable) None.

Definition sampleWorldMessages : Firestore.World :=
  Firestore.withChat
    {[ "m" := Firestore.mkChatSession None (Some "u1") (Some "Sales")
                (Some "active") (Some [sampleStoredQuestion; sampleStoredUpload])
                (Some 1729000000000) (Some 1730000000005) None None None None ]}
    sampleWorld.

(** The page of user [u1] before any session is open. *)
Definition samplePageHome : Sessions.Page :=
  Sessions.mkPage [] None None (Some (ChatInterface.mkUser "u1")) []
    Sessions.closedModal "home" 0 None sampleWorldMessages.

(** * Properties *)

(** ** Strings *)

Lemma append_cons (c : ascii) (s t : string) :
  String c s +:+ t = String c (s +:+ t).
Proof. reflexivity. Qed.

Lemma append_nil_r (s : string) : s +:+ "" = s.
Proof.
  induction s as [|c s IH]; [reflexivity|]. rewrite append_cons. now f_equal.
Qed.

Lemma append_assoc (a b c : string) : (a +:+ b) +:+ c = a +:+ (b +:+ c).
Proof.
  induction a as [|x a IH]; [reflexivity|]. rewrite !append_cons. now f_equal.
Qed.

Lemma nonEmpty_false (s : string) : nonEmpty s = false -> s = "".
Proof.
  unfold nonEmpty. intros H. apply negb_false_iff in H.
  now apply String.eqb_eq in H.
Qed.

(** ** The streaming response assembler *)

Module AssemblerProps.
Import Assembler Target.

(** Case analysis on the scrutinee of every [match] and [if] of the goal. *)
Ltac branches :=
  repeat match goal with
         | |- context [match ?x with _ => _ end] => destruct x eqn:?; simpl
         end.

(** The handler keeps the id of the message it updates. *)
Lemma applyChunk_id chunk tb msg : id (fst (applyChunk chunk tb msg)) = id msg.
Proof. destruct chunk; simpl; branches; reflexivity. Qed.

Lemma updateMessages_others aid chunk l tb fin :
  others aid l -> updateMessages aid chunk l tb fin = (l, tb, fin).
Proof.
  induction 1 as [|msg l Hne _ IH]; simpl; [reflexivity|].
  apply String.eqb_neq in Hne. now rewrite Hne, IH.
Qed.

Lemma updateMessages_focus aid chunk pre post msg tb fin :
  others aid pre -> others aid post -> id msg = aid ->
  updateMessages aid chunk (pre ++ msg :: post) tb fin =
  (pre ++ fst (applyChunk chunk tb msg) :: post,
   snd (applyChunk chunk tb msg), fst (applyChunk chunk tb msg)).
Proof.
  intros Hpre Hpost Hid. induction Hpre as [|x pre Hne _ IH]; simpl.
  - rewrite Hid, String.eqb_refl.
    destruct (applyChunk chunk tb msg) as [um tb1]; simpl.
    now rewrite (updateMessages_others _ _ _ _ _ Hpost).
  - apply String.eqb_neq in Hne. now rewrite Hne, IH.
Qed.

Lemma step_id now chunk f : id (target (step now chunk f)) = id (target f).
Proof.
  unfold step. destruct (_ && _); simpl; [reflexivity | apply applyChunk_id].
Qed.

Lemma steps_id events : forall f, id (target (steps events f)) = id (target f).
Proof.
  induction events as [|[now chunk] rest IH]; intros f; simpl; [reflexivity|].
  now rewrite IH, step_id.
Qed.

Lemma findMessage_focus aid l msg post :
  others aid l -> id msg = aid -> findMessage aid (l ++ msg :: post) = Some msg.
Proof.
  intros Hl Hid. unfold findMessage.
  induction Hl as [|x l Hne _ IH]; simpl.
  - now rewrite Hid, String.eqb_refl.
  - apply String.eqb_neq in Hne. now rewrite Hne.
Qed.

Section Focused.

Variables (aid : string) (pre post : list Message).
Hypothesis Hpre : others aid pre.
Hypothesis Hpost : others aid post.

Lemma onChunk_plug now chunk f :
  id (target f) = aid ->
  onChunk aid now chunk (plug pre post f) = plug pre post (step now chunk f).
Proof.
  intros Hid. unfold onChunk, step, plug; simpl.
  destruct (isTextStream chunk && _); [reflexivity|].
  now rewrite (updateMessages_focus _ _ _ _ _ _ _ Hpre Hpost Hid).
Qed.

Lemma onChunks_plug events : forall f,
  id (target f) = aid ->
  onChunks aid events (plug pre post f) = plug pre post (steps events f).
Proof.
  induction events as [|[now chunk] rest IH]; intros f Hid; simpl; [reflexivity|].
  rewrite (onChunk_plug _ _ _ Hid). apply IH. now rewrite step_id.
Qed.

Lemma map_others (g : Message -> Message) l :
  others aid l ->
  List.map (fun msg => if String.eqb (id msg) aid then g msg else msg) l = l.
Proof.
  induction 1 as [|msg l Hne _ IH]; simpl; [reflexivity|].
  apply String.eqb_neq in Hne. now rewrite Hne, IH.
Qed.

Lemma onComplete_plug f :
  id (target f) = aid ->
  onComplete aid (plug pre post f) = plug pre post (complete f).
Proof.
  intros Hid. unfold onComplete, complete, plug, flushUpdater.
  cbn [textBuffer messages lastTextUpdate finalAssistantMessage buffer].
  destruct (nonEmpty (buffer f)); [|reflexivity].
  cbn [target lastUpdate final].
  rewrite List.map_app. cbn [List.map]. rewrite Hid, String.eqb_refl.
  now rewrite (map_others _ _ Hpre), (map_others _ _ Hpost).
Qed.

Lemma runStream_plug events f :
  id (target f) = aid ->
  runStream aid events (plug pre post f) = plug pre post (complete (steps events f)).
Proof.
  intros Hid. unfold runStream. rewrite (onChunks_plug _ _ Hid).
  apply onComplete_plug. now rewrite steps_id.
Qed.

Lemma shown_plug f :
  id (target f) = aid -> shown aid (plug pre post f) = Some (content (target f)).
Proof.
  intros Hid. unfold shown, plug; simpl.
  now rewrite (findMessage_focus _ _ _ _ Hpre Hid).
Qed.

End Focused.

(** *** The end-of-stream flush *)

(** The flush leaves the content as it is: its updater appends the
    cleared buffer. *)
Lemma complete_target f : target (complete f) = target f.
Proof.
  unfold complete. destruct (nonEmpty (buffer f)); [|reflexivity].
  cbn [target]. unfold setContent. rewrite append_nil_r. now destruct (target f).
Qed.

Lemma complete_final f : final (complete f) = final f.
Proof. unfold complete. now destruct (nonEmpty (buffer f)). Qed.

Lemma complete_id f : id (target (complete f)) = id (target f).
Proof. now rewrite complete_target. Qed.

(** *** Streams of text deltas *)

Lemma step_delta now chunk f :
  codeExecution (target f) = None ->
  deltaOrSilent chunk = true ->
  timely (lastUpdate f) [(now, chunk)] = true ->
  content (target (step now chunk f)) = content (target f) +:+ chunkText chunk
  /\ codeExecution (target (step now chunk f)) = None
  /\ lastUpdate (step now chunk f)
     = if isTextStream chunk then now else lastUpdate f.
Proof.
  intros Hcode Hchunk Hclock. unfold step.
  destruct chunk; try discriminate Hchunk;
    cbn [isTextStream andb applyChunk fst snd target lastUpdate chunkText];
    rewrite ?Hcode, ?append_nil_r; try (repeat split; assumption).
  - (* text_stream *)
    cbn [timely] in Hclock. apply andb_true_iff in Hclock as [Hle _].
    apply Z.leb_le in Hle.
    assert (Hnow : (now - lastUpdate f <? TEXT_UPDATE_THROTTLE) = false)
      by (apply Z.ltb_ge; unfold TEXT_UPDATE_THROTTLE; lia).
    rewrite Hnow. cbn [andb target lastUpdate].
    destruct (nonEmpty content0) eqn:Hc; cbn [fst target content codeExecution setContent].
    + repeat split. exact Hcode.
    + apply nonEmpty_false in Hc. subst content0.
      rewrite append_nil_r. repeat split. exact Hcode.
  - (* other, with no content *)
    cbn [deltaOrSilent] in Hchunk. apply negb_true_iff in Hchunk.
    rewrite Hchunk. cbn [fst]. repeat split. exact Hcode.
Qed.

Lemma timely_cons last now chunk rest :
  timely last ((now, chunk) :: rest) = true ->
  timely last [(now, chunk)] = true
  /\ timely (if isTextStream chunk then now else last) rest = true.
Proof.
  destruct chunk; cbn [timely isTextStream]; intros H; try (now split).
  apply andb_true_iff in H as [-> H]. now split.
Qed.

Lemma steps_deltas events : forall f,
  codeExecution (target f) = None ->
  forallb deltaOrSilent (List.map snd events) = true ->
  timely (lastUpdate f) events = true ->
  content (target (steps events f)) = content (target f) +:+ streamedText events.
Proof.
  induction events as [|[now chunk] events IH]; intros f Hcode Hchunks Hclock.
  - cbn. now rewrite append_nil_r.
  - cbn [List.map forallb snd] in Hchunks.
    apply andb_true_iff in Hchunks as [Hchunk Hchunks].
    apply timely_cons in Hclock as [Hnow Hclock].
    destruct (step_delta now chunk f Hcode Hchunk Hnow) as (Hcontent & Hcode1 & Hlast).
    cbn [steps streamedText]. rewrite IH; try assumption.
    + now rewrite Hcontent, append_assoc.
    + now rewrite Hlast.
Qed.

Lemma startStream_plug prev aid ts :
  startStream prev aid ts =
  plug prev [] (mkFocus (initialAssistantMessage aid ts) "" 0
                  (initialAssistantMessage aid ts)).
Proof. reflexivity. Qed.

(** C1, as amended.  On a message that has no code block, a run of
    [text_stream] chunks, with or without chunks that do not write the
    content among them and with clock readings that never go back,
    appends every delta once and in order to the content the message has
    when the run starts, and the end-of-stream flush adds nothing: the
    final content is that content followed by the ordered concatenation
    of the deltas.  When the run opens the stream, that content is the
    processing placeholder. *)
Theorem text_stream_assembled_after_content aid pre post msg st events :
  messages st = pre ++ msg :: post ->
  id msg = aid -> others aid pre -> others aid post ->
  codeExecution msg = None ->
  forallb deltaOrSilent (List.map snd events) = true ->
  timely (lastTextUpdate st) events = true ->
  shown aid (runStream aid events st) = Some (content msg +:+ streamedText events)
  /\ (timely 0 events = true ->
      forall prev ts, others aid prev ->
        shown aid (runStream aid events (startStream prev aid ts))
        = Some (processingPlaceholder +:+ streamedText events)).
Proof.
  intros Hmsgs Hid Hpre Hpost Hcode Hchunks Hclock. split.
  - set (f := mkFocus msg (textBuffer st) (lastTextUpdate st)
                (finalAssistantMessage st)).
    assert (Hst : st = plug pre post f)
      by (destruct st; simpl in *; subst; reflexivity).
    rewrite Hst, (runStream_plug _ _ _ Hpre Hpost) by exact Hid.
    rewrite (shown_plug _ _ _ Hpre) by (now rewrite complete_id, steps_id).
    now rewrite complete_target, (steps_deltas events f Hcode Hchunks Hclock).
  - intros Hzero prev ts Hprev.
    rewrite startStream_plug.
    rewrite runStream_plug by (constructor || assumption || reflexivity).
    rewrite shown_plug
      by (try assumption; now rewrite complete_id, steps_id).
    now rewrite complete_target, steps_deltas.
Qed.

(** C1 as the specification states it fails on a single delta: the
    content keeps the placeholder in front of it; and when
    [analysis_complete] closes the stream the delta is there twice. *)
Lemma text_stream_not_plain_concatenation :
  shown sampleId (runStream sampleId [(5, text_stream "a")]
                    (startStream [] sampleId 0))
  = Some (processingPlaceholder +:+ "a")
  /\ shown sampleId (runStream sampleId
                       [(5, text_stream "a");
                        (6, analysis_complete JsUndefined None None)]
                       (startStream [] sampleId 0))
     = Some (processingPlaceholder +:+ "aa")
  /\ Some (processingPlaceholder +:+ "a") <> Some (concatText ["a"])
  /\ Some (processingPlaceholder +:+ "aa") <> Some (concatText ["a"]).
Proof. vm_compute. repeat split; discriminate. Qed.

Lemma text_stream_assembled_witness :
  shown sampleId
    (runStream sampleId
       [(5, text_stream "Hello, "); (6, chart_generated sampleChart);
        (6, text_stream "world")]
       (startStream [sampleUserMessage] sampleId 0))
  = Some (content (initialAssistantMessage sampleId 0)
          +:+ streamedText [(5, text_stream "Hello, "); (6, chart_generated sampleChart);
                            (6, text_stream "world")])
  /\ (timely 0 [(5, text_stream "Hello, "); (6, chart_generated sampleChart);
                 (6, text_stream "world")] = true ->
      forall prev ts, others sampleId prev ->
        shown sampleId
          (runStream sampleId
             [(5, text_stream "Hello, "); (6, chart_generated sampleChart);
              (6, text_stream "world")]
             (startStream prev sampleId ts))
        = Some (processingPlaceholder
                +:+ streamedText [(5, text_stream "Hello, ");
                                  (6, chart_generated sampleChart);
                                  (6, text_stream "world")])).
Proof.
  apply (text_stream_assembled_after_content sampleId [sampleUserMessage] []
           (initialAssistantMessage sampleId 0)
           (startStream [sampleUserMessage] sampleId 0)
           [(5, text_stream "Hello, "); (6, chart_generated sampleChart);
            (6, text_stream "world")]).
  - reflexivity.
  - reflexivity.
  - repeat constructor. discriminate.
  - constructor.
  - reflexivity.
  - reflexivity.
  - reflexivity.
Defined.

(** The same run after a status chunk: the deltas follow the status
    text. *)
Example text_after_status :
  shown sampleId
    (runStream sampleId
       [(1, analysis_start "Analysing"); (5, text_stream "Hello, ");
        (6, text_stream "world")]
       (startStream [sampleUserMessage] sampleId 0))
  = Some "AnalysingHello, world".
Proof. reflexivity. Qed.

(** *** The sequence with a code block *)

Lemma steps_cons now chunk rest f :
  steps ((now, chunk) :: rest) f = steps rest (step now chunk f).
Proof. reflexivity. Qed.

(** C2.  On the sequence [analysis_start], [code_complete_display],
    [code_execution_result], [text_stream "Done"], [analysis_complete],
    read to its end, the message
    shown has its placeholder replaced, its text is exactly "Done", and
    its code block is not executing: the block the sequence built, with
    the result of the execution, or the block [analysis_complete]
    carries when it carries one (one that is not marked executing).  The
    message is no longer streaming, and the copy kept for the store has
    the same text. *)
Theorem done_sequence_shows_done prev aid ts t1 t2 t3 t4 t5
    progress code res cd fq ce :
  others aid prev -> 0 <= t4 ->
  (forall block, ce = Some block -> isExecuting block = false) ->
  let events :=
    [(t1, analysis_start progress); (t2, code_complete_display code);
     (t3, code_execution_result res); (t4, text_stream "Done");
     (t5, analysis_complete cd fq ce)] in
  let st := runStream aid events (startStream prev aid ts) in
  exists msg block,
    findMessage aid (messages st) = Some msg
    /\ content msg = "Done"
    /\ codeExecution msg = Some block
    /\ block = default {| codeChunks := codeLines code; isExecuting := false;
                          result := res; output := res |} ce
    /\ isExecuting block = false
    /\ isStreaming msg = Some false
    /\ content (finalAssistantMessage st) = "Done".
Proof.
  intros Hprev Ht4 Hce events st. subst st events.
  rewrite startStream_plug.
  rewrite runStream_plug by (constructor || assumption || reflexivity).
  assert (Hnow : (t4 - 0 <? TEXT_UPDATE_THROTTLE) = false)
    by (apply Z.ltb_ge; unfold TEXT_UPDATE_THROTTLE; lia).
  cbv [steps step isTextStream andb].
  cbn [lastUpdate target buffer final applyChunk fst snd codeExecution
       setContent setCodeExecution].
  rewrite Hnow.
  cbn [lastUpdate target buffer final applyChunk fst snd codeExecution
       setContent setCodeExecution isExecuting negb andb nonEmpty].
  destruct ce as [block|]; (eexists; eexists; split;
    [ unfold plug; cbn [messages]; apply findMessage_focus; [assumption|];
      now rewrite complete_id
    | unfold plug; cbn [finalAssistantMessage];
      rewrite complete_target, complete_final; cbn; repeat split ]).
  now apply Hce.
Qed.

Lemma done_sequence_witness :
  exists msg block,
    findMessage sampleId (messages (runStream sampleId sampleDoneEvents
                                      (startStream [sampleUserMessage] sampleId 0)))
    = Some msg
    /\ content msg = "Done"
    /\ codeExecution msg = Some block
    /\ block = default {| codeChunks := codeLines sampleCode; isExecuting := false;
                          result := "ok"; output := "ok" |} None
    /\ isExecuting block = false
    /\ isStreaming msg = Some false
    /\ content (finalAssistantMessage
                  (runStream sampleId sampleDoneEvents
                     (startStream [sampleUserMessage] sampleId 0))) = "Done".
Proof.
  apply (done_sequence_shows_done [sampleUserMessage] sampleId 0 1 2 3 4 5
           "Analysing" sampleCode "ok" JsUndefined None None).
  - repeat constructor. discriminate.
  - lia.
  - discriminate.
Defined.

(** The lines of the sample code: the line of spaces is left out. *)
Example done_sequence_code_lines :
  codeLines sampleCode = ["import pandas as pd"; "df.describe()"].
Proof. reflexivity. Qed.

(** *** Text that arrives while the code block is executing *)

(** With a code block on the message, the handler neither reads nor
    clears the buffer, and the code block stays. *)
Lemma applyChunk_code_present chunk tb msg ce :
  codeExecution msg = Some ce ->
  fst (applyChunk chunk tb msg) = fst (applyChunk chunk "" msg)
  /\ snd (applyChunk chunk tb msg) = tb
  /\ exists ce', codeExecution (fst (applyChunk chunk tb msg)) = Some ce'.
Proof.
  intros Hce. destruct chunk; simpl; rewrite ?Hce; simpl; branches; eauto.
Qed.

Lemma withBuffer_withBuffer b b' f : withBuffer b (withBuffer b' f) = withBuffer b f.
Proof. reflexivity. Qed.

Lemma withBuffer_same f : withBuffer (buffer f) f = f.
Proof. now destruct f. Qed.

Lemma step_code_present now chunk f ce b :
  codeExecution (target f) = Some ce ->
  step now chunk (withBuffer b f)
  = withBuffer (b +:+ chunkText chunk) (step now chunk (withBuffer "" f))
  /\ exists ce', codeExecution (target (step now chunk (withBuffer b f))) = Some ce'.
Proof.
  intros Hce. unfold step. cbn [withBuffer target buffer lastUpdate final].
  destruct (isTextStream chunk && _) eqn:Hthrottle.
  - split; [|eauto]. destruct chunk; try discriminate Hthrottle. reflexivity.
  - set (b1 := match chunk with text_stream c => b +:+ c | _ => b end).
    set (b0 := match chunk with text_stream c => "" +:+ c | _ => "" end).
    destruct (applyChunk_code_present chunk b1 (target f) ce Hce) as (H1 & H2 & H3).
    destruct (applyChunk_code_present chunk b0 (target f) ce Hce) as (H4 & _ & _).
    split; [|exact H3].
    unfold withBuffer; cbn [target buffer lastUpdate final].
    rewrite H1, H2, H4. f_equal.
    subst b1. destruct chunk; cbn [chunkText]; now rewrite ?append_nil_r.
Qed.

Lemma steps_code_present events : forall f ce b,
  codeExecution (target f) = Some ce ->
  steps events (withBuffer b f)
  = withBuffer (b +:+ streamedText events) (steps events (withBuffer "" f)).
Proof.
  induction events as [|[now chunk] rest IH]; intros f ce b Hce.
  - simpl. now rewrite append_nil_r.
  - rewrite !steps_cons.
    destruct (step_code_present now chunk f ce b Hce) as (Hb & ce1 & Hce1).
    destruct (step_code_present now chunk f ce "" Hce) as (_ & ce0 & Hce0).
    rewrite Hb.
    set (g := step now chunk (withBuffer "" f)) in *.
    rewrite (IH g ce0 (b +:+ chunkText chunk) Hce0).
    rewrite <- (withBuffer_same g) at 2.
    rewrite (IH g ce0 (buffer g) Hce0), withBuffer_withBuffer.
    cbn [streamedText]. now rewrite append_assoc.
Qed.

(** C3: what the code does with a delta that arrives while the code
    block of the message is executing.  The delta is kept in the buffer:
    the transcript does not change and the buffer grows by it.  It is
    never taken out again: whatever follows in the stream, the message
    shown after completion and the copy kept for the store are those of
    the same stream with an empty delta in its place.  The two flushes
    the code has miss it: the one of [analysis_complete] is skipped for a
    message that has a code block, and the updater [onComplete] queues
    reads [textBuffer] after it was cleared. *)
Theorem buffered_text_never_shown aid pre post msg st now s later :
  messages st = pre ++ msg :: post ->
  id msg = aid -> others aid pre -> others aid post ->
  executing msg ->
  (messages (onChunk aid now (text_stream s) st) = messages st
   /\ textBuffer (onChunk aid now (text_stream s) st) = textBuffer st +:+ s)
  /\ messages (runStream aid ((now, text_stream s) :: later) st)
     = messages (runStream aid ((now, text_stream "") :: later) st)
  /\ finalAssistantMessage (runStream aid ((now, text_stream s) :: later) st)
     = finalAssistantMessage (runStream aid ((now, text_stream "") :: later) st).
Proof.
  intros Hmsgs Hid Hpre Hpost (ce & Hce & Hexec).
  set (f := mkFocus msg (textBuffer st) (lastTextUpdate st) (finalAssistantMessage st)).
  assert (Hst : st = plug pre post f)
    by (destruct st; simpl in *; subst; reflexivity).
  assert (Hstep : forall s', step now (text_stream s') f
                     = withBuffer (textBuffer st +:+ s')
                         (step now (text_stream "") f)).
  { intros s'. unfold step. cbn [isTextStream andb].
    destruct (now - lastUpdate f <? TEXT_UPDATE_THROTTLE); [reflexivity|].
    subst f. cbn [target buffer lastUpdate final applyChunk].
    rewrite Hce, Hexec. reflexivity. }
  assert (Htarget : target (step now (text_stream "") f) = msg).
  { unfold step. cbn [isTextStream andb].
    destruct (now - lastUpdate f <? TEXT_UPDATE_THROTTLE); [reflexivity|].
    subst f. cbn [target buffer lastUpdate final applyChunk].
    rewrite Hce, Hexec. reflexivity. }
  split.
  - rewrite Hst at 1 3. rewrite (onChunk_plug _ _ _ Hpre Hpost) by exact Hid.
    rewrite Hstep. unfold plug, withBuffer; cbn [messages textBuffer target buffer].
    rewrite Htarget. rewrite Hst. split; reflexivity.
  - set (g := step now (text_stream "") f) in *.
    assert (Hrun : forall s',
               runStream aid ((now, text_stream s') :: later) st
               = plug pre post
                   (complete (withBuffer ((textBuffer st +:+ s') +:+ streamedText later)
                                (steps later (withBuffer "" g))))).
    { intros s'. rewrite Hst at 1.
      rewrite (runStream_plug _ _ _ Hpre Hpost) by exact Hid.
      rewrite steps_cons, Hstep.
      now rewrite (steps_code_present later g ce (textBuffer st +:+ s'))
        by (now rewrite Htarget). }
    rewrite !Hrun. unfold plug. cbn [messages finalAssistantMessage].
    rewrite !complete_target, !complete_final. split; reflexivity.
Qed.

Lemma buffered_text_witness :
  (messages (onChunk sampleId 3 (text_stream "A") sampleExecuting)
   = messages sampleExecuting
   /\ textBuffer (onChunk sampleId 3 (text_stream "A") sampleExecuting)
     = textBuffer sampleExecuting +:+ "A")
  /\ messages
       (runStream sampleId
          ((3, text_stream "A")
             :: [(4, code_execution_result "ok"); (5, text_stream "B")])
          sampleExecuting)
     = messages
         (runStream sampleId
            ((3, text_stream "")
               :: [(4, code_execution_result "ok"); (5, text_stream "B")])
            sampleExecuting)
  /\ finalAssistantMessage
       (runStream sampleId
          ((3, text_stream "A")
             :: [(4, code_execution_result "ok"); (5, text_stream "B")])
          sampleExecuting)
     = finalAssistantMessage
         (runStream sampleId
            ((3, text_stream "")
               :: [(4, code_execution_result "ok"); (5, text_stream "B")])
            sampleExecuting).
Proof.
  apply (buffered_text_never_shown sampleId [sampleUserMessage] []
           sampleExecutingMessage sampleExecuting 3 "A"
           [(4, code_execution_result "ok"); (5, text_stream "B")]).
  - reflexivity.
  - reflexivity.
  - repeat constructor. discriminate.
  - constructor.
  - eexists. split; reflexivity.
Defined.

(** The stream [code_complete_display], [text_stream "A"],
    [code_execution_result], read to its end: the delta is in neither the
    content shown nor the content kept for the store; with
    [analysis_complete] before the end it is not either. *)
Example buffered_text_lost :
  shown sampleId
    (runStream sampleId [(3, text_stream "A"); (4, code_execution_result "ok")]
       sampleExecuting)
  = Some ""
  /\ content (finalAssistantMessage
                (runStream sampleId
                   [(3, text_stream "A"); (4, code_execution_result "ok")]
                   sampleExecuting))
     = ""
  /\ shown sampleId
       (runStream sampleId
          [(3, text_stream "A"); (4, code_execution_result "ok");
           (5, analysis_complete JsUndefined None None)]
          sampleExecuting)
     = Some "".
Proof. repeat split. Qed.

(** A delta that arrives after the execution is shown; the one buffered
    during the execution is not. *)
Example buffered_text_order :
  shown sampleId
    (runStream sampleId
       [(3, text_stream "A"); (4, code_execution_result "ok"); (5, text_stream "B")]
       sampleExecuting)
  = Some "B".
Proof. reflexivity. Qed.

(** *** Text deltas and the chart, table and code fields *)

Lemma updateMessages_text_payloads aid s l : forall tb fin,
  payloads (fst (fst (updateMessages aid (text_stream s) l tb fin))) = payloads l.
Proof.
  induction l as [|msg l IH]; intros tb fin; [reflexivity|].
  cbn [updateMessages]. destruct (String.eqb (id msg) aid).
  - destruct (applyChunk (text_stream s) tb msg) as [um tb1] eqn:Happly.
    specialize (IH tb1 um).
    destruct (updateMessages aid (text_stream s) l tb1 um) as [[l1 tb2] fin2].
    cbn [fst payloads List.map] in *. unfold payloads in IH. rewrite IH. f_equal.
    cbn [applyChunk] in Happly.
    destruct (_ && _) in Happly; injection Happly as <- _; reflexivity.
  - specialize (IH tb fin).
    destruct (updateMessages aid (text_stream s) l tb fin) as [[l1 tb2] fin2].
    cbn [fst payloads List.map] in *. unfold payloads in IH. now rewrite IH.
Qed.

Lemma onChunk_text_payloads aid now s st :
  payloads (messages (onChunk aid now (text_stream s) st)) = payloads (messages st).
Proof.
  unfold onChunk. cbn [isTextStream andb].
  destruct (now - lastTextUpdate st <? TEXT_UPDATE_THROTTLE); [reflexivity|].
  pose proof (updateMessages_text_payloads aid s (messages st)
                (textBuffer st +:+ s) (finalAssistantMessage st)) as H.
  destruct (updateMessages _ _ _ _ _) as [[l1 tb2] fin2]. exact H.
Qed.

Lemma onComplete_payloads aid st :
  payloads (messages (onComplete aid st)) = payloads (messages st).
Proof.
  unfold onComplete, flushUpdater. destruct (nonEmpty _); [|reflexivity].
  cbn [messages]. unfold payloads. rewrite List.map_map.
  apply List.map_ext. intros msg. now destruct (String.eqb _ _).
Qed.

(** C8.  A [text_stream] chunk leaves the chart, table and code fields of
    every message as they are, in whatever state it arrives, so in
    particular after a chunk that set them; the same holds for a whole
    run of text deltas followed by the end-of-stream flush. *)
Theorem text_stream_keeps_payloads aid st :
  (forall now s,
      payloads (messages (onChunk aid now (text_stream s) st)) = payloads (messages st))
  /\ (forall texts,
      payloads (messages (runStream aid (textEvents texts) st)) = payloads (messages st)).
Proof.
  split.
  - intros now s. apply onChunk_text_payloads.
  - intros texts. unfold runStream. rewrite onComplete_payloads.
    revert st. induction texts as [|[t c] texts IH]; intros st; [reflexivity|].
    cbn [textEvents List.map onChunks fst snd].
    change (List.map (fun e => (fst e, text_stream (snd e))) texts)
      with (textEvents texts).
    rewrite IH. apply onChunk_text_payloads.
Qed.

(** A chart set by [chart_generated] and a code block set by
    [code_complete_display] and [code_execution_result] survive the text
    that follows. *)
Example payloads_after_terminal_chunks :
  payloads (messages (runStream sampleId
                        [(1, code_complete_display sampleCode);
                         (2, code_execution_result "ok");
                         (3, chart_generated (JsObject [("data", JsArray [])]));
                         (4, text_stream "Done"); (5, text_stream "!")]
                        (startStream [] sampleId 0)))
  = [(JsObject [("data", JsArray [])], None,
      Some {| codeChunks := ["import pandas as pd"; "df.describe()"];
              isExecuting := false; result := "ok"; output := "ok" |})].
Proof. reflexivity. Qed.

End AssemblerProps.

(** ** The Firestore adapter *)

Module FirestoreProps.
Import Firestore firestoreService.

Lemma reference_ok w : db w = true -> reference w = (Returned tt, w).
Proof. unfold reference. now intros ->. Qed.

Lemma roundTrip_ok n w :
  noFault (S n) (faults w) = true ->
  roundTrip w = (Returned tt, withFaults (tail (faults w)) w)
  /\ noFault n (tail (faults w)) = true.
Proof.
  unfold roundTrip. destruct (faults w) as [|[e|] rest]; simpl; intros H.
  - split; [reflexivity | now destruct n].
  - discriminate.
  - now split.
Qed.

Lemma roundTrip_fault w e rest :
  faults w = Some e :: rest -> roundTrip w = (Raised e, withFaults rest w).
Proof. unfold roundTrip. now intros ->. Qed.

Lemma noFault_tail n fs :
  noFault (S n) fs = true ->
  (forall e, head fs <> Some (Some e)) /\ noFault n (tail fs) = true.
Proof.
  destruct fs as [|[e|] rest]; simpl; intros H.
  - split; [discriminate | now destruct n].
  - discriminate.
  - split; [discriminate | assumption].
Qed.

Lemma noFault_match {T} fs (A : Thrown -> list (option Thrown) -> T) (B : T) :
  (forall e, head fs <> Some (Some e)) ->
  match fs with Some e :: rest => A e rest | _ => B end = B.
Proof.
  destruct fs as [|[e|] rest]; intros H; try reflexivity.
  now destruct (H e).
Qed.

(** The record [createChatSession] stores. *)
Lemma createChatSession_trace userId title w :
  createChatSession userId title w =
  if db w then
    match faults w with
    | Some e :: rest =>
        (Raised e,
         withConsole (console w ++ [(LogError, "Failed to create chat session")])
           (withFaults rest w))
    | _ =>
        (Returned (genId w (issued w)),
         withIssued (S (issued w))
           (withChat
              (<[genId w (issued w) :=
                   {| cs_id := None; cs_userId := Some userId;
                      title := Some (default "New Chat" title);
                      status := Some "active"; messages := Some [];
                      createdAt := Some (serverClock w);
                      updatedAt := Some (serverClock w);
                      fileId := None; fileName := None; fileUrl := None;
                      projectId := None |}]> (chat w))
              (withFaults (tail (faults w)) w)))
    end
  else
    (Returned "", withConsole (console w ++ [(LogError, "Firestore not initialized")]) w).
Proof.
  cbv [createChatSession tryCatch ifThenElse bind ret throw
       addDoc serverTimestamp reference roundTrip consoleError].
  destruct (db w); cbn [negb]; [|reflexivity].
  destruct (faults w) as [|[e|] rest]; reflexivity.
Qed.

(** C6.  With the Firestore handle the program has,
    [createChatSession] either stores a record with an empty message list
    under the generated id and returns that id, or, when the store
    rejects the insertion, raises the store's error, having stored
    nothing: it never returns without a session.  (The guard on the
    handle is not taken: [db] is assigned once, from [getFirestore].) *)
Theorem createChatSession_stores_or_raises userId title w :
  db w = true ->
  let r := createChatSession userId title w in
  (exists e, head (faults w) = Some (Some e)
             /\ fst r = Raised e /\ chat (snd r) = chat w)
  \/ (fst r = Returned (genId w (issued w))
      /\ chat (snd r)
         = <[genId w (issued w) :=
               {| cs_id := None; cs_userId := Some userId;
                  title := Some (default "New Chat" title);
                  status := Some "active"; messages := Some [];
                  createdAt := Some (serverClock w);
                  updatedAt := Some (serverClock w);
                  fileId := None; fileName := None; fileUrl := None;
                  projectId := None |}]> (chat w)).
Proof.
  intros Hdb r. subst r. rewrite createChatSession_trace, Hdb.
  destruct (faults w) as [|[e|] rest].
  - right. repeat split.
  - left. exists e. repeat split.
  - right. repeat split.
Qed.

Lemma createChatSession_witness :
  let r := createChatSession "u1" (Some "Sales 2") sampleWorld in
  (exists e, head (faults sampleWorld) = Some (Some e)
             /\ fst r = Raised e /\ chat (snd r) = chat sampleWorld)
  \/ (fst r = Returned (genId sampleWorld (issued sampleWorld))
      /\ chat (snd r)
         = <[genId sampleWorld (issued sampleWorld) :=
               {| cs_id := None; cs_userId := Some "u1";
                  title := Some (default "New Chat" (Some "Sales 2"));
                  status := Some "active"; messages := Some [];
                  createdAt := Some (serverClock sampleWorld);
                  updatedAt := Some (serverClock sampleWorld);
                  fileId := None; fileName := None; fileUrl := None;
                  projectId := None |}]> (chat sampleWorld)).
Proof.
  apply (createChatSession_stores_or_raises "u1" (Some "Sales 2") sampleWorld).
  reflexivity.
Defined.

(** The store rejecting the insertion: the error is the caller's. *)
Example createChatSession_rejected :
  fst (createChatSession "u1" None sampleWorldFaulty) = Raised sampleFault
  /\ chat (snd (createChatSession "u1" None sampleWorldFaulty))
     = chat sampleWorldFaulty.
Proof. split; reflexivity. Qed.

(** *** Reads *)

Lemma getChatSessions_trace userId w :
  getChatSessions userId w =
  if db w then
    match faults w with
    | Some e :: rest => (Raised e, withFaults rest w)
    | _ =>
        (Returned
           (List.filter isActive
              (List.map withDocId
                 (orderByUpdatedAtDesc
                    (List.filter (matchesQuery userId) (map_to_list (chat w)))))),
         withFaults (tail (faults w)) w)
    end
  else (Raised invalidHandle, w).
Proof.
  cbv [getChatSessions bind ret getDocs reference roundTrip].
  destruct (db w); [|reflexivity].
  destruct (faults w) as [|[e|] rest]; reflexivity.
Qed.

Lemma getMessages_trace parse sessionId w :
  getMessages parse sessionId w =
  if db w then
    match faults w with
    | Some e :: rest => (Raised e, withFaults rest w)
    | _ =>
        match chat w !! sessionId with
        | Some chatData =>
            (Returned (List.map (processMessage parse)
                         (default [] (messages chatData))),
             withFaults (tail (faults w)) w)
        | None =>
            (Returned [],
             withConsole (console w ++ [(LogWarn, "Chat document does not exist for session")])
               (withFaults (tail (faults w)) w))
        end
    end
  else
    (Returned [],
     withConsole (console w ++ [(LogError, "Firestore not initialized in getMessages")]) w).
Proof.
  cbv [getMessages ifThenElse bind ret getDoc reference roundTrip
       consoleError consoleWarn].
  destruct (db w); cbn [negb]; [|reflexivity].
  destruct (faults w) as [|[e|] rest]; try reflexivity;
    cbn [chat withFaults]; destruct (chat w !! sessionId); reflexivity.
Qed.

(** C7, as amended.  When the store rejects the operation,
    [getChatSessions] and [getMessages] do not log the failure and
    return no result: the store's error propagates to the caller.  The
    read of a single session, [getChatSession], logs the failure and
    returns [null] instead of raising, and the create and delete paths,
    [createChatSession] and [deleteChatSession], log it and propagate the
    store's error. *)
Theorem read_failures_propagate w e rest :
  db w = true -> faults w = Some e :: rest ->
  (forall userId,
      fst (getChatSessions userId w) = Raised e
      /\ console (snd (getChatSessions userId w)) = console w)
  /\ (forall parse sessionId,
      fst (getMessages parse sessionId w) = Raised e
      /\ console (snd (getMessages parse sessionId w)) = console w)
  /\ (forall sessionId,
      fst (getChatSession sessionId w) = Returned None
      /\ console (snd (getChatSession sessionId w))
         = console w ++ [(LogError, "Failed to get chat session")])
  /\ (forall userId title,
      fst (createChatSession userId title w) = Raised e
      /\ console (snd (createChatSession userId title w))
         = console w ++ [(LogError, "Failed to create chat session")])
  /\ (forall sessionId,
      fst (deleteChatSession sessionId w) = Raised e
      /\ console (snd (deleteChatSession sessionId w))
         = console w ++ [(LogError, "Failed to delete chat session")]).
Proof.
  intros Hdb Hfaults. split; [|split; [|split; [|split]]].
  - intros userId. rewrite getChatSessions_trace, Hdb, Hfaults. now split.
  - intros parse sessionId. rewrite getMessages_trace, Hdb, Hfaults. now split.
  - intros sessionId.
    cbv [getChatSession tryCatch bind ret getDoc reference roundTrip consoleError].
    rewrite Hdb, Hfaults. now split.
  - intros userId title. rewrite createChatSession_trace, Hdb, Hfaults. now split.
  - intros sessionId.
    cbv [deleteChatSession tryCatch ifThenElse bind ret throw setDocMerge
         serverTimestamp reference roundTrip consoleError].
    rewrite Hdb. cbn [negb]. rewrite Hfaults. now split.
Qed.

(** C7 as the specification states it fails on a rejected read: neither
    operation returns the empty list. *)
Lemma read_failure_not_empty_result :
  fst (getChatSessions "u1" sampleWorldFaulty) <> Returned []
  /\ fst (getMessages JSON.parse "s1" sampleWorldFaulty) <> Returned [].
Proof. split; discriminate. Qed.

Lemma read_failures_witness :
  (forall userId,
      fst (getChatSessions userId sampleWorldFaulty) = Raised sampleFault
      /\ console (snd (getChatSessions userId sampleWorldFaulty))
         = console sampleWorldFaulty)
  /\ (forall parse sessionId,
      fst (getMessages parse sessionId sampleWorldFaulty) = Raised sampleFault
      /\ console (snd (getMessages parse sessionId sampleWorldFaulty))
         = console sampleWorldFaulty)
  /\ (forall sessionId,
      fst (getChatSession sessionId sampleWorldFaulty) = Returned None
      /\ console (snd (getChatSession sessionId sampleWorldFaulty))
         = console sampleWorldFaulty ++ [(LogError, "Failed to get chat session")])
  /\ (forall userId title,
      fst (createChatSession userId title sampleWorldFaulty) = Raised sampleFault
      /\ console (snd (createChatSession userId title sampleWorldFaulty))
         = console sampleWorldFaulty
           ++ [(LogError, "Failed to create chat session")])
  /\ (forall sessionId,
      fst (deleteChatSession sessionId sampleWorldFaulty) = Raised sampleFault
      /\ console (snd (deleteChatSession sessionId sampleWorldFaulty))
         = console sampleWorldFaulty
           ++ [(LogError, "Failed to delete chat session")]).
Proof.
  apply (read_failures_propagate sampleWorldFaulty sampleFault []); reflexivity.
Defined.

(** The empty results of [getMessages]: no handle, or no such session. *)
Lemma getMessages_empty parse sessionId w :
  db w = false \/ (noFault 1 (faults w) = true /\ chat w !! sessionId = None) ->
  fst (getMessages parse sessionId w) = Returned [].
Proof.
  rewrite getMessages_trace. intros [->|[Hf Hnone]]; [reflexivity|].
  destruct (db w); [|reflexivity]. rewrite Hnone.
  destruct (faults w) as [|[e|] rest]; [reflexivity | discriminate | reflexivity].
Qed.

(** *** Appending a message *)

Lemma addMessage_trace stringify message w :
  addMessage stringify message w =
  if db w then
    match faults w with
    | Some e :: rest =>
        (Raised e,
         withConsole (console w ++ [(LogError, "Failed to add message")])
           (withFaults rest w))
    | _ =>
        match chat w !! sessionId message with
        | Some chatData =>
            if hasUndefined (stamped (toString (clock w)) (clock w)
                               (sanitize stringify message))
            then
              (Raised (unsupportedUndefined "setDoc" None
                         ("chat/" +:+ sessionId message)),
               withConsole (console w ++ [(LogError, "Failed to add message")])
                 (withFaults (tail (faults w)) w))
            else
              match tail (faults w) with
              | Some e :: rest =>
                  (Raised e,
                   withConsole (console w ++ [(LogError, "Failed to add message")])
                     (withFaults rest w))
              | _ =>
                  (Returned (toString (clock w)),
                   withChat
                     (<[sessionId message :=
                          mergeSession
                            (mkChatSession None None None None
                               (Some (default [] (messages chatData)
                                      ++ [stamped (toString (clock w)) (clock w)
                                            (sanitize stringify message)]))
                               None (Some (serverClock w)) None None None None)
                            (Some chatData)]> (chat w))
                     (withFaults (tail (tail (faults w))) w))
              end
        | None =>
            (Raised (ErrorInstance "sanitizedMessage is not defined"),
             withConsole
               ((console w
                 ++ [(LogWarn, "Chat session not found, creating new session")])
                ++ [(LogError, "Failed to add message")])
               (withFaults (tail (faults w)) w))
        end
    end
  else
    (Returned "", withConsole (console w ++ [(LogError, "Firestore not initialized")]) w).
Proof.
  cbv [addMessage tryCatch ifThenElse bind ret throw getDoc setMessagesDoc
       setDocMerge Date_now serverTimestamp reference roundTrip consoleError
       consoleWarn].
  destruct (db w) eqn:Hdb; cbn [negb]; [|reflexivity].
  destruct (faults w) as [|[e|] [|[e'|] rest]] eqn:Hfaults; cbn [tail];
    try reflexivity;
    destruct (chat w !! sessionId message) as [chatData|] eqn:Hdoc;
    repeat (cbn [chat db faults withFaults clock serverClock console
                 withConsole tail];
            rewrite ?Hdb, ?Hdoc);
    try reflexivity;
    destruct (hasUndefined _);
    repeat (cbn [chat db faults withFaults clock serverClock console
                 withConsole tail];
            rewrite ?Hdb, ?Hdoc);
    reflexivity.
Qed.

(** The rows of a table that [JSON.stringify] prints are stored as a
    string. *)
Lemma sanitize_defined stringify parse messageId now message :
  (forall td, tableData message = Some td -> roundTrips stringify parse (data td)) ->
  hasUndefined (stamped messageId now (sanitize stringify message)) = false.
Proof.
  intros Htable. unfold hasUndefined, stamped, sanitize, stringified.
  cbn [tableData]. destruct (tableData message) as [td|]; [|reflexivity].
  destruct (Htable td eq_refl) as (s & Hs & _). now rewrite Hs.
Qed.

(** Reading back what [sanitize] wrote: a falsy chart payload comes back
    as [null]. *)
Lemma processMessage_sanitize stringify parse messageId now message :
  (truthy (chartData message) = true ->
   roundTrips stringify parse (chartData message)) ->
  (forall td, tableData message = Some td -> roundTrips stringify parse (data td)) ->
  processMessage parse (stamped messageId now (sanitize stringify message))
  = stamped messageId now
      (withChartData
         (if truthy (chartData message) then chartData message else JsNull)
         message).
Proof.
  intros Hchart Htable. unfold processMessage, stamped, sanitize, stringified,
    withChartData.
  cbn [id sessionId userId type content timestamp chartData insights
       followUpQuestions fileInfo tableData codeExecution].
  f_equal.
  - destruct (truthy (chartData message)) eqn:Htruthy; [|reflexivity].
    destruct (Hchart eq_refl) as (s & Hs & Hne & Hparse).
    rewrite Hs. cbn [truthy]. unfold nonEmpty in Hne.
    now rewrite Hne, Hparse.
  - destruct (tableData message) as [td|]; [|reflexivity].
    destruct (Htable td eq_refl) as (s & Hs & Hne & Hparse).
    rewrite Hs. cbn [data truthy columns td_filename]. unfold nonEmpty in Hne.
    rewrite Hne, Hparse. now destruct td.
Qed.

(** C4, as amended.  In a session that exists, with the store
    answering, [addMessage] returns the minted id and [getMessages] then
    returns the messages read before followed by the new one.  Its table
    payload is the one passed in, and so is its chart payload when that
    is truthy, provided [JSON.parse] reads each of them back from its
    [JSON.stringify] text; a chart payload that is falsy (absent,
    [null], [false], [0], the empty string) comes back as [null]. *)
Theorem addMessage_getMessages_roundtrip stringify parse message chatData w :
  db w = true -> noFault 3 (faults w) = true ->
  chat w !! sessionId message = Some chatData ->
  (truthy (chartData message) = true ->
   roundTrips stringify parse (chartData message)) ->
  (forall td, tableData message = Some td -> roundTrips stringify parse (data td)) ->
  exists w1 w2 returned,
    addMessage stringify message w = (Returned (toString (clock w)), w1)
    /\ getMessages parse (sessionId message) w1
       = (Returned (List.map (processMessage parse) (default [] (messages chatData))
                    ++ [returned]), w2)
    /\ returned
       = stamped (toString (clock w)) (clock w)
           (withChartData
              (if truthy (chartData message) then chartData message else JsNull)
              message)
    /\ tableData returned = tableData message
    /\ chartData returned
       = if truthy (chartData message) then chartData message else JsNull.
Proof.
  intros Hdb Hfaults Hdoc Hchart Htable.
  destruct (noFault_tail _ _ Hfaults) as [Hf1 Hfaults1].
  destruct (noFault_tail _ _ Hfaults1) as [Hf2 Hfaults2].
  destruct (noFault_tail _ _ Hfaults2) as [Hf3 _].
  rewrite addMessage_trace, Hdb, Hdoc, (noFault_match _ _ _ Hf1),
    (sanitize_defined _ parse _ _ _ Htable), (noFault_match _ _ _ Hf2).
  eexists. eexists. eexists. split; [reflexivity|].
  rewrite getMessages_trace. cbn [db chat faults withChat withFaults].
  rewrite Hdb, (noFault_match _ _ _ Hf3), lookup_insert_eq.
  cbn [mergeSession messages orElse from_option Datatypes.id].
  rewrite List.map_app. cbn [List.map].
  rewrite (processMessage_sanitize _ _ _ _ _ Hchart Htable).
  repeat split.
Qed.

Lemma addMessage_getMessages_witness :
  exists w1 w2 returned,
    addMessage JSON.stringify (sampleChatMessage "s1" sampleChart (Some sampleTable))
      sampleWorld
    = (Returned "1730000000000", w1)
    /\ getMessages JSON.parse "s1" w1
       = (Returned ([] ++ [returned]), w2)
    /\ returned
       = stamped "1730000000000" 1730000000000
           (withChartData sampleChart
              (sampleChatMessage "s1" sampleChart (Some sampleTable)))
    /\ tableData returned = Some sampleTable
    /\ chartData returned = sampleChart.
Proof.
  apply (addMessage_getMessages_roundtrip JSON.stringify JSON.parse
           (sampleChatMessage "s1" sampleChart (Some sampleTable))
           sampleSession sampleWorld).
  - reflexivity.
  - reflexivity.
  - reflexivity.
  - intros _. eexists. repeat split; vm_compute; reflexivity.
  - intros td Htd. injection Htd as <-.
    eexists. repeat split; vm_compute; reflexivity.
Defined.

(** The message [handleFileUpload] stores, which has a table and no
    chart: the table comes back, the chart as [null]. *)
Example upload_message_read_back :
  List.map (fun m => (chartData m, tableData m))
    (match fst (getMessages JSON.parse "s1"
                  (snd (addMessage JSON.stringify
                          (sampleChatMessage "s1" JsUndefined (Some sampleTable))
                          sampleWorld))) with
     | Returned l => l
     | Raised _ => []
     end)
  = [(JsNull, Some sampleTable)].
Proof. vm_compute. reflexivity. Qed.

(** C4 as the specification states it fails on a chart payload that is
    JSON-representable but falsy: [false] is read back from its text by
    the codec, yet [addMessage] stores [null] for it and [getMessages]
    returns [null]. *)
Lemma falsy_chart_not_round_tripped :
  roundTrips JSON.stringify JSON.parse (JsBool false)
  /\ List.map chartData
       (match fst (getMessages JSON.parse "s1"
                     (snd (addMessage JSON.stringify
                             (sampleChatMessage "s1" (JsBool false) None)
                             sampleWorld))) with
        | Returned l => l
        | Raised _ => []
        end)
     = [JsNull].
Proof.
  split.
  - exists "false". repeat split.
  - vm_compute. reflexivity.
Qed.

(** C10: what the code does for a session that has no record.  The call
    throws a ReferenceError, logged and rethrown, the store is left as it
    was, and the session still has no messages: [sanitizedMessage], which
    the branch that creates the session spreads into the new message, is
    declared inside the other branch. *)
Theorem addMessage_missing_session_raises stringify parse message w :
  db w = true -> noFault 2 (faults w) = true ->
  chat w !! sessionId message = None ->
  fst (addMessage stringify message w)
  = Raised (ErrorInstance "sanitizedMessage is not defined")
  /\ chat (snd (addMessage stringify message w)) = chat w
  /\ fst (getMessages parse (sessionId message)
            (snd (addMessage stringify message w))) = Returned [].
Proof.
  intros Hdb Hfaults Hdoc.
  destruct (noFault_tail _ _ Hfaults) as [Hf1 Hfaults1].
  rewrite addMessage_trace, Hdb, Hdoc, (noFault_match _ _ _ Hf1).
  repeat split. apply getMessages_empty. right. now split.
Qed.

Lemma addMessage_missing_session_witness :
  fst (addMessage JSON.stringify (sampleChatMessage "s2" JsNull None) sampleWorld)
  = Raised (ErrorInstance "sanitizedMessage is not defined")
  /\ chat (snd (addMessage JSON.stringify (sampleChatMessage "s2" JsNull None)
                  sampleWorld)) = chat sampleWorld
  /\ fst (getMessages JSON.parse "s2"
            (snd (addMessage JSON.stringify (sampleChatMessage "s2" JsNull None)
                    sampleWorld))) = Returned [].
Proof.
  apply (addMessage_missing_session_raises JSON.stringify JSON.parse
           (sampleChatMessage "s2" JsNull None) sampleWorld); reflexivity.
Defined.

(** *** Listing the sessions of a user *)

Lemma insertDesc_In x y l : In y (insertDesc x l) <-> y = x \/ In y l.
Proof.
  induction l as [|z l IH]; simpl.
  - intuition.
  - destruct (_ <? _); simpl; rewrite ?IH; intuition.
Qed.

Lemma orderBy_In y l : In y (orderByUpdatedAtDesc l) <-> In y l.
Proof.
  unfold orderByUpdatedAtDesc. induction l as [|x l IH]; simpl; [reflexivity|].
  rewrite insertDesc_In, IH. intuition.
Qed.

Lemma insertDesc_sorted x l :
  StronglySorted (fun a b => latestFirst (snd a) (snd b)) l ->
  StronglySorted (fun a b => latestFirst (snd a) (snd b)) (insertDesc x l).
Proof.
  unfold latestFirst. induction 1 as [|y l Hsorted IH Hall]; simpl.
  - repeat constructor.
  - destruct (updatedAtOf (snd y) <? updatedAtOf (snd x)) eqn:Hlt.
    + apply Z.ltb_lt in Hlt. constructor; [now constructor|].
      constructor; [lia|].
      eapply Forall_impl; [exact Hall|]. simpl. intros z Hz. lia.
    + apply Z.ltb_ge in Hlt. constructor; [exact IH|].
      apply Forall_forall. intros z Hz. apply list_elem_of_In in Hz.
      apply insertDesc_In in Hz as [-> | Hz]; [exact Hlt|].
      rewrite Forall_forall in Hall. apply Hall. now apply list_elem_of_In.
Qed.

Lemma orderBy_sorted l :
  StronglySorted (fun a b => latestFirst (snd a) (snd b)) (orderByUpdatedAtDesc l).
Proof.
  unfold orderByUpdatedAtDesc. induction l as [|x l IH]; simpl.
  - constructor.
  - now apply insertDesc_sorted.
Qed.

Lemma sorted_map_withDocId l :
  StronglySorted (fun a b => latestFirst (snd a) (snd b)) l ->
  StronglySorted latestFirst (List.map withDocId l).
Proof.
  induction 1 as [|y l Hsorted IH Hall]; simpl; constructor; [exact IH|].
  apply Forall_forall. intros z Hz. apply list_elem_of_In, in_map_iff in Hz.
  destruct Hz as (e & <- & He). rewrite Forall_forall in Hall.
  apply list_elem_of_In, Hall in He. exact He.
Qed.

Lemma sorted_filter {A} (R : A -> A -> Prop) (p : A -> bool) l :
  StronglySorted R l -> StronglySorted R (List.filter p l).
Proof.
  induction 1 as [|y l Hsorted IH Hall]; simpl; [constructor|].
  destruct (p y); [|exact IH]. constructor; [exact IH|].
  apply Forall_forall. intros z Hz. apply list_elem_of_In, filter_In in Hz.
  rewrite Forall_forall in Hall. apply Hall, list_elem_of_In, Hz.
Qed.

Lemma isActive_not_deleted session :
  isActive session = true -> status session <> Some "deleted".
Proof.
  unfold isActive. intros Hactive Hdeleted. rewrite Hdeleted in Hactive.
  discriminate.
Qed.

Lemma insertDesc_Permutation x l : Permutation (insertDesc x l) (x :: l).
Proof.
  induction l as [|y l IH]; simpl; [reflexivity|].
  destruct (_ <? _); [reflexivity|].
  rewrite IH. apply perm_swap.
Qed.

Lemma orderBy_Permutation l : Permutation (orderByUpdatedAtDesc l) l.
Proof.
  unfold orderByUpdatedAtDesc. induction l as [|x l IH]; simpl; [reflexivity|].
  rewrite insertDesc_Permutation. now constructor.
Qed.

Lemma filter_Permutation {A} (p : A -> bool) l l' :
  Permutation l l' -> Permutation (List.filter p l) (List.filter p l').
Proof.
  induction 1 as [|x l l' _ IH|x y l|l1 l2 l3 _ IH1 _ IH2]; simpl.
  - reflexivity.
  - destruct (p x); [now constructor | exact IH].
  - destruct (p x), (p y); try reflexivity. apply perm_swap.
  - now transitivity (List.filter p l2).
Qed.

Lemma filter_map_withDocId l :
  List.filter isActive (List.map withDocId l)
  = List.map withDocId (List.filter (fun entry => isActive (snd entry)) l).
Proof.
  induction l as [|[docId d] l IH]; [reflexivity|].
  cbn [List.map List.filter snd].
  change (isActive (withDocId (docId, d))) with (isActive d).
  destruct (isActive d); cbn [List.map]; now rewrite IH.
Qed.

(** What [getChatSessions] returns, document by document. *)
Lemma getChatSessions_In userId w :
  db w = true -> noFault 1 (faults w) = true ->
  exists sessions,
    fst (getChatSessions userId w) = Returned sessions
    /\ forall session,
         In session sessions
         <-> exists docId d,
               chat w !! docId = Some d
               /\ matchesQuery userId (docId, d) = true
               /\ isActive d = true
               /\ session = withDocId (docId, d).
Proof.
  intros Hdb Hfaults.
  destruct (noFault_tail _ _ Hfaults) as [Hf _].
  rewrite getChatSessions_trace, Hdb, (noFault_match _ _ _ Hf).
  eexists. split; [reflexivity|]. intros session. split.
  - intros Hin. apply filter_In in Hin as [Hin Hactive].
    apply in_map_iff in Hin as ([docId d] & <- & Hin).
    apply orderBy_In, filter_In in Hin as [Hin Hquery].
    exists docId, d. repeat split; try assumption.
    now apply elem_of_map_to_list, list_elem_of_In.
  - intros (docId & d & Hdoc & Hquery & Hactive & ->).
    apply filter_In. split; [|exact Hactive].
    apply in_map, orderBy_In, filter_In. split; [|exact Hquery].
    now apply list_elem_of_In, elem_of_map_to_list.
Qed.

(** C5.  With the store answering, [getChatSessions] returns the
    sessions stored for that user that are not deleted, each once and no
    other, the latest update first: every session returned is a stored
    document of the user whose status is not "deleted", and the sessions
    returned are, up to their order, the stored documents of the user
    that carry an update time and are active. *)
Theorem getChatSessions_active_latest_first userId w :
  db w = true -> noFault 1 (faults w) = true ->
  exists sessions,
    fst (getChatSessions userId w) = Returned sessions
    /\ Forall (fun session =>
                 cs_userId session = Some userId
                 /\ status session <> Some "deleted"
                 /\ exists docId d,
                     chat w !! docId = Some d /\ session = withDocId (docId, d))
         sessions
    /\ StronglySorted latestFirst sessions
    /\ Permutation sessions
         (List.map withDocId
            (List.filter
               (fun entry => matchesQuery userId entry && isActive (snd entry))
               (map_to_list (chat w)))).
Proof.
  intros Hdb Hfaults. destruct (noFault_tail _ _ Hfaults) as [Hf _].
  rewrite getChatSessions_trace, Hdb, (noFault_match _ _ _ Hf).
  eexists. split; [reflexivity|]. split; [|split].
  - apply Forall_forall. intros session Hin.
    apply list_elem_of_In, filter_In in Hin as [Hin Hactive].
    apply in_map_iff in Hin as ([docId d] & <- & Hin).
    apply orderBy_In, filter_In in Hin as [Hin Hquery].
    split; [|split].
    + unfold matchesQuery in Hquery. cbn [snd] in Hquery. cbn [withDocId cs_userId snd].
      destruct (cs_userId d) as [u|]; [|discriminate].
      destruct (updatedAt d); [|discriminate].
      now apply String.eqb_eq in Hquery as ->.
    + now apply isActive_not_deleted.
    + exists docId, d. split; [|reflexivity].
      now apply elem_of_map_to_list, list_elem_of_In.
  - apply sorted_filter, sorted_map_withDocId, orderBy_sorted.
  - rewrite filter_map_withDocId. apply Permutation_map.
    rewrite (filter_Permutation _ _ _ (orderBy_Permutation _)).
    clear. induction (map_to_list (chat w)) as [|entry l IH]; [reflexivity|].
    cbn [List.filter]. destruct (matchesQuery userId entry); cbn [List.filter andb].
    + destruct (isActive (snd entry)); [now constructor | exact IH].
    + exact IH.
Qed.

Lemma getChatSessions_witness :
  exists sessions,
    fst (getChatSessions "u1" sampleWorldSessions) = Returned sessions
    /\ Forall (fun session =>
                 cs_userId session = Some "u1"
                 /\ status session <> Some "deleted"
                 /\ exists docId d,
                     chat sampleWorldSessions !! docId = Some d
                     /\ session = withDocId (docId, d))
         sessions
    /\ StronglySorted latestFirst sessions
    /\ Permutation sessions
         (List.map withDocId
            (List.filter
               (fun entry => matchesQuery "u1" entry && isActive (snd entry))
               (map_to_list (chat sampleWorldSessions)))).
Proof.
  apply (getChatSessions_active_latest_first "u1" sampleWorldSessions);
    reflexivity.
Defined.

(** The sessions listed for [u1] in that world. *)
Example getChatSessions_sample :
  List.map title
    (match fst (getChatSessions "u1" sampleWorldSessions) with
     | Returned sessions => sessions
     | Raised _ => []
     end)
  = [Some "Newer"; Some "Older"].
Proof. vm_compute. reflexivity. Qed.

End FirestoreProps.

(** ** The file upload *)

Module UploadProps.
Import ChatInterface.

(** The services do not touch the clock or the backend. *)
Lemma uploadFile_environment userId file sessionId w :
  Firestore.clock (snd (firestoreService.uploadFile userId file sessionId w))
  = Firestore.clock w
  /\ Firestore.backendUpload (snd (firestoreService.uploadFile userId file sessionId w))
     = Firestore.backendUpload w.
Proof.
  cbv [firestoreService.uploadFile tryCatch ifThenElse bind ret throw
       Firestore.uploadBytes Firestore.getDownloadURL Firestore.addFileMetadataDoc
       Firestore.Date_now Firestore.serverTimestamp Firestore.reference
       Firestore.roundTrip Firestore.consoleError].
  destruct (Firestore.storage w); cbn [negb]; [|now split].
  destruct (Firestore.db w) eqn:Hdb; cbn [negb]; [|now split].
  destruct sessionId as [sessionId|];
    destruct (Firestore.faults w) as [|[e1|] [|[e2|] [|[e3|] rest]]];
    cbn [tail Firestore.faults Firestore.withFaults Firestore.withObjects
         Firestore.db Firestore.fm_sessionId];
    rewrite ?Hdb; now split.
Qed.

Lemma sessionForUpload_returns u a :
  exists sessionId a1,
    sessionForUpload u a = (Returned sessionId, a1)
    /\ messages (ui a1) = messages (ui a)
    /\ uploadedFile (ui a1) = uploadedFile (ui a)
    /\ user (ui a1) = user (ui a).
Proof.
  assert (Hcreate : exists sessionId a1,
             createOrTemp u a = (Returned sessionId, a1)
             /\ messages (ui a1) = messages (ui a)
             /\ uploadedFile (ui a1) = uploadedFile (ui a)
             /\ user (ui a1) = user (ui a)).
  { cbv [createOrTemp tryCatch bind ret await updateCurrentSessionId
         Firestore.consoleError Firestore.Date_now].
    destruct (firestoreService.createChatSession (uid u) None (world a))
      as [[sessionId|e] w]; cbn [ui world messages uploadedFile user]; eauto 10. }
  unfold sessionForUpload. destruct (currentSessionId (ui a)) as [sessionId|];
    [|exact Hcreate].
  destruct (nonEmpty sessionId); [eauto 10 | exact Hcreate].
Qed.

Lemma replaceById_announced startId replacement prev start :
  id start = startId ->
  replaceById startId replacement (prev ++ [start])
  = replaceById startId replacement prev ++ [replacement].
Proof.
  intros Hid. unfold replaceById. rewrite List.map_app. cbn [List.map].
  now rewrite Hid, String.eqb_refl.
Qed.

(** The [catch] block: the announcement becomes the error message and the
    active file is not touched. *)
Lemma uploadFailed_result stringify u sessionId start e a :
  exists w,
    uploadFailed stringify u sessionId start e a
    = (Returned tt,
       mkApp (mkChat
                (replaceById (id start)
                   (simpleMessage (id start)
                      (uploadErrorText +:+ messageOr unknownErrorText e)
                      (Firestore.clock (world a)))
                   (messages (ui a)))
                (uploadedFile (ui a)) (currentSessionId (ui a)) (user (ui a)))
         w).
Proof.
  unfold uploadFailed.
  cbv [bind ret tryCatch await Firestore.consoleError Firestore.Date_now
       setMessages].
  cbn [ui world Firestore.clock Firestore.withConsole messages uploadedFile
       currentSessionId user].
  destruct (persistent sessionId); [|eauto].
  destruct (firestoreService.addMessage _ _ _) as [[x|e'] w]; cbn [ui world]; eauto.
Qed.

(** The [try] block stops at the failing upload step, before
    [setUploadedFile]. *)
Lemma uploadSteps_fails stringify toLocaleString u file sessionId start e a :
  (fst (firestoreService.uploadFile (uid u) file (Some sessionId) (world a))
   = Raised e
   \/ ((exists fileMetadata,
          fst (firestoreService.uploadFile (uid u) file (Some sessionId) (world a))
          = Returned fileMetadata)
       /\ Firestore.backendUpload (world a) file = Raised e)) ->
  exists w,
    uploadSteps stringify toLocaleString u file sessionId start a
    = (Raised e, mkApp (ui a) w)
    /\ Firestore.clock w = Firestore.clock (world a).
Proof.
  intros Hfails. unfold uploadSteps. unfold bind at 1. unfold await at 1.
  destruct (uploadFile_environment (uid u) file (Some sessionId) (world a))
    as [Hclock Hbackend].
  destruct (firestoreService.uploadFile (uid u) file (Some sessionId) (world a))
    as [[fileMetadata|e0] w] eqn:Hupload; cbn [fst snd] in *.
  - destruct Hfails as [Hfails | [_ Hfails]]; [discriminate|].
    unfold bind at 1. unfold await at 1, apiService.uploadFile. cbn [world ui].
    rewrite Hbackend, Hfails. eauto.
  - destruct Hfails as [Hfails | [[fileMetadata Hfails] _]]; [|discriminate].
    injection Hfails as ->. eauto.
Qed.

(** C9.  When the upload to object storage fails, or when it succeeds and
    the upload to the backend fails, the handler returns, the message that
    announced the upload is replaced by an error message whose text ends
    with the text of the error (its [message], or the fixed text for a
    thrown value that is not an [Error]), no success message is shown, and
    the active file is not set: it is the one the component had before,
    none if there was none. *)
Theorem failed_upload_shows_error stringify toLocaleString file a u sessionId a1 e :
  user (ui a) = Some u ->
  sessionForUpload u a = (Returned sessionId, a1) ->
  (fst (firestoreService.uploadFile (uid u) file (Some sessionId) (world a1))
   = Raised e
   \/ ((exists fileMetadata,
          fst (firestoreService.uploadFile (uid u) file (Some sessionId) (world a1))
          = Returned fileMetadata)
       /\ Firestore.backendUpload (world a1) file = Raised e)) ->
  let now := Firestore.clock (world a1) in
  let errorMessage :=
    simpleMessage (toString now)
      (uploadErrorText +:+ messageOr unknownErrorText e) now in
  let done := handleFileUpload stringify toLocaleString file a in
  fst done = Returned tt
  /\ messages (ui (snd done))
     = replaceById (toString now) errorMessage (messages (ui a)) ++ [errorMessage]
  /\ uploadedFile (ui (snd done)) = uploadedFile (ui a).
Proof.
  intros Huser Hsession Hfails now errorMessage done.
  destruct (sessionForUpload_returns u a) as (sid & a1' & Hsession' & Hmsgs & Hfile & _).
  rewrite Hsession in Hsession'. injection Hsession' as <- <-.
  set (start := simpleMessage (toString now) uploadStartText now).
  assert (Hdone : exists w,
             done = (Returned tt,
                     mkApp (mkChat
                              (replaceById (toString now) errorMessage
                                 (messages (ui a1) ++ [start]))
                              (uploadedFile (ui a1)) (currentSessionId (ui a1))
                              (user (ui a1))) w)).
  { subst done. unfold handleFileUpload. rewrite Huser. unfold bind at 1.
    rewrite Hsession. unfold bind at 1. unfold announceUpload.
    cbv [bind await Firestore.Date_now setMessages ret]. cbn [ui world].
    fold now. fold start.
    set (a2 := mkApp _ _).
    destruct (uploadSteps_fails stringify toLocaleString u file sessionId start e a2
                Hfails) as (w & Hsteps & Hclock).
    unfold tryCatch. rewrite Hsteps.
    destruct (uploadFailed_result stringify u sessionId start e (mkApp (ui a2) w))
      as (w' & Hfailed).
    rewrite Hfailed. cbn [ui world]. rewrite Hclock.
    subst a2. cbn [ui world messages uploadedFile currentSessionId user id start
                   simpleMessage].
    fold now. eauto. }
  destruct Hdone as (w & ->). cbn [fst snd ui messages uploadedFile].
  repeat split.
  - rewrite replaceById_announced by reflexivity. now rewrite Hmsgs.
  - exact Hfile.
Qed.

Lemma failed_upload_witness :
  fst (handleFileUpload JSON.stringify toString sampleFile sampleAppFaulty)
  = Returned tt
  /\ messages (ui (snd (handleFileUpload JSON.stringify toString sampleFile
                          sampleAppFaulty)))
     = replaceById "1730000000000"
         (simpleMessage "1730000000000"
            (uploadErrorText +:+ "Missing or insufficient permissions.")
            1730000000000)
         [sampleUserMessage]
       ++ [simpleMessage "1730000000000"
             (uploadErrorText +:+ "Missing or insufficient permissions.")
             1730000000000]
  /\ uploadedFile (ui (snd (handleFileUpload JSON.stringify toString sampleFile
                              sampleAppFaulty))) = None.
Proof.
  apply (failed_upload_shows_error JSON.stringify toString sampleFile
           sampleAppFaulty (mkUser "u1") "s1" sampleAppFaulty sampleFault).
  - reflexivity.
  - reflexivity.
  - left. reflexivity.
Defined.

(** The backend rejecting the file after the object was stored: the same
    outcome in the transcript, and the stored object stays. *)
Example failed_backend_upload_sample :
  let done := snd (handleFileUpload JSON.stringify toString sampleFile
                     sampleAppBackendDown) in
  List.map content (messages (ui done))
  = ["Plot sales by month"; uploadErrorText +:+ "Unsupported file"]%list
  /\ uploadedFile (ui done) = None
  /\ Firestore.objects (world done)
     = ["user-files/u1/1730000000000_sales.csv"].
Proof. vm_compute. repeat split. Qed.

(** A successful upload, for comparison: the active file is set. *)
Example successful_upload_sample :
  let done := snd (handleFileUpload JSON.stringify toString sampleFile
                     (mkApp (ui sampleAppFaulty) sampleWorld)) in
  option_map file_id (uploadedFile (ui done)) = Some "f-1"
  /\ option_map (fun msg => fileInfo msg) (last (messages (ui done)))
     = Some (Some (mkFileInfo "sales.csv" 2048 "csv" "f-1")).
Proof. vm_compute. repeat split. Qed.

End UploadProps.

(** ** The stream reader *)

Module ApiServiceProps.
Import ApiService.

Lemma last_app_nonempty {A} (l1 l2 : list A) d :
  l2 <> [] -> List.last (l1 ++ l2) d = List.last l2 d.
Proof.
  intros Hne. induction l1 as [|x l1 IH]; [reflexivity|].
  cbn [app List.last]. destruct (l1 ++ l2) eqn:Happ; [|exact IH].
  now destruct l1, l2.
Qed.

Lemma splitLines_nonempty s : splitLines s <> [].
Proof.
  destruct s as [|c s]; simpl; [discriminate|].
  destruct (Ascii.eqb c newline); [discriminate|].
  destruct (splitLines s); discriminate.
Qed.

Lemma splitLines_cons c s :
  splitLines (String c s) =
  if Ascii.eqb c newline then "" :: splitLines s
  else match splitLines s with
       | [] => [String c ""]
       | l :: ls => String c l :: ls
       end.
Proof. reflexivity. Qed.

(** Splitting a text that continues: the complete lines of the first part
    stay, and its last, open line is continued by the second part. *)
Lemma splitLines_app a b :
  splitLines (a +:+ b) =
  List.removelast (splitLines a) ++ splitLines (List.last (splitLines a) "" +:+ b).
Proof.
  induction a as [|c a IH]; [reflexivity|].
  rewrite append_cons, !splitLines_cons.
  pose proof (splitLines_nonempty a) as Hne.
  destruct (Ascii.eqb c newline) eqn:Hc.
  - rewrite IH. destruct (splitLines a) as [|l ls]; [contradiction|]. reflexivity.
  - rewrite IH. destruct (splitLines a) as [|l [|x xs]]; [contradiction| |].
    + cbn [List.removelast List.last app]. rewrite append_cons, splitLines_cons, Hc.
      reflexivity.
    + reflexivity.
Qed.

Lemma splitLines_no_newline s : hasNewline s = false -> splitLines s = [s].
Proof.
  unfold hasNewline. induction s as [|c s IH]; [reflexivity|].
  cbn [list_ascii_of_string existsb]. rewrite Ascii.eqb_sym.
  intros H. apply orb_false_iff in H as [Hc Hs].
  rewrite splitLines_cons, Hc, (IH Hs). reflexivity.
Qed.

Lemma last_splitLines_no_newline s :
  hasNewline (List.last (splitLines s) "") = false.
Proof.
  unfold hasNewline. induction s as [|c s IH]; [reflexivity|].
  rewrite splitLines_cons. pose proof (splitLines_nonempty s) as Hne.
  destruct (Ascii.eqb c newline) eqn:Hc.
  - destruct (splitLines s) as [|l ls]; [contradiction|]. exact IH.
  - destruct (splitLines s) as [|l [|x xs]]; [contradiction| |exact IH].
    cbn [List.last] in *. cbn [list_ascii_of_string existsb].
    now rewrite Ascii.eqb_sym, Hc.
Qed.

Lemma splitLines_open_line u :
  hasNewline u = false -> splitLines (u +:+ String newline "") = [u; ""].
Proof.
  unfold hasNewline. induction u as [|c u IH]; [reflexivity|].
  cbn [list_ascii_of_string existsb]. rewrite Ascii.eqb_sym.
  intros H. apply orb_false_iff in H as [Hc Hu].
  rewrite append_cons, splitLines_cons, Hc, (IH Hu). reflexivity.
Qed.

(** A text that ends with a line feed leaves no open line. *)
Lemma last_splitLines_terminated s :
  List.last (splitLines (s +:+ String newline "")) "" = "".
Proof.
  rewrite splitLines_app, splitLines_open_line by apply last_splitLines_no_newline.
  now rewrite last_app_nonempty by discriminate.
Qed.

Lemma splitLines_terminated s t :
  splitLines ((s +:+ String newline "") +:+ t)
  = List.removelast (splitLines (s +:+ String newline "")) ++ splitLines t.
Proof. now rewrite splitLines_app, last_splitLines_terminated. Qed.

Lemma unlines_cons l lines :
  unlines (l :: lines) = (l +:+ String newline "") +:+ unlines lines.
Proof. cbn [unlines List.fold_right]. now rewrite append_assoc. Qed.

Lemma last_splitLines_unlines lines :
  List.last (splitLines (unlines lines)) "" = "".
Proof.
  induction lines as [|l lines IH]; [reflexivity|].
  rewrite unlines_cons, splitLines_terminated.
  now rewrite last_app_nonempty by apply splitLines_nonempty.
Qed.

Section Reader.

Context {S : Type}.
Variable JSON_parse : string -> option JsValue.
Variable onChunk : JsValue -> Eff S unit.
Variable onError : option (Thrown -> Eff S unit).
Variable onComplete : option (Eff S unit).

Local Abbreviation handleLine := (handleLine JSON_parse onChunk).
Local Abbreviation forEachLine := (forEachLine JSON_parse onChunk).
Local Abbreviation readLoop := (readLoop JSON_parse onChunk onComplete).
Local Abbreviation ask :=
  (askUnifiedQuestionStream JSON_parse onChunk onError onComplete).

(** No line ends the loop: whatever [JSON.parse] or [onChunk] throws is
    caught. *)
Lemma handleLine_returns line (cl : Client S) : fst (handleLine line cl) = Returned tt.
Proof.
  unfold ApiService.handleLine.
  destruct (negb _); [reflexivity|]. destruct (String.prefix _ _); [|reflexivity].
  destruct (JSON_parse _); [|reflexivity].
  unfold tryCatch, call. destruct (onChunk j (handler cl)) as [[[]|e] s]; reflexivity.
Qed.

Lemma forEachLine_returns lines : forall cl : Client S,
  fst (forEachLine lines cl) = Returned tt.
Proof.
  induction lines as [|l lines IH]; intros cl; [reflexivity|].
  cbn [ApiService.forEachLine]. unfold bind.
  pose proof (handleLine_returns l cl) as H.
  destruct (handleLine l cl) as [[[]|e] cl1]; [apply IH | discriminate].
Qed.

Lemma forEachLine_eq lines (cl : Client S) :
  forEachLine lines cl = (Returned tt, snd (forEachLine lines cl)).
Proof.
  pose proof (forEachLine_returns lines cl) as H.
  destruct (forEachLine lines cl) as [r cl1]. simpl in *. now subst.
Qed.

Lemma forEachLine_app l1 l2 (cl : Client S) :
  snd (forEachLine (l1 ++ l2) cl) = snd (forEachLine l2 (snd (forEachLine l1 cl))).
Proof.
  revert cl. induction l1 as [|l l1 IH]; intros cl; [reflexivity|].
  cbn [app ApiService.forEachLine]. unfold bind.
  pose proof (handleLine_returns l cl) as H.
  destruct (handleLine l cl) as [[[]|e] cl1]; [apply IH | discriminate].
Qed.

(** The loop over a run of successful reads: it hands over the complete
    lines of the text read so far and keeps the open line. *)
Lemma readLoop_pieces pieces : forall rest buffer (cl : Client S),
  hasNewline buffer = false ->
  readLoop (List.map Piece pieces ++ rest) buffer cl
  = readLoop rest (List.last (splitLines (buffer +:+ bodyText pieces)) "")
      (snd (forEachLine (List.removelast (splitLines (buffer +:+ bodyText pieces))) cl)).
Proof.
  induction pieces as [|p pieces IH]; intros rest buffer cl Hbuffer.
  - cbn [List.map app bodyText List.fold_right]. rewrite append_nil_r.
    now rewrite (splitLines_no_newline _ Hbuffer).
  - cbn [List.map app ApiService.readLoop bodyText List.fold_right].
    fold (bodyText pieces). unfold bind at 1. rewrite forEachLine_eq.
    rewrite IH by apply last_splitLines_no_newline.
    rewrite <- append_assoc, (splitLines_app (buffer +:+ p) (bodyText pieces)).
    pose proof (splitLines_nonempty
                  (List.last (splitLines (buffer +:+ p)) "" +:+ bodyText pieces)) as Hne.
    rewrite last_app_nonempty by exact Hne.
    rewrite List.removelast_app by exact Hne.
    now rewrite forEachLine_app.
Qed.

Lemma ask_pieces pieces (cl : Client S) :
  ask (Body (List.map Piece pieces)) cl
  = ask (Body [Piece (bodyText pieces)]) cl.
Proof.
  unfold askUnifiedQuestionStream, tryCatch.
  rewrite <- (List.app_nil_r (List.map Piece pieces)).
  rewrite readLoop_pieces by reflexivity.
  change [Piece (bodyText pieces)] with (List.map Piece [bodyText pieces] ++ []).
  rewrite readLoop_pieces by reflexivity.
  cbn [bodyText List.fold_right]. now rewrite append_nil_r.
Qed.

(** X1.  However the transport cuts the body into reads, the callbacks
    see the same calls in the same order: two runs over the same text
    end in the same state with the same result. *)
Theorem stream_rechunking pieces pieces' (cl : Client S) :
  bodyText pieces = bodyText pieces' ->
  ask (Body (List.map Piece pieces)) cl = ask (Body (List.map Piece pieces')) cl.
Proof. intros Htext. now rewrite !ask_pieces, Htext. Qed.

(** X2.  What follows the last line feed of the body is never handed to
    [onChunk]: at the end of the stream the open line is dropped. *)
Theorem open_line_not_delivered lines partial pieces (cl : Client S) :
  hasNewline partial = false ->
  bodyText pieces = unlines lines +:+ partial ->
  ask (Body (List.map Piece pieces)) cl = ask (Body [Piece (unlines lines)]) cl.
Proof.
  intros Hpartial Htext. rewrite ask_pieces, Htext.
  unfold askUnifiedQuestionStream, tryCatch. cbn [ApiService.readLoop].
  change ("" +:+ (unlines lines +:+ partial)) with (unlines lines +:+ partial).
  change ("" +:+ unlines lines) with (unlines lines).
  rewrite splitLines_app, last_splitLines_unlines.
  change ("" +:+ partial) with partial.
  rewrite (splitLines_no_newline _ Hpartial).
  rewrite List.removelast_app by discriminate.
  cbn [List.removelast]. now rewrite List.app_nil_r.
Qed.

(** X3.  When a read fails, the complete lines read before it have been
    handled, the failure is logged and [onError] receives it; what is
    left of the body and [onComplete] play no part. *)
Theorem read_error_reaches_onError pieces e rest (cl : Client S) :
  ask (Body (List.map Piece pieces ++ ReadError e :: rest)) cl
  = (log LogError "스트리밍 오류" ;;;
     match onError with
     | Some f => call (f e)
     | None => ret tt
     end)
      (snd (forEachLine (List.removelast (splitLines (bodyText pieces))) cl)).
Proof.
  unfold askUnifiedQuestionStream, tryCatch.
  rewrite readLoop_pieces by reflexivity. reflexivity.
Qed.

(** *** Lines that carry no chunk *)

Lemma parametric_bind {A B} (c : Eff (Client S) A) (k : A -> Eff (Client S) B) :
  parametric c -> (forall a, parametric (k a)) -> parametric (bind c k).
Proof.
  intros Hc Hk cl1 cl2 Hh. unfold bind.
  destruct (Hc cl1 cl2 Hh) as [Hr Hs].
  destruct (c cl1) as [[a1|e1] s1], (c cl2) as [[a2|e2] s2]; simpl in *;
    try discriminate.
  - injection Hr as <-. now apply Hk.
  - injection Hr as <-. now split.
Qed.

Lemma parametric_tryCatch {A} (c : Eff (Client S) A) (h : Thrown -> Eff (Client S) A) :
  parametric c -> (forall e, parametric (h e)) -> parametric (tryCatch c h).
Proof.
  intros Hc Hh cl1 cl2 Heq. unfold tryCatch.
  destruct (Hc cl1 cl2 Heq) as [Hr Hs].
  destruct (c cl1) as [[a1|e1] s1], (c cl2) as [[a2|e2] s2]; simpl in *;
    try discriminate.
  - now split.
  - injection Hr as <-. now apply Hh.
Qed.

Lemma parametric_call {A} (c : Eff S A) : parametric (call c).
Proof.
  intros cl1 cl2 Heq. unfold call. rewrite Heq.
  now destruct (c (handler cl2)).
Qed.

Lemma parametric_log level msg : parametric (@log S level msg).
Proof. intros cl1 cl2 Heq. now split. Qed.

Lemma parametric_ret {A} (a : A) : parametric (@ret (Client S) A a).
Proof. intros cl1 cl2 Heq. now split. Qed.

Lemma parametric_throw {A} e : parametric (@throw (Client S) A e).
Proof. intros cl1 cl2 Heq. now split. Qed.

Lemma parametric_handleLine line : parametric (handleLine line).
Proof.
  unfold ApiService.handleLine.
  destruct (negb _); [apply parametric_ret|].
  destruct (String.prefix _ _); [|apply parametric_ret].
  destruct (JSON_parse _); [|apply parametric_log].
  apply parametric_tryCatch; [apply parametric_call|].
  intros e. apply parametric_log.
Qed.

Lemma parametric_forEachLine lines : parametric (forEachLine lines).
Proof.
  induction lines as [|l lines IH]; [apply parametric_ret|].
  cbn [ApiService.forEachLine]. apply parametric_bind;
    [apply parametric_handleLine | intros _; exact IH].
Qed.

Lemma parametric_finish : parametric (finish onError onComplete).
Proof.
  apply parametric_tryCatch.
  - destruct onComplete; [apply parametric_call | apply parametric_ret].
  - intros e. apply parametric_bind; [apply parametric_log|].
    intros _. destruct onError; [apply parametric_call | apply parametric_ret].
Qed.

Lemma ask_text text (cl : Client S) :
  ask (Body [Piece text]) cl
  = finish onError onComplete
      (snd (forEachLine (List.removelast (splitLines text)) cl)).
Proof.
  unfold askUnifiedQuestionStream, finish, tryCatch. cbn [ApiService.readLoop].
  change ("" +:+ text) with text. unfold bind at 1.
  now rewrite forEachLine_eq.
Qed.

(** A line that is not a chunk does not change the state of the
    callbacks. *)
Lemma handleLine_skipped bad (cl : Client S) :
  String.prefix "data: " bad = false
  \/ JSON_parse (String.substring 6 (String.length bad - 6) bad) = None ->
  handler (snd (handleLine bad cl)) = handler cl.
Proof.
  unfold ApiService.handleLine. intros Hbad.
  destruct (negb _); [reflexivity|].
  destruct (String.prefix _ _); [|reflexivity].
  destruct Hbad as [Hbad | ->]; [discriminate | reflexivity].
Qed.

Lemma unlines_app l1 l2 : unlines (l1 ++ l2) = unlines l1 +:+ unlines l2.
Proof.
  induction l1 as [|l l1 IH]; [reflexivity|].
  cbn [app]. rewrite !unlines_cons, IH. symmetry. apply append_assoc.
Qed.

Lemma removelast_splitLines_unlines_app l1 t :
  List.removelast (splitLines (unlines l1 +:+ t))
  = List.removelast (splitLines (unlines l1)) ++ List.removelast (splitLines t).
Proof.
  rewrite splitLines_app, last_splitLines_unlines.
  now rewrite List.removelast_app by apply splitLines_nonempty.
Qed.

(** X4.  A line that does not start with the [data: ] prefix, or whose
    payload [JSON.parse] rejects, is skipped and the stream goes on: the
    callbacks end in the state, and the call in the result, of the same
    body without that line. *)
Theorem malformed_line_skipped before bad after pieces (cl : Client S) :
  hasNewline bad = false ->
  String.prefix "data: " bad = false
  \/ JSON_parse (String.substring 6 (String.length bad - 6) bad) = None ->
  bodyText pieces = unlines (before ++ bad :: after) ->
  fst (ask (Body (List.map Piece pieces)) cl)
  = fst (ask (Body [Piece (unlines (before ++ after))]) cl)
  /\ handler (snd (ask (Body (List.map Piece pieces)) cl))
     = handler (snd (ask (Body [Piece (unlines (before ++ after))]) cl)).
Proof.
  intros Hline Hbad Htext. rewrite ask_pieces, Htext, !ask_text.
  rewrite !unlines_app, unlines_cons, !removelast_splitLines_unlines_app.
  rewrite splitLines_terminated, splitLines_open_line by exact Hline.
  cbn [List.removelast].
  rewrite List.removelast_app by apply splitLines_nonempty.
  rewrite !forEachLine_app.
  set (cl1 := snd (forEachLine (List.removelast (splitLines (unlines before))) cl)).
  pose proof (handleLine_returns bad cl1) as Hret.
  pose proof (handleLine_skipped bad cl1 Hbad) as Hskip.
  cbn [app ApiService.forEachLine]. unfold bind.
  destruct (handleLine bad cl1) as [[[]|e] cl2]; [|discriminate].
  cbn [fst snd] in *.
  apply parametric_finish. now apply parametric_forEachLine.
Qed.

End Reader.

Lemma stream_rechunking_witness :
  askUnifiedQuestionStream JSON.parse collectChunk None (Some markComplete)
    (Body (List.map Piece ["data: [1"; ",2]"; String newline "da"; "ta: 3";
                           String newline ""]))
    (mkClient [] [])
  = askUnifiedQuestionStream JSON.parse collectChunk None (Some markComplete)
      (Body (List.map Piece [sampleBody])) (mkClient [] []).
Proof.
  apply (stream_rechunking JSON.parse collectChunk None (Some markComplete)
           ["data: [1"; ",2]"; String newline "da"; "ta: 3"; String newline ""]
           [sampleBody] (mkClient [] [])).
  reflexivity.
Defined.

Lemma open_line_witness :
  askUnifiedQuestionStream JSON.parse collectChunk None (Some markComplete)
    (Body (List.map Piece [sampleBody; "data: 4"])) (mkClient [] [])
  = askUnifiedQuestionStream JSON.parse collectChunk None (Some markComplete)
      (Body [Piece (unlines ["data: [1,2]"; "data: 3"])]) (mkClient [] []).
Proof.
  apply (open_line_not_delivered JSON.parse collectChunk None (Some markComplete)
           ["data: [1,2]"; "data: 3"] "data: 4" [sampleBody; "data: 4"]
           (mkClient [] [])); reflexivity.
Defined.

Lemma malformed_line_witness :
  fst (askUnifiedQuestionStream JSON.parse collectChunk None (Some markComplete)
         (Body (List.map Piece [unlines ["data: [1,2]"; "data: [1,"; "data: 3"]]))
         (mkClient [] []))
  = fst (askUnifiedQuestionStream JSON.parse collectChunk None (Some markComplete)
           (Body [Piece (unlines (["data: [1,2]"] ++ ["data: 3"]))])
           (mkClient [] []))
  /\ handler
       (snd (askUnifiedQuestionStream JSON.parse collectChunk None
               (Some markComplete)
               (Body (List.map Piece
                        [unlines ["data: [1,2]"; "data: [1,"; "data: 3"]]))
               (mkClient [] [])))
     = handler
         (snd (askUnifiedQuestionStream JSON.parse collectChunk None
                 (Some markComplete)
                 (Body [Piece (unlines (["data: [1,2]"] ++ ["data: 3"]))])
                 (mkClient [] []))).
Proof.
  apply (malformed_line_skipped JSON.parse collectChunk None (Some markComplete)
           ["data: [1,2]"] "data: [1," ["data: 3"]
           [unlines ["data: [1,2]"; "data: [1,"; "data: 3"]] (mkClient [] []));
    [reflexivity | right; reflexivity | reflexivity].
Defined.

(** The sample body, read in five pieces: both chunks arrive, then
    [onComplete]. *)
Example stream_sample :
  handler
    (snd (askUnifiedQuestionStream JSON.parse collectChunk None (Some markComplete)
            (Body (List.map Piece ["data: [1"; ",2]"; String newline "da"; "ta: 3";
                                   String newline ""]))
            (mkClient [] [])))
  = [JsArray [JsNumber 1; JsNumber 2]; JsNumber 3; JsString "complete"].
Proof. reflexivity. Qed.

End ApiServiceProps.

(** ** The assembler: what a stream leaves alone *)

Module StreamingProps.
Import Assembler Target Streaming.

Lemma sameFrame_refl aid l : sameFrame aid l l.
Proof. induction l; constructor; [now split | assumption]. Qed.

Lemma sameFrame_trans aid l1 l2 l3 :
  sameFrame aid l1 l2 -> sameFrame aid l2 l3 -> sameFrame aid l1 l3.
Proof.
  intros H12. revert l3. induction H12 as [|m1 m2 l1 l2 [Hid Hrest] _ IH];
    intros l3 H23; inversion H23 as [|? m3 ? l3' [Hid' Hrest'] Htail]; subst;
    constructor.
  - split; [congruence|]. intros Hne. rewrite Hrest', Hrest; congruence.
  - now apply IH.
Qed.

Lemma updateMessages_frame aid chunk l : forall tb fin,
  sameFrame aid l (fst (fst (updateMessages aid chunk l tb fin))).
Proof.
  induction l as [|msg l IH]; intros tb fin; [constructor|].
  cbn [updateMessages]. destruct (String.eqb (id msg) aid) eqn:Hid.
  - pose proof (AssemblerProps.applyChunk_id chunk tb msg) as Hkeep.
    destruct (applyChunk chunk tb msg) as [um tb1].
    specialize (IH tb1 um).
    destruct (updateMessages aid chunk l tb1 um) as [[l1 tb2] fin2].
    constructor; [|exact IH]. split; [exact Hkeep|].
    apply String.eqb_eq in Hid. intros Hne. contradiction.
  - specialize (IH tb fin).
    destruct (updateMessages aid chunk l tb fin) as [[l1 tb2] fin2].
    constructor; [now split | exact IH].
Qed.

Lemma onChunk_frame aid now chunk st :
  sameFrame aid (messages st) (messages (onChunk aid now chunk st)).
Proof.
  unfold onChunk. destruct (isTextStream chunk && _); [apply sameFrame_refl|].
  match goal with
  | |- context [updateMessages aid chunk (messages st) ?tb ?fin] =>
      pose proof (updateMessages_frame aid chunk (messages st) tb fin) as H;
      destruct (updateMessages aid chunk (messages st) tb fin) as [[l1 tb2] fin2]
  end.
  exact H.
Qed.

Lemma onComplete_frame aid st :
  sameFrame aid (messages st) (messages (onComplete aid st)).
Proof.
  unfold onComplete, flushUpdater. destruct (nonEmpty _); [|apply sameFrame_refl].
  cbn [messages]. induction (messages st) as [|msg l IH]; constructor; [|exact IH].
  destruct (String.eqb (id msg) aid) eqn:Hid.
  - split; [reflexivity|]. apply String.eqb_eq in Hid. intros Hne. contradiction.
  - now split.
Qed.

Lemma onChunks_frame aid events : forall st,
  sameFrame aid (messages st) (messages (onChunks aid events st)).
Proof.
  induction events as [|[now chunk] events IH]; intros st.
  - apply sameFrame_refl.
  - cbn [onChunks]. eapply sameFrame_trans; [apply onChunk_frame | apply IH].
Qed.

(** X5.  A stream never adds, removes or reorders messages: after any
    sequence of chunks and the final flush the transcript has the same ids
    at the same places, and every message whose id is not the assistant
    message's is exactly what it was. *)
Theorem stream_keeps_other_messages aid events st :
  sameFrame aid (messages st) (messages (runStream aid events st)).
Proof.
  unfold runStream.
  eapply sameFrame_trans; [apply onChunks_frame | apply onComplete_frame].
Qed.

Lemma sameFrame_others aid l l' : others aid l -> sameFrame aid l l' -> l' = l.
Proof.
  intros Hothers Hframe. induction Hframe as [|m m' l l' [_ Hrest] _ IH];
    [reflexivity|].
  inversion Hothers as [|? ? Hne Htail]; subst. now rewrite Hrest, IH.
Qed.

(** X6.  When no message of the transcript carries the assistant
    message's id, as after the transcript was replaced while the stream
    was running, the stream changes nothing that is shown: the text it
    delivers only reaches the buffer. *)
Theorem stream_without_target aid events st :
  others aid (messages st) ->
  messages (runStream aid events st) = messages st.
Proof.
  intros Hothers. apply (sameFrame_others aid _ _ Hothers).
  unfold runStream.
  eapply sameFrame_trans; [apply onChunks_frame | apply onComplete_frame].
Qed.

Lemma stream_without_target_witness :
  messages (runStream sampleId sampleDoneEvents
              (mkStream [sampleUserMessage] "" 0
                 (initialAssistantMessage sampleId 0)))
  = [sampleUserMessage].
Proof.
  apply (stream_without_target sampleId sampleDoneEvents
           (mkStream [sampleUserMessage] "" 0 (initialAssistantMessage sampleId 0))).
  repeat constructor. discriminate.
Defined.

(** *** Code blocks *)

Lemma keepsCodeBlocks_refl l : keepsCodeBlocks l l.
Proof. induction l; constructor; auto. Qed.

Lemma keepsCodeBlocks_trans l1 l2 l3 :
  keepsCodeBlocks l1 l2 -> keepsCodeBlocks l2 l3 -> keepsCodeBlocks l1 l3.
Proof.
  intros H12. revert l3. induction H12 as [|m1 m2 l1 l2 H _ IH];
    intros l3 H23; inversion H23 as [|? m3 ? l3' H' Htail]; subst;
    constructor; [auto | now apply IH].
Qed.

Lemma applyChunk_keeps_code chunk tb msg :
  codeExecution msg <> None -> codeExecution (fst (applyChunk chunk tb msg)) <> None.
Proof.
  destruct (codeExecution msg) as [ce|] eqn:Hce; [intros _ | contradiction].
  destruct (AssemblerProps.applyChunk_code_present chunk tb msg ce Hce)
    as (_ & _ & ce' & Hce').
  now rewrite Hce'.
Qed.

Lemma updateMessages_keeps_code aid chunk l : forall tb fin,
  keepsCodeBlocks l (fst (fst (updateMessages aid chunk l tb fin))).
Proof.
  induction l as [|msg l IH]; intros tb fin; [constructor|].
  cbn [updateMessages]. destruct (String.eqb (id msg) aid).
  - pose proof (applyChunk_keeps_code chunk tb msg) as Hkeep.
    destruct (applyChunk chunk tb msg) as [um tb1].
    specialize (IH tb1 um).
    destruct (updateMessages aid chunk l tb1 um) as [[l1 tb2] fin2].
    constructor; [exact Hkeep | exact IH].
  - specialize (IH tb fin).
    destruct (updateMessages aid chunk l tb fin) as [[l1 tb2] fin2].
    constructor; [auto | exact IH].
Qed.

Lemma onChunk_keeps_code aid now chunk st :
  keepsCodeBlocks (messages st) (messages (onChunk aid now chunk st)).
Proof.
  unfold onChunk. destruct (isTextStream chunk && _); [apply keepsCodeBlocks_refl|].
  match goal with
  | |- context [updateMessages aid chunk (messages st) ?tb ?fin] =>
      pose proof (updateMessages_keeps_code aid chunk (messages st) tb fin) as H;
      destruct (updateMessages aid chunk (messages st) tb fin) as [[l1 tb2] fin2]
  end.
  exact H.
Qed.

Lemma onComplete_keeps_code aid st :
  keepsCodeBlocks (messages st) (messages (onComplete aid st)).
Proof.
  unfold onComplete, flushUpdater. destruct (nonEmpty _); [|apply keepsCodeBlocks_refl].
  cbn [messages]. induction (messages st) as [|msg l IH]; constructor; [|exact IH].
  now destruct (String.eqb (id msg) aid).
Qed.

(** X7.  No chunk takes a code block away: a message that has one keeps
    one through any sequence of chunks and the final flush. *)
Theorem stream_keeps_code_blocks aid events st :
  keepsCodeBlocks (messages st) (messages (runStream aid events st)).
Proof.
  unfold runStream.
  eapply keepsCodeBlocks_trans; [|apply onComplete_keeps_code].
  revert st. induction events as [|[now chunk] events IH]; intros st.
  - apply keepsCodeBlocks_refl.
  - cbn [onChunks]. eapply keepsCodeBlocks_trans;
      [apply onChunk_keeps_code | apply IH].
Qed.

(** *** The streaming flag *)

Lemma applyChunk_keeps_flag chunk tb msg :
  endsStreaming chunk = false ->
  isStreaming (fst (applyChunk chunk tb msg)) = isStreaming msg.
Proof.
  destruct chunk; try discriminate; intros _; simpl;
    AssemblerProps.branches; reflexivity.
Qed.

Lemma updateMessages_keeps_flag aid chunk l : forall tb fin,
  endsStreaming chunk = false ->
  List.map isStreaming (fst (fst (updateMessages aid chunk l tb fin)))
  = List.map isStreaming l.
Proof.
  induction l as [|msg l IH]; intros tb fin Hchunk; [reflexivity|].
  cbn [updateMessages]. destruct (String.eqb (id msg) aid).
  - pose proof (applyChunk_keeps_flag chunk tb msg Hchunk) as Hkeep.
    destruct (applyChunk chunk tb msg) as [um tb1].
    specialize (IH tb1 um Hchunk).
    destruct (updateMessages aid chunk l tb1 um) as [[l1 tb2] fin2].
    cbn [fst List.map] in *. now rewrite Hkeep, IH.
  - specialize (IH tb fin Hchunk).
    destruct (updateMessages aid chunk l tb fin) as [[l1 tb2] fin2].
    cbn [fst List.map] in *. now rewrite IH.
Qed.

Lemma onChunk_keeps_flag aid now chunk st :
  endsStreaming chunk = false ->
  List.map isStreaming (messages (onChunk aid now chunk st))
  = List.map isStreaming (messages st).
Proof.
  intros Hchunk. unfold onChunk. destruct (isTextStream chunk && _); [reflexivity|].
  match goal with
  | |- context [updateMessages aid chunk (messages st) ?tb ?fin] =>
      pose proof (updateMessages_keeps_flag aid chunk (messages st) tb fin Hchunk)
        as H;
      destruct (updateMessages aid chunk (messages st) tb fin) as [[l1 tb2] fin2]
  end.
  exact H.
Qed.

Lemma onComplete_keeps_flag aid st :
  List.map isStreaming (messages (onComplete aid st))
  = List.map isStreaming (messages st).
Proof.
  unfold onComplete, flushUpdater. destruct (nonEmpty _); [|reflexivity].
  cbn [messages]. rewrite List.map_map. apply List.map_ext.
  intros msg. now destruct (String.eqb _ _).
Qed.

(** X8.  Only [analysis_complete] and [error] clear the streaming flag;
    the end of the stream does not.  A stream that ends without one of
    them leaves every message's flag as it was, so the assistant message
    stays marked as streaming. *)
Theorem stream_without_terminator_keeps_flag aid events st :
  forallb (fun e => negb (endsStreaming (snd e))) events = true ->
  List.map isStreaming (messages (runStream aid events st))
  = List.map isStreaming (messages st).
Proof.
  intros Hevents. unfold runStream. rewrite onComplete_keeps_flag.
  revert st. induction events as [|[now chunk] events IH]; intros st; [reflexivity|].
  cbn [forallb snd] in Hevents. apply andb_true_iff in Hevents as [Hchunk Hevents].
  apply negb_true_iff in Hchunk.
  cbn [onChunks]. rewrite (IH Hevents). now apply onChunk_keeps_flag.
Qed.

Lemma stream_without_terminator_witness :
  List.map isStreaming
    (messages (runStream sampleId
                 [(1, analysis_start "Analysing"); (2, text_stream "Hello")]
                 (startStream [sampleUserMessage] sampleId 0)))
  = List.map isStreaming (messages (startStream [sampleUserMessage] sampleId 0)).
Proof.
  apply (stream_without_terminator_keeps_flag sampleId
           [(1, analysis_start "Analysing"); (2, text_stream "Hello")]
           (startStream [sampleUserMessage] sampleId 0)).
  reflexivity.
Defined.

(** *** What is saved, and the last chunk *)

Lemma steps_app e1 : forall e2 f, steps (e1 ++ e2) f = steps e2 (steps e1 f).
Proof.
  induction e1 as [|[now chunk] e1 IH]; intros e2 f; [reflexivity|].
  cbn [app steps]. apply IH.
Qed.


Lemma runStream_start prev aid ts events :
  others aid prev ->
  runStream aid events (startStream prev aid ts)
  = plug prev []
      (complete (steps events (mkFocus (initialAssistantMessage aid ts) "" 0
                                 (initialAssistantMessage aid ts))))
  /\ onChunks aid events (startStream prev aid ts)
     = plug prev []
         (steps events (mkFocus (initialAssistantMessage aid ts) "" 0
                          (initialAssistantMessage aid ts))).
Proof.
  intros Hprev. rewrite AssemblerProps.startStream_plug. split.
  - apply AssemblerProps.runStream_plug; [assumption | constructor | reflexivity].
  - apply AssemblerProps.onChunks_plug; [assumption | constructor | reflexivity].
Qed.





(** Text that arrived while the code block was executing is neither shown
    nor saved. *)
Example buffered_text_neither_shown_nor_saved :
  let st := runStream sampleId
              [(3, code_complete_display sampleCode); (4, text_stream "A")]
              (startStream [sampleUserMessage] sampleId 0) in
  shown sampleId st = Some ""
  /\ Firestore.content (messageData "s1" "u1" (finalAssistantMessage st)) = "".
Proof. split; reflexivity. Qed.

(** X10.  When the last chunk of a stream is [error], the message ends
    neither streaming nor executing and its content is the error text
    alone: the text streamed before the error is replaced, and the
    end-of-stream flush adds nothing. *)
Theorem error_chunk_ends_stream prev aid ts events now c :
  others aid prev ->
  exists msg,
    findMessage aid
      (messages (runStream aid (events ++ [(now, error c)]) (startStream prev aid ts)))
    = Some msg
    /\ content msg = c
    /\ isStreaming msg = Some false
    /\ (forall ce, codeExecution msg = Some ce -> isExecuting ce = false).
Proof.
  intros Hprev.
  destruct (runStream_start prev aid ts (events ++ [(now, error c)]) Hprev) as [-> _].
  set (f0 := mkFocus _ _ _ _). rewrite steps_app.
  set (f := steps events f0). cbn [steps].
  eexists. split.
  - unfold plug. cbn [messages]. apply AssemblerProps.findMessage_focus;
      [assumption|].
    rewrite AssemblerProps.complete_id, AssemblerProps.step_id.
    subst f. now rewrite AssemblerProps.steps_id.
  - rewrite AssemblerProps.complete_target.
    unfold step. cbn [isTextStream andb target buffer applyChunk fst snd].
    destruct (codeExecution (target f)) as [ce0|] eqn:Hce; simpl;
      rewrite ?Hce; simpl;
      (split; [reflexivity | split; [reflexivity|]]);
      intros ce H; try congruence; injection H as <-; reflexivity.
Qed.

Lemma error_chunk_witness :
  exists msg,
    findMessage sampleId
      (messages (runStream sampleId
                   ([(3, code_complete_display sampleCode); (4, text_stream "A")]
                    ++ [(5, error "failed")])
                   (startStream [sampleUserMessage] sampleId 0)))
    = Some msg
    /\ content msg = "failed"
    /\ isStreaming msg = Some false
    /\ (forall ce, codeExecution msg = Some ce -> isExecuting ce = false).
Proof.
  apply (error_chunk_ends_stream [sampleUserMessage] sampleId 0
           [(3, code_complete_display sampleCode); (4, text_stream "A")]
           5 "failed").
  repeat constructor. discriminate.
Defined.

(** *** The history sent with a question *)

Lemma filter_roles (l : list Message) :
  List.filter (fun msg => match type msg with
                          | user => true
                          | assistant => true
                          end) l = l.
Proof.
  induction l as [|msg l IH]; [reflexivity|].
  cbn [List.filter]. destruct (type msg); now rewrite IH.
Qed.

(** X11.  The history sent with a question is the last ten messages of
    the transcript, in order, and the whole transcript when it has
    fewer: no message is filtered out, every message being of the user
    or of the assistant. *)
Theorem conversationHistory_last_ten toISOString msgs :
  List.length (conversationHistory toISOString msgs)
  = Nat.min 10 (List.length msgs)
  /\ exists older recent,
       msgs = older ++ recent
       /\ List.map cm_content (conversationHistory toISOString msgs)
          = List.map content recent
       /\ List.map role (conversationHistory toISOString msgs)
          = List.map type recent.
Proof.
  unfold conversationHistory, sliceLast. rewrite filter_roles. split.
  - rewrite List.length_map, List.length_skipn. lia.
  - exists (List.firstn (List.length msgs - 10) msgs),
           (List.skipn (List.length msgs - 10) msgs).
    split; [symmetry; apply List.firstn_skipn|].
    rewrite !List.map_map. split; apply List.map_ext; intros msg;
      [reflexivity | now destruct (type msg)].
Qed.

End StreamingProps.

(** ** The chat and file collections *)

Module StoreProps.
Import Firestore firestoreService FileStore.

(** *** Session listing *)

(** X12.  With the store answering, [getChatSessions] lists every
    session stored for the user that carries an [updatedAt] and is
    active. *)
Theorem getChatSessions_lists_active_sessions userId w docId d t :
  db w = true -> noFault 1 (faults w) = true ->
  chat w !! docId = Some d ->
  cs_userId d = Some userId -> updatedAt d = Some t -> isActive d = true ->
  exists sessions,
    fst (getChatSessions userId w) = Returned sessions
    /\ In (withDocId (docId, d)) sessions.
Proof.
  intros Hdb Hfaults Hdoc Huser Hupdated Hactive.
  destruct (FirestoreProps.getChatSessions_In userId w Hdb Hfaults) as (sessions & Hlist & Hin).
  exists sessions. split; [exact Hlist|].
  apply Hin. exists docId, d. repeat split; try assumption.
  unfold matchesQuery. cbn [snd]. rewrite Huser, Hupdated.
  apply String.eqb_refl.
Qed.

Lemma getChatSessions_lists_witness :
  exists sessions,
    fst (getChatSessions "u1" sampleWorldSessions) = Returned sessions
    /\ In (withDocId ("c", sessionOf "u1" "Newer" "active" 200)) sessions.
Proof.
  apply (getChatSessions_lists_active_sessions "u1" sampleWorldSessions "c"
           (sessionOf "u1" "Newer" "active" 200) 200); reflexivity.
Defined.

Lemma deleteChatSession_trace sessionId w :
  deleteChatSession sessionId w =
  if db w then
    match faults w with
    | Some e :: rest =>
        (Raised e,
         withConsole (console w ++ [(LogError, "Failed to delete chat session")])
           (withFaults rest w))
    | _ =>
        (Returned tt,
         withChat
           (<[sessionId :=
                mergeSession
                  (mkChatSession None None None (Some "deleted") None None
                     (Some (serverClock w)) None None None None)
                  (chat w !! sessionId)]> (chat w))
           (withFaults (tail (faults w)) w))
    end
  else
    (Raised (ErrorInstance "Firestore not available"),
     withConsole
       ((console w ++ [(LogError, "Firestore not initialized")])
        ++ [(LogError, "Failed to delete chat session")]) w).
Proof.
  cbv [deleteChatSession tryCatch ifThenElse bind ret throw setDocMerge
       serverTimestamp reference roundTrip consoleError].
  destruct (db w) eqn:Hdb; cbn [negb]; [|reflexivity].
  destruct (faults w) as [|[e|] rest]; reflexivity.
Qed.

Lemma deleteChatSession_then_list userId sessionId w :
  db w = true -> noFault 2 (faults w) = true ->
  exists w1,
    deleteChatSession sessionId w = (Returned tt, w1)
    /\ db w1 = true
    /\ head (faults w1) = head (tail (faults w))
    /\ chat w1 !! sessionId
       = Some (mergeSession
                 (mkChatSession None None None (Some "deleted") None None
                    (Some (serverClock w)) None None None None)
                 (chat w !! sessionId))
    /\ exists sessions,
         fst (getChatSessions userId w1) = Returned sessions
         /\ Forall (fun session =>
                      exists docId d,
                        docId <> sessionId /\ chat w !! docId = Some d
                        /\ session = withDocId (docId, d))
              sessions.
Proof.
  intros Hdb Hfaults.
  destruct (FirestoreProps.noFault_tail _ _ Hfaults) as [Hf1 Hfaults1].
  rewrite deleteChatSession_trace, Hdb, (FirestoreProps.noFault_match _ _ _ Hf1).
  eexists. split; [reflexivity|]. split; [exact Hdb|]. split; [reflexivity|].
  split; [apply lookup_insert_eq|].
  match goal with
  | |- context [getChatSessions userId ?w1] =>
      destruct (FirestoreProps.getChatSessions_In userId w1) as (sessions & Hlist & Hin);
        [exact Hdb | exact Hfaults1 |]
  end.
  exists sessions. split; [exact Hlist|].
  apply Forall_forall. intros session Hsession.
  apply list_elem_of_In, Hin in Hsession
    as (docId & d & Hdoc & _ & Hactive & ->).
  cbn [chat withChat withFaults] in Hdoc.
  destruct (decide (docId = sessionId)) as [->|Hne].
  - rewrite lookup_insert_eq in Hdoc. injection Hdoc as <-.
    exfalso. revert Hactive. unfold isActive.
    destruct (chat w !! sessionId) as [d0|]; discriminate.
  - rewrite lookup_insert_ne in Hdoc by congruence.
    exists docId, d. now repeat split.
Qed.

(** X13.  Deleting a session is a mark on its document: with the store
    answering, the session is no longer listed for any user, and
    [getMessages] returns for it what it returned before. *)
Theorem deleted_session_hidden_messages_kept parse userId sessionId w :
  db w = true -> noFault 2 (faults w) = true ->
  exists w1,
    deleteChatSession sessionId w = (Returned tt, w1)
    /\ fst (getMessages parse sessionId w1) = fst (getMessages parse sessionId w)
    /\ exists sessions,
         fst (getChatSessions userId w1) = Returned sessions
         /\ Forall (fun session =>
                      exists docId d,
                        docId <> sessionId /\ chat w !! docId = Some d
                        /\ session = withDocId (docId, d))
              sessions.
Proof.
  intros Hdb Hfaults.
  destruct (deleteChatSession_then_list userId sessionId w Hdb Hfaults)
    as (w1 & Hdelete & Hdb1 & Hhead & Hdoc & Hlist).
  exists w1. split; [exact Hdelete|]. split; [|exact Hlist].
  destruct (FirestoreProps.noFault_tail _ _ Hfaults) as [Hf1 Hfaults1].
  destruct (FirestoreProps.noFault_tail _ _ Hfaults1) as [Hf2 _].
  rewrite <- Hhead in Hf2.
  rewrite !FirestoreProps.getMessages_trace, Hdb, Hdb1, Hdoc,
    (FirestoreProps.noFault_match _ _ _ Hf1),
    (FirestoreProps.noFault_match _ _ _ Hf2).
  destruct (chat w !! sessionId) as [d|]; reflexivity.
Qed.

Lemma deleted_session_witness :
  exists w1,
    deleteChatSession "c" sampleWorldSessions = (Returned tt, w1)
    /\ fst (getMessages (fun _ => None) "c" w1)
       = fst (getMessages (fun _ => None) "c" sampleWorldSessions)
    /\ exists sessions,
         fst (getChatSessions "u1" w1) = Returned sessions
         /\ Forall (fun session =>
                      exists docId d,
                        docId <> "c" /\ chat sampleWorldSessions !! docId = Some d
                        /\ session = withDocId (docId, d))
              sessions.
Proof.
  apply (deleted_session_hidden_messages_kept (fun _ => None) "u1" "c"
           sampleWorldSessions); reflexivity.
Defined.

(** X14.  With the store answering, a session just created is listed for
    its user under the id [createChatSession] returned, with the title
    given ("New Chat" without one) and no message. *)
Theorem created_session_is_listed userId title w :
  db w = true -> noFault 2 (faults w) = true ->
  exists sessionId w1 sessions session,
    createChatSession userId title w = (Returned sessionId, w1)
    /\ fst (getChatSessions userId w1) = Returned sessions
    /\ In session sessions
    /\ cs_id session = Some sessionId
    /\ Firestore.title session = Some (default "New Chat" title)
    /\ messages session = Some [].
Proof.
  intros Hdb Hfaults.
  destruct (FirestoreProps.noFault_tail _ _ Hfaults) as [Hf1 Hfaults1].
  rewrite FirestoreProps.createChatSession_trace, Hdb,
    (FirestoreProps.noFault_match _ _ _ Hf1).
  set (data := mkChatSession _ _ _ _ _ _ _ _ _ _ _).
  set (w1 := withIssued _ _).
  destruct (FirestoreProps.getChatSessions_In userId w1 Hdb Hfaults1) as (sessions & Hlist & Hin).
  exists (genId w (issued w)), w1, sessions, (withDocId (genId w (issued w), data)).
  repeat split; try assumption.
  apply Hin. exists (genId w (issued w)), data. repeat split.
  - subst w1. cbn [chat withIssued withChat]. apply lookup_insert_eq.
  - unfold matchesQuery. cbn [snd]. subst data. cbn [cs_userId updatedAt].
    apply String.eqb_refl.
Qed.

Lemma created_session_witness :
  exists sessionId w1 sessions session,
    createChatSession "u1" (Some "Sales 2") sampleWorld = (Returned sessionId, w1)
    /\ fst (getChatSessions "u1" w1) = Returned sessions
    /\ In session sessions
    /\ cs_id session = Some sessionId
    /\ Firestore.title session = Some (default "New Chat" (Some "Sales 2"))
    /\ messages session = Some [].
Proof.
  apply (created_session_is_listed "u1" (Some "Sales 2") sampleWorld); reflexivity.
Defined.

(** X15.  [getChatSession] never raises: whatever the handle, the
    pending faults and the collection, it returns, and what it returns is
    the stored document under its id, or nothing; a rejected read is
    logged and gives nothing, as a missing document does. *)
Theorem getChatSession_never_raises sessionId w :
  exists r w1,
    getChatSession sessionId w = (Returned r, w1)
    /\ chat w1 = chat w
    /\ (r = None
        \/ exists d, chat w !! sessionId = Some d
                     /\ r = Some (withDocId (sessionId, d)))
    /\ ((db w = false \/ exists e, head (faults w) = Some (Some e)) ->
        r = None
        /\ console w1 = console w ++ [(LogError, "Failed to get chat session")]).
Proof.
  cbv [getChatSession tryCatch bind ret getDoc reference roundTrip consoleError].
  destruct (db w) eqn:Hdb.
  - destruct (faults w) as [|[e|] rest] eqn:Hfaults; cbn [chat withFaults].
    + destruct (chat w !! sessionId) as [d|] eqn:Hdoc;
        (eexists; eexists; split; [reflexivity|]; split; [reflexivity|]; split;
         [first [now left | right; exists d; now split]|]);
        intros [Hno|(e & He)]; discriminate.
    + eexists. eexists. split; [reflexivity|]. split; [reflexivity|].
      split; [now left|]. intros _. now split.
    + destruct (chat w !! sessionId) as [d|] eqn:Hdoc;
        (eexists; eexists; split; [reflexivity|]; split; [reflexivity|]; split;
         [first [now left | right; exists d; now split]|]);
        intros [Hno|(e & He)]; discriminate.
  - eexists. eexists. split; [reflexivity|]. split; [reflexivity|].
    split; [now left|]. intros _. now split.
Qed.

(** *** Uploading to storage *)

Lemma uploadFile_trace userId file sessionId w :
  storage w = true -> db w = true ->
  uploadFile userId file sessionId w =
  match faults w with
  | Some e :: rest =>
      (Raised e,
       withConsole (console w ++ [(LogError, "Failed to upload file")])
         (withFaults rest w))
  | _ =>
      match tail (faults w) with
      | Some e :: rest =>
          (Raised e,
           withConsole (console w ++ [(LogError, "Failed to upload file")])
             (withFaults rest
                (withObjects (objects w ++ [storagePath userId (clock w) file]) w)))
      | _ =>
          match sessionId with
          | None =>
              (Raised (unsupportedUndefined "addDoc" (Some "sessionId")
                         ("fileMetadata/" +:+ genId w (issued w))),
               withConsole (console w ++ [(LogError, "Failed to upload file")])
                 (withIssued (S (issued w))
                    (withFaults (tail (tail (faults w)))
                       (withObjects
                          (objects w ++ [storagePath userId (clock w) file]) w))))
          | Some _ =>
              match tail (tail (faults w)) with
              | Some e :: rest =>
                  (Raised e,
                   withConsole (console w ++ [(LogError, "Failed to upload file")])
                     (withFaults rest
                        (withObjects
                           (objects w ++ [storagePath userId (clock w) file]) w)))
              | _ =>
                  (Returned
                     (storedMetadata (Some (genId w (issued w))) userId file sessionId
                        (downloadURL w (storagePath userId (clock w) file))
                        ServerTimestampSentinel),
                   withIssued (S (issued w))
                     (withFileMetadata
                        (<[genId w (issued w) :=
                             storedMetadata None userId file sessionId
                               (downloadURL w (storagePath userId (clock w) file))
                               (Timestamp (serverClock w))]> (fileMetadataColl w))
                        (withFaults (tail (tail (tail (faults w))))
                           (withObjects
                              (objects w ++ [storagePath userId (clock w) file])
                              w))))
              end
          end
      end
  end.
Proof.
  intros Hstorage Hdb.
  cbv [uploadFile tryCatch ifThenElse bind ret throw uploadBytes getDownloadURL
       addFileMetadataDoc Date_now serverTimestamp reference roundTrip
       consoleError resolved].
  rewrite Hstorage, Hdb. cbn [negb].
  destruct sessionId as [sessionId|];
    destruct (faults w) as [|[e1|] [|[e2|] [|[e3|] rest]]];
    cbn [tail faults withFaults withObjects db fm_sessionId uploadedAt];
    rewrite ?Hdb; reflexivity.
Qed.

Lemma fileType_nonEmpty file :
  nonEmpty (if nonEmpty (mimeType file) then mimeType file
            else if nonEmpty (afterLastDot (name file))
                 then afterLastDot (name file) else "unknown") = true.
Proof.
  destruct (nonEmpty (mimeType file)) eqn:Hm; [exact Hm|].
  destruct (nonEmpty (afterLastDot (name file))) eqn:Hn; [exact Hn | reflexivity].
Qed.

(** X16.  With both handles, a session id and the store answering,
    [uploadFile] stores the object under the user's folder, stores the
    metadata under a generated id and returns the record it sent with
    that id: the record is not yet processed, its type is never empty and
    its URL is the download URL of the object.  The upload time of the
    stored document is the server's; the record returned carries the
    [serverTimestamp()] placeholder in its place. *)
Theorem uploadFile_stores_object_and_metadata userId file sessionId w :
  storage w = true -> db w = true -> noFault 3 (faults w) = true ->
  exists m w1 path,
    uploadFile userId file (Some sessionId) w = (Returned m, w1)
    /\ path = storagePath userId (clock w) file
    /\ objects w1 = objects w ++ [path]
    /\ fm_fileUrl m = downloadURL w path
    /\ fm_id m = Some (genId w (issued w))
    /\ fm_sessionId m = Some sessionId
    /\ uploadedAt m = ServerTimestampSentinel
    /\ fileMetadataColl w1 !! genId w (issued w)
       = Some (mkFileMetadata None (fm_userId m) (fm_fileName m) (fm_fileSize m)
                 (fm_fileType m) (fm_fileUrl m) (Timestamp (serverClock w))
                 (fm_sessionId m) (processed m) (fm_columns m) (rowCount m))
    /\ processed m = false
    /\ nonEmpty (fm_fileType m) = true.
Proof.
  intros Hstorage Hdb Hfaults.
  destruct (FirestoreProps.noFault_tail _ _ Hfaults) as [Hf1 Hfaults1].
  destruct (FirestoreProps.noFault_tail _ _ Hfaults1) as [Hf2 Hfaults2].
  destruct (FirestoreProps.noFault_tail _ _ Hfaults2) as [Hf3 _].
  rewrite (uploadFile_trace _ _ _ _ Hstorage Hdb),
    (FirestoreProps.noFault_match _ _ _ Hf1),
    (FirestoreProps.noFault_match _ _ _ Hf2),
    (FirestoreProps.noFault_match _ _ _ Hf3).
  eexists. eexists. eexists. split; [reflexivity|]. split; [reflexivity|].
  cbn [objects fileMetadataColl withIssued withFileMetadata withFaults withObjects].
  repeat split.
  - apply lookup_insert_eq.
  - apply fileType_nonEmpty.
Qed.

Lemma uploadFile_stores_witness :
  exists m w1 path,
    uploadFile "u1" sampleFile (Some "s1") sampleWorld = (Returned m, w1)
    /\ path = storagePath "u1" (clock sampleWorld) sampleFile
    /\ objects w1 = objects sampleWorld ++ [path]
    /\ fm_fileUrl m = downloadURL sampleWorld path
    /\ fm_id m = Some (genId sampleWorld (issued sampleWorld))
    /\ fm_sessionId m = Some "s1"
    /\ uploadedAt m = ServerTimestampSentinel
    /\ fileMetadataColl w1 !! genId sampleWorld (issued sampleWorld)
       = Some (mkFileMetadata None (fm_userId m) (fm_fileName m) (fm_fileSize m)
                 (fm_fileType m) (fm_fileUrl m) (Timestamp (serverClock sampleWorld))
                 (fm_sessionId m) (processed m) (fm_columns m) (rowCount m))
    /\ processed m = false
    /\ nonEmpty (fm_fileType m) = true.
Proof.
  apply (uploadFile_stores_object_and_metadata "u1" sampleFile "s1" sampleWorld);
    reflexivity.
Defined.

(** X17.  [uploadFile] does not undo the upload.  Once the object is
    stored, whenever the call fails the error is logged and rethrown, the
    object stays in storage and no metadata refers to it.  The call fails
    when the store rejects the download URL request or the metadata
    record, and, called without a session id, it fails at the metadata
    record whatever the store does: [addDoc] refuses the [undefined]
    field before anything is written. *)
Theorem uploadFile_leaves_object_behind userId file sessionId w :
  storage w = true -> db w = true -> noFault 1 (faults w) = true ->
  let r := uploadFile userId file sessionId w in
  (forall e, fst r = Raised e ->
     objects (snd r) = objects w ++ [storagePath userId (clock w) file]
     /\ fileMetadataColl (snd r) = fileMetadataColl w
     /\ console (snd r) = console w ++ [(LogError, "Failed to upload file")])
  /\ (forall e rest, tail (faults w) = Some e :: rest -> fst r = Raised e)
  /\ (forall e rest, sessionId <> None ->
        tail (faults w) = None :: Some e :: rest -> fst r = Raised e)
  /\ (sessionId = None -> noFault 2 (faults w) = true ->
      fst r = Raised (unsupportedUndefined "addDoc" (Some "sessionId")
                        ("fileMetadata/" +:+ genId w (issued w)))).
Proof.
  intros Hstorage Hdb Hfaults r. subst r.
  destruct (FirestoreProps.noFault_tail _ _ Hfaults) as [Hf1 _].
  rewrite (uploadFile_trace _ _ _ _ Hstorage Hdb),
    (FirestoreProps.noFault_match _ _ _ Hf1).
  split; [|split; [|split]].
  - intros e.
    destruct (tail (faults w)) as [|[e2|] [|[e3|] rest]];
      destruct sessionId as [sessionId|]; cbn [fst snd tail];
      intros H; try discriminate; repeat split.
  - intros e rest ->. reflexivity.
  - intros e rest Hsession ->. now destruct sessionId.
  - intros -> Hfaults2.
    destruct (FirestoreProps.noFault_tail _ _ Hfaults2) as [_ Hfaults1].
    destruct (FirestoreProps.noFault_tail _ _ Hfaults1) as [Hf2 _].
    now rewrite (FirestoreProps.noFault_match _ _ _ Hf2).
Qed.

Lemma uploadFile_leaves_object_witness :
  let r := uploadFile "u1" sampleFile None sampleWorld in
  (forall e, fst r = Raised e ->
     objects (snd r)
     = objects sampleWorld ++ [storagePath "u1" (clock sampleWorld) sampleFile]
     /\ fileMetadataColl (snd r) = fileMetadataColl sampleWorld
     /\ console (snd r)
        = console sampleWorld ++ [(LogError, "Failed to upload file")])
  /\ (forall e rest, tail (faults sampleWorld) = Some e :: rest -> fst r = Raised e)
  /\ (forall e rest, @None string <> None ->
        tail (faults sampleWorld) = None :: Some e :: rest -> fst r = Raised e)
  /\ (@None string = None -> noFault 2 (faults sampleWorld) = true ->
      fst r = Raised (unsupportedUndefined "addDoc" (Some "sessionId")
                        ("fileMetadata/"
                         +:+ genId sampleWorld (issued sampleWorld)))).
Proof.
  apply (uploadFile_leaves_object_behind "u1" sampleFile None sampleWorld);
    reflexivity.
Defined.

(** The upload of the file browser, which passes no session id: the
    object is stored, the call fails and no record is written. *)
Example uploadFile_without_session :
  let r := uploadFile "u1" sampleFile None sampleWorld in
  fst r = Raised (ErrorInstance
                    ("Function addDoc() called with invalid data. "
                     +:+ "Unsupported field value: undefined "
                     +:+ "(found in field sessionId in document fileMetadata/"
                     +:+ genId sampleWorld (issued sampleWorld) +:+ ")"))
  /\ objects (snd r)
     = objects sampleWorld ++ [storagePath "u1" (clock sampleWorld) sampleFile]
  /\ fileMetadataColl (snd r) = fileMetadataColl sampleWorld.
Proof. vm_compute. repeat split. Qed.

(** *** Deleting files *)

Lemma answering_tail fs : answering fs = true -> answering (tail fs) = true.
Proof. destruct fs as [|[e|] rest]; simpl; intros H; congruence. Qed.

Lemma answering_head fs e : answering fs = true -> head fs <> Some (Some e).
Proof. destruct fs as [|[e'|] rest]; simpl; intros H; congruence. Qed.

(** What a call of [deleteFile] can change. *)
Lemma deleteFile_effect fileId fileUrl w :
  let r := deleteFile fileId fileUrl w in
  chat (snd r) = chat w
  /\ db (snd r) = db w
  /\ (fileMetadataColl (snd r) = fileMetadataColl w
      \/ fileMetadataColl (snd r) = delete fileId (fileMetadataColl w))
  /\ (forall path, In path (objects (snd r)) -> In path (objects w))
  /\ (answering (faults w) = true ->
      answering (faults (snd r)) = true
      /\ (db w = true ->
          fileMetadataColl (snd r) = delete fileId (fileMetadataColl w))).
Proof.
  cbv [deleteFile tryCatch bind throw deleteDoc storageRef deleteObject
       reference roundTrip consoleError].
  destruct (db w) eqn:Hdb; [|cbn; repeat split; try tauto; discriminate].
  destruct (faults w) as [|[e1|] rest] eqn:Hfaults;
    cbn [tail faults withFaults withFileMetadata storage db];
    [| cbn; repeat split; try tauto; discriminate |].
  - destruct (storage w); [|cbn; repeat split; tauto].
    cbn [faults withFaults withFileMetadata objects tail].
    destruct (existsb _ _); cbn; repeat split; try tauto.
    intros path Hin. now apply filter_In in Hin as [Hin _].
  - destruct (storage w); [|cbn; repeat split; try tauto].
    cbn [faults withFaults withFileMetadata objects tail].
    destruct rest as [|[e2|] rest']; cbn [tail];
      try (cbn; repeat split; try tauto; discriminate);
      destruct (existsb _ _); cbn; repeat split; try tauto;
      intros path Hin; now apply filter_In in Hin as [Hin _].
Qed.

(** X18.  [deleteFile] deletes the metadata record before the stored
    object: once the store has accepted the first deletion the record is
    gone whatever happens next, and when the call then raises (no storage
    handle, a rejected request, or no object at that URL) the stored
    objects are all still there. *)
Theorem deleteFile_deletes_metadata_first fileId fileUrl w :
  db w = true -> noFault 1 (faults w) = true ->
  fileMetadataColl (snd (deleteFile fileId fileUrl w))
  = delete fileId (fileMetadataColl w)
  /\ (forall e, fst (deleteFile fileId fileUrl w) = Raised e ->
        objects (snd (deleteFile fileId fileUrl w)) = objects w).
Proof.
  intros Hdb Hfaults.
  destruct (FirestoreProps.noFault_tail _ _ Hfaults) as [Hf _].
  cbv [deleteFile tryCatch bind throw deleteDoc storageRef deleteObject
       reference roundTrip consoleError].
  rewrite Hdb, (FirestoreProps.noFault_match _ _ _ Hf).
  cbn [storage withFaults withFileMetadata faults].
  destruct (storage w); [|now split].
  destruct (tail (faults w)) as [|[e2|] rest'];
    cbn [objects faults tail withFaults withFileMetadata fileMetadataColl];
    try (now split);
    destruct (existsb _ _); split; try reflexivity; intros e He; try discriminate;
    reflexivity.
Qed.

Lemma deleteFile_metadata_first_witness :
  fileMetadataColl (snd (deleteFile "doc0" "https://storage.example/missing" sampleWorld))
  = delete "doc0" (fileMetadataColl sampleWorld)
  /\ (forall e,
        fst (deleteFile "doc0" "https://storage.example/missing" sampleWorld)
        = Raised e ->
        objects (snd (deleteFile "doc0" "https://storage.example/missing"
                        sampleWorld))
        = objects sampleWorld).
Proof.
  apply (deleteFile_deletes_metadata_first "doc0" "https://storage.example/missing"
           sampleWorld); reflexivity.
Defined.

Lemma deleteFiles_effect files : forall w,
  exists w1,
    deleteFiles files w = (Returned tt, w1)
    /\ chat w1 = chat w
    /\ db w1 = db w
    /\ (forall docId, ~ In docId (List.map fst files) ->
          fileMetadataColl w1 !! docId = fileMetadataColl w !! docId)
    /\ (forall docId, fileMetadataColl w !! docId = None ->
          fileMetadataColl w1 !! docId = None)
    /\ (forall path, In path (objects w1) -> In path (objects w))
    /\ (answering (faults w) = true -> db w = true ->
        forall docId, In docId (List.map fst files) ->
          fileMetadataColl w1 !! docId = None).
Proof.
  induction files as [|[fileId fileUrl] files IH]; intros w.
  - exists w. cbn. repeat split; try tauto.
  - cbn [deleteFiles fst snd List.map].
    destruct (deleteFile_effect fileId fileUrl w)
      as (Hchat & Hdb & Hmeta & Hobjects & Hanswering).
    unfold bind at 1. unfold tryCatch.
    destruct (deleteFile fileId fileUrl w) as [[[]|e] w0]; cbn [snd] in *.
    + destruct (IH w0) as (w1 & -> & Hchat1 & Hdb1 & Hframe & Hnone & Hobj & Hall).
      exists w1. split; [reflexivity|]. repeat split.
      * congruence.
      * congruence.
      * intros docId Hnot. rewrite Hframe by (intros Hin; apply Hnot; now right).
        destruct Hmeta as [-> | ->]; [reflexivity|].
        apply lookup_delete_ne. intros <-. apply Hnot. now left.
      * intros docId Hdoc. apply Hnone.
        destruct Hmeta as [-> | ->]; [exact Hdoc|].
        destruct (decide (fileId = docId)) as [->|Hne];
          [apply lookup_delete_eq | now rewrite lookup_delete_ne].
      * auto.
      * intros Hfaults Hdbw docId [<- | Hin].
        -- apply Hnone. destruct (Hanswering Hfaults) as [_ ->]; [|exact Hdbw].
           apply lookup_delete_eq.
        -- apply Hall; [now apply Hanswering | congruence | exact Hin].
    + unfold consoleError.
      destruct (IH (withConsole (console w0 ++ [(LogError, "Failed to delete file " +:+ fileId)]) w0))
        as (w1 & -> & Hchat1 & Hdb1 & Hframe & Hnone & Hobj & Hall).
      cbn [chat db fileMetadataColl objects faults withConsole] in *.
      exists w1. split; [reflexivity|]. repeat split.
      * congruence.
      * congruence.
      * intros docId Hnot. rewrite Hframe by (intros Hin; apply Hnot; now right).
        destruct Hmeta as [-> | ->]; [reflexivity|].
        apply lookup_delete_ne. intros <-. apply Hnot. now left.
      * intros docId Hdoc. apply Hnone.
        destruct Hmeta as [-> | ->]; [exact Hdoc|].
        destruct (decide (fileId = docId)) as [->|Hne];
          [apply lookup_delete_eq | now rewrite lookup_delete_ne].
      * auto.
      * intros Hfaults Hdbw docId [<- | Hin].
        -- apply Hnone. destruct (Hanswering Hfaults) as [_ ->]; [|exact Hdbw].
           apply lookup_delete_eq.
        -- apply Hall; [now apply Hanswering | congruence | exact Hin].
Qed.

(** X19.  [deleteFiles] never raises, whatever fails on the way; it
    leaves the chat sessions and the metadata of the files it was not
    given as they were, and adds no stored object. *)
Theorem deleteFiles_never_raises files w :
  exists w1,
    deleteFiles files w = (Returned tt, w1)
    /\ chat w1 = chat w
    /\ (forall docId, ~ In docId (List.map fst files) ->
          fileMetadataColl w1 !! docId = fileMetadataColl w !! docId)
    /\ (forall path, In path (objects w1) -> In path (objects w)).
Proof.
  destruct (deleteFiles_effect files w)
    as (w1 & Hrun & Hchat & _ & Hframe & _ & Hobjects & _).
  exists w1. now repeat split.
Qed.

(** X20.  With the store answering, [deleteFiles] deletes the metadata
    of every file it is given, those included whose stored object could
    not be deleted. *)
Theorem deleteFiles_deletes_all_metadata files w docId :
  db w = true -> answering (faults w) = true ->
  In docId (List.map fst files) ->
  fileMetadataColl (snd (deleteFiles files w)) !! docId = None.
Proof.
  intros Hdb Hfaults Hin.
  destruct (deleteFiles_effect files w) as (w1 & -> & _ & _ & _ & _ & _ & Hall).
  now apply Hall.
Qed.

Lemma deleteFiles_all_metadata_witness :
  fileMetadataColl
    (snd (deleteFiles [("doc0", "https://storage.example/a");
                       ("doc1", "https://storage.example/b")] sampleWorld))
  !! "doc1" = None.
Proof.
  apply (deleteFiles_deletes_all_metadata
           [("doc0", "https://storage.example/a");
            ("doc1", "https://storage.example/b")] sampleWorld "doc1");
    [reflexivity | reflexivity | right; left; reflexivity].
Defined.

End StoreProps.

(** ** The upload handler as a whole *)

Module HandlerProps.
Import ChatInterface Frame.

Section Keeps.

Variable P : Chat -> Chat -> Prop.
Hypothesis P_refl : forall c, P c c.
Hypothesis P_trans : forall c1 c2 c3, P c1 c2 -> P c2 c3 -> P c1 c3.

Lemma keeps_ret {A} (x : A) : keeps P (ret x).
Proof. intros a. apply P_refl. Qed.

Lemma keeps_throw {A} e : keeps P (@throw App A e).
Proof. intros a. apply P_refl. Qed.

Lemma keeps_await {A} (c : Firestore.M A) : keeps P (await c).
Proof.
  intros a. unfold await. destruct (c (world a)) as [r w]. apply P_refl.
Qed.

Lemma keeps_bind {A B} (c : UI A) (k : A -> UI B) :
  keeps P c -> (forall x, keeps P (k x)) -> keeps P (bind c k).
Proof.
  intros Hc Hk a. unfold bind. specialize (Hc a).
  destruct (c a) as [[x|e] a1]; cbn [snd] in *; [|exact Hc].
  eapply P_trans; [exact Hc | apply Hk].
Qed.

Lemma keeps_tryCatch {A} (c : UI A) (h : Thrown -> UI A) :
  keeps P c -> (forall e, keeps P (h e)) -> keeps P (tryCatch c h).
Proof.
  intros Hc Hh a. unfold tryCatch. specialize (Hc a).
  destruct (c a) as [[x|e] a1]; cbn [snd] in *; [exact Hc|].
  eapply P_trans; [exact Hc | apply Hh].
Qed.

Hypothesis P_replace : forall c replacement,
  P c (mkChat (replaceById (id replacement) replacement (messages c))
         (uploadedFile c) (currentSessionId c) (user c)).

Lemma keeps_replace replacement :
  keeps P (setMessages (replaceById (id replacement) replacement)).
Proof. intros a. apply P_replace. Qed.

Lemma uploadFailed_keeps stringify u sessionId start e :
  keeps P (uploadFailed stringify u sessionId start e).
Proof.
  unfold uploadFailed.
  apply keeps_bind; [apply keeps_await | intros _].
  apply keeps_bind; [apply keeps_await | intros now].
  apply keeps_bind; [apply (keeps_replace (simpleMessage _ _ _)) | intros _].
  destruct (persistent sessionId); [|apply keeps_ret].
  apply keeps_tryCatch; [|intros e'; apply keeps_await].
  apply keeps_bind; [apply keeps_await | intros _; apply keeps_ret].
Qed.

End Keeps.

Lemma sameIds_refl c : sameIds c c.
Proof. now split. Qed.

Lemma sameIds_trans c1 c2 c3 : sameIds c1 c2 -> sameIds c2 c3 -> sameIds c1 c3.
Proof. intros [H1 H2] [H3 H4]. split; congruence. Qed.

Lemma replaceById_ids replacement l :
  List.map id (replaceById (id replacement) replacement l) = List.map id l.
Proof.
  unfold replaceById. rewrite List.map_map. apply List.map_ext_in.
  intros msg _. destruct (String.eqb (id msg) (id replacement)) eqn:Hid;
    [|reflexivity].
  now apply String.eqb_eq in Hid.
Qed.

Lemma sameIds_replace c replacement :
  sameIds c (mkChat (replaceById (id replacement) replacement (messages c))
               (uploadedFile c) (currentSessionId c) (user c)).
Proof. split; [apply replaceById_ids | reflexivity]. Qed.

Lemma sameFile_refl c : sameFile c c.
Proof. reflexivity. Qed.

Lemma sameFile_trans c1 c2 c3 : sameFile c1 c2 -> sameFile c2 c3 -> sameFile c1 c3.
Proof. unfold sameFile. congruence. Qed.

Lemma sameFile_replace c replacement :
  sameFile c (mkChat (replaceById (id replacement) replacement (messages c))
                (uploadedFile c) (currentSessionId c) (user c)).
Proof. reflexivity. Qed.

Lemma uploadSteps_sameIds stringify toLocaleString u file sessionId start :
  keeps sameIds (uploadSteps stringify toLocaleString u file sessionId start).
Proof.
  pose proof sameIds_refl as Hr. pose proof sameIds_trans as Ht.
  unfold uploadSteps.
  apply keeps_bind; [assumption | apply keeps_await; assumption | intros fileMetadata].
  apply keeps_bind; [assumption | apply keeps_await; assumption | intros uploadResponse].
  apply keeps_bind; [assumption | intros a; now split | intros _].
  apply keeps_bind; [assumption | | intros _].
  { destruct (Firestore.fm_id fileMetadata) as [fid|]; [|now apply keeps_ret].
    destruct (nonEmpty fid); [now apply keeps_await | now apply keeps_ret]. }
  apply keeps_bind; [assumption | apply keeps_await; assumption | intros now].
  apply keeps_bind; [assumption | | intros _].
  { match goal with
    | |- keeps _ (setMessages (replaceById _ ?m)) =>
        apply (keeps_replace sameIds sameIds_replace m)
    end. }
  apply keeps_bind; [assumption | | intros _].
  { destruct (persistent sessionId); [|now apply keeps_ret].
    apply keeps_bind; [assumption | now apply keeps_await | intros _].
    now apply keeps_ret. }
  destruct (persistent sessionId); [now apply keeps_await | now apply keeps_ret].
Qed.

(** X21.  [handleFileUpload] never raises, whatever the services do.
    Without a user it changes nothing on screen; with one it leaves the
    user and the ids of the transcript as they were and adds one message
    at the end, the announcement or what replaced it. *)
Theorem handleFileUpload_never_raises stringify toLocaleString file a :
  exists a1,
    handleFileUpload stringify toLocaleString file a = (Returned tt, a1)
    /\ user (ui a1) = user (ui a)
    /\ match user (ui a) with
       | None => ui a1 = ui a
       | Some _ =>
           exists newId,
             List.map id (messages (ui a1))
             = List.map id (messages (ui a)) ++ [newId]
       end.
Proof.
  unfold handleFileUpload. destruct (user (ui a)) as [u|] eqn:Huser.
  - destruct (UploadProps.sessionForUpload_returns u a) as (sid & a0 & Hsession & Hmsgs & _ & Hu).
    unfold bind at 1. rewrite Hsession.
    unfold bind at 1. unfold announceUpload.
    cbv [bind await Firestore.Date_now setMessages ret]. cbn [ui world].
    set (start := simpleMessage _ _ _). set (a2 := mkApp _ _).
    pose proof (uploadSteps_sameIds stringify toLocaleString u file sid start a2)
      as [Hids Hsame].
    unfold tryCatch.
    destruct (uploadSteps stringify toLocaleString u file sid start a2)
      as [[[]|e] a3]; cbn [snd] in *.
    + exists a3. split; [reflexivity|]. split.
      * rewrite Hsame. subst a2. cbn [ui user]. congruence.
      * exists (id start). rewrite Hids. subst a2. cbn [ui messages].
        now rewrite List.map_app, Hmsgs.
    + destruct (UploadProps.uploadFailed_result stringify u sid start e a3)
        as (w & ->).
      eexists. split; [reflexivity|]. cbn [ui user messages]. split.
      * rewrite Hsame. subst a2. cbn [ui user]. congruence.
      * exists (id start).
        rewrite (replaceById_ids (simpleMessage (id start) _ _)), Hids.
        subst a2. cbn [ui messages]. now rewrite List.map_app, Hmsgs.
  - cbv [await Firestore.consoleError]. cbn [ui]. eexists.
    split; [reflexivity|]. now split.
Qed.

Lemma tryCatch_bind {S A B} (c : Eff S A) (k : A -> Eff S B) h a x a1 :
  c a = (Returned x, a1) -> tryCatch (bind c k) h a = tryCatch (k x) h a1.
Proof. unfold tryCatch, bind. now intros ->. Qed.

(** X22.  Once the upload to storage and the upload to the backend have
    both succeeded, the active file is the uploaded one, whatever the
    later steps do: when updating the metadata, saving the message or
    updating the session fails, the transcript shows the upload error and
    the file is active all the same. *)
Theorem late_failure_keeps_active_file
    stringify toLocaleString file a u sessionId a1 fileMetadata w2 uploadResponse :
  user (ui a) = Some u ->
  sessionForUpload u a = (Returned sessionId, a1) ->
  firestoreService.uploadFile (uid u) file (Some sessionId) (world a1)
  = (Returned fileMetadata, w2) ->
  Firestore.backendUpload (world a1) file = Returned uploadResponse ->
  uploadedFile (ui (snd (handleFileUpload stringify toLocaleString file a)))
  = Some {| file_id := api.file_id uploadResponse;
            uf_name := api.filename uploadResponse;
            uf_size := api.file_size uploadResponse;
            uf_columns := api.columns uploadResponse;
            rows := api.row_count uploadResponse;
            uf_preview := api.preview uploadResponse;
            firebaseFileId := Firestore.fm_id fileMetadata |}.
Proof.
  intros Huser Hsession Hupload Hbackend.
  pose proof sameFile_refl as Hr. pose proof sameFile_trans as Ht.
  unfold handleFileUpload. rewrite Huser.
  unfold bind at 1. rewrite Hsession.
  unfold bind at 1. unfold announceUpload.
  cbv [bind await Firestore.Date_now setMessages ret]. cbn [ui world].
  set (start := simpleMessage _ _ _). set (a2 := mkApp _ _).
  unfold uploadSteps.
  rewrite (tryCatch_bind _ _ _ a2 fileMetadata (mkApp (ui a2) w2))
    by (unfold await; subst a2; cbn [world ui]; now rewrite Hupload).
  pose proof (UploadProps.uploadFile_environment (uid u) file (Some sessionId)
                (world a1)) as [_ Hsame].
  rewrite Hupload in Hsame. cbn [snd] in Hsame.
  rewrite (tryCatch_bind _ _ _ _ uploadResponse (mkApp (ui a2) w2))
    by (unfold await, apiService.uploadFile; cbn [world ui];
        now rewrite Hsame, Hbackend).
  erewrite tryCatch_bind by (unfold setUploadedFile; reflexivity).
  match goal with
  | |- uploadedFile (ui (snd (tryCatch ?c ?h ?a3))) = _ =>
      assert (Hkeeps : keeps sameFile (tryCatch c h))
  end.
  { apply keeps_tryCatch; [assumption | |
      intros e; apply uploadFailed_keeps; try assumption;
      apply sameFile_replace].
    apply keeps_bind; [assumption | | intros _].
    { destruct (Firestore.fm_id fileMetadata) as [fid|]; [|now apply keeps_ret].
      destruct (nonEmpty fid); [now apply keeps_await | now apply keeps_ret]. }
    apply keeps_bind; [assumption | now apply keeps_await | intros now].
    apply keeps_bind; [assumption | intros a0; reflexivity | intros _].
    apply keeps_bind; [assumption | | intros _].
    { destruct (persistent sessionId); [|now apply keeps_ret].
      apply keeps_bind; [assumption | now apply keeps_await | intros _].
      now apply keeps_ret. }
    destruct (persistent sessionId); [now apply keeps_await | now apply keeps_ret]. }
  match goal with
  | |- uploadedFile (ui (snd (tryCatch ?c ?h ?a3))) = _ =>
      rewrite (Hkeeps a3)
  end.
  reflexivity.
Qed.

Lemma late_failure_witness :
  uploadedFile
    (ui (snd (handleFileUpload JSON.stringify toString sampleFile
                (mkApp (ui sampleAppFaulty)
                   (Firestore.withFaults [None; None; None; Some sampleFault]
                      sampleWorld)))))
  = Some {| file_id := api.file_id sampleUpload;
            uf_name := api.filename sampleUpload;
            uf_size := api.file_size sampleUpload;
            uf_columns := api.columns sampleUpload;
            rows := api.row_count sampleUpload;
            uf_preview := api.preview sampleUpload;
            firebaseFileId :=
              Firestore.fm_id
                (FileStore.storedMetadata (Some "doc0") "u1" sampleFile (Some "s1")
                   "https://storage.example/user-files/u1/1730000000000_sales.csv"
                   Firestore.ServerTimestampSentinel) |}.
Proof.
  apply (late_failure_keeps_active_file JSON.stringify toString sampleFile
           (mkApp (ui sampleAppFaulty)
              (Firestore.withFaults [None; None; None; Some sampleFault] sampleWorld))
           (mkUser "u1") "s1"
           (mkApp (ui sampleAppFaulty)
              (Firestore.withFaults [None; None; None; Some sampleFault] sampleWorld))
           (FileStore.storedMetadata (Some "doc0") "u1" sampleFile (Some "s1")
              "https://storage.example/user-files/u1/1730000000000_sales.csv"
              Firestore.ServerTimestampSentinel)
           (snd (firestoreService.uploadFile "u1" sampleFile (Some "s1")
                   (Firestore.withFaults [None; None; None; Some sampleFault]
                      sampleWorld)))
           sampleUpload);
    reflexivity.
Defined.

(** The same upload on screen: the error is shown and the file is
    active. *)
Example late_failure_sample :
  let done := snd (handleFileUpload JSON.stringify toString sampleFile
                     (mkApp (ui sampleAppFaulty)
                        (Firestore.withFaults [None; None; None; Some sampleFault]
                           sampleWorld))) in
  List.map content (messages (ui done))
  = ["Plot sales by month";
     uploadErrorText +:+ "Missing or insufficient permissions."]%list
  /\ option_map file_id (uploadedFile (ui done)) = Some "f-1".
Proof. vm_compute. repeat split. Qed.

End HandlerProps.

(** ** The session list and its handlers *)

Module SessionProps.
Import Sessions.

(** *** Relative times *)

Lemma div_ltb a b k : 0 < b -> (a / b <? k) = (a <? k * b).
Proof.
  intros Hb. destruct (Z.ltb_spec (a / b) k) as [Hlt|Hge];
    destruct (Z.ltb_spec a (k * b)) as [Hlt'|Hge']; try reflexivity; exfalso.
  - assert (a / b >= k) by (apply Z.le_ge, Z.div_le_lower_bound; lia). lia.
  - assert (a / b < k) by (apply Z.div_lt_upper_bound; lia). lia.
Qed.

Lemma formatAge_by_elapsed_time toLocaleDateString now ms :
  formatAge toLocaleDateString now ms
  = let elapsed := now - ms in
    if elapsed <? 60000 then "방금 전"
    else if elapsed <? 3600000 then toString (elapsed / 60000) +:+ "분 전"
    else if elapsed <? 86400000 then toString (elapsed / 3600000) +:+ "시간 전"
    else if elapsed <? 172800000 then "어제"
    else if elapsed <? 604800000 then toString (elapsed / 86400000) +:+ "일 전"
    else toLocaleDateString ms.
Proof.
  unfold formatAge. cbv zeta.
  change (1000 * 60) with 60000.
  rewrite !Z.div_div by lia.
  change (60000 * 60) with 3600000. change (3600000 * 24) with 86400000.
  rewrite !div_ltb by lia.
  change (1 * 60000) with 60000. change (60 * 60000) with 3600000.
  change (24 * 3600000) with 86400000. change (7 * 86400000) with 604800000.
  set (elapsed := now - ms).
  destruct (Z.ltb_spec elapsed 60000); [reflexivity|].
  destruct (Z.ltb_spec elapsed 3600000); [reflexivity|].
  destruct (Z.ltb_spec elapsed 86400000); [reflexivity|].
  destruct (Z.ltb_spec elapsed 172800000) as [Hlt|Hge].
  - assert (Hday : elapsed / 86400000 = 1)
      by (symmetry; apply (Z.div_unique elapsed 86400000 1 (elapsed - 86400000));
          lia).
    now rewrite Hday.
  - assert (Hdays : 2 <= elapsed / 86400000)
      by (apply Z.div_le_lower_bound; lia).
    destruct (Z.eqb_spec (elapsed / 86400000) 1); [lia | reflexivity].
Qed.

(** X23.  [formatTimestamp] on every value: nothing and the number 0
    print as the empty string; an invalid date, and a number beyond the
    range of a [Date], print as "Invalid Date"; a value that holds a time
    prints by the milliseconds elapsed alone: under a minute (a time yet
    to come included) "just now", then whole minutes up to an hour, whole
    hours up to a day, "yesterday" from 24 to 48 hours whatever the
    calendar day, whole days up to a week, and the date after that. *)
Theorem formatTimestamp_by_elapsed_time toLocaleDateString now timestamp :
  formatTimestamp toLocaleDateString now timestamp
  = let byElapsed ms :=
      let elapsed := now - ms in
      if elapsed <? 60000 then "방금 전"
      else if elapsed <? 3600000 then toString (elapsed / 60000) +:+ "분 전"
      else if elapsed <? 86400000 then toString (elapsed / 3600000) +:+ "시간 전"
      else if elapsed <? 172800000 then "어제"
      else if elapsed <? 604800000 then toString (elapsed / 86400000) +:+ "일 전"
      else toLocaleDateString ms in
    match timestamp with
    | NoTimestamp => ""
    | FirestoreTimestamp ms | DateValue ms => byElapsed ms
    | InvalidDate => "Invalid Date"
    | Millis ms =>
        if ms =? 0 then ""
        else if Z.abs ms <=? maxTime then byElapsed ms
        else "Invalid Date"
    end.
Proof.
  cbv zeta. destruct timestamp as [|ms|ms| |ms]; cbn [formatTimestamp];
    rewrite ?formatAge_by_elapsed_time; reflexivity.
Qed.

(** *** Reloading the list and deleting a session *)

Lemma loadChatHistory_trace u p :
  loadChatHistory u p =
  match firestoreService.getChatSessions (ChatInterface.uid u) (world p) with
  | (Returned sessions, w) =>
      (Returned tt,
       mkPage (messages p) (uploadedFile p) (currentSessionId p) (user p) sessions
         (deleteConfirmModal p) (currentPage p) (inputKey p) (localSessionId p) w)
  | (Raised e, w) =>
      (Returned tt,
       mkPage (messages p) (uploadedFile p) (currentSessionId p) (user p) []
         (deleteConfirmModal p) (currentPage p) (inputKey p) (localSessionId p)
         (Firestore.withConsole
            (Firestore.console w
             ++ [(LogWarn, "Failed to load chat history (continuing without it)")])
            w))
  end.
Proof.
  cbv [loadChatHistory tryCatch bind await setChatHistory Firestore.consoleWarn].
  destruct (firestoreService.getChatSessions _ _) as [[sessions|e] w]; reflexivity.
Qed.

(** X24.  [loadChatHistory] never raises and touches neither the
    transcript, the current session nor the active file.  When the
    listing succeeds the side bar holds its result; when it fails the
    side bar is emptied, whatever it held. *)
Theorem loadChatHistory_never_raises u p :
  exists p1,
    loadChatHistory u p = (Returned tt, p1)
    /\ messages p1 = messages p
    /\ currentSessionId p1 = currentSessionId p
    /\ uploadedFile p1 = uploadedFile p
    /\ match fst (firestoreService.getChatSessions (ChatInterface.uid u) (world p)) with
       | Returned sessions => chatHistory p1 = sessions
       | Raised _ => chatHistory p1 = []
       end.
Proof.
  rewrite loadChatHistory_trace.
  destruct (firestoreService.getChatSessions _ _) as [[sessions|e] w];
    eexists; repeat split.
Qed.

(** X25.  Confirming the deletion of a session, with the store
    answering: the handler returns, the dialog is closed, no entry of the
    side bar is the deleted session, and when it was the current session
    the transcript, the active file, the current session and its
    [localStorage] item are cleared; otherwise they stay. *)
Theorem confirmed_deletion_clears_session p u sessionId :
  user p = Some u ->
  modalSessionId (deleteConfirmModal p) = Some sessionId ->
  nonEmpty sessionId = true ->
  Firestore.db (world p) = true ->
  noFault 2 (Firestore.faults (world p)) = true ->
  exists p1,
    handleDeleteChatConfirm p = (Returned tt, p1)
    /\ deleteConfirmModal p1 = closedModal
    /\ Forall (fun session =>
                 exists docId d,
                   docId <> sessionId
                   /\ Firestore.chat (world p) !! docId = Some d
                   /\ session = firestoreService.withDocId (docId, d))
         (chatHistory p1)
    /\ if isCurrent (currentSessionId p) sessionId
       then currentSessionId p1 = None /\ localSessionId p1 = None
            /\ messages p1 = [] /\ uploadedFile p1 = None
       else currentSessionId p1 = currentSessionId p
            /\ localSessionId p1 = localSessionId p
            /\ messages p1 = messages p /\ uploadedFile p1 = uploadedFile p.
Proof.
  intros Huser Hmodal Hid Hdb Hfaults.
  destruct (StoreProps.deleteChatSession_then_list (ChatInterface.uid u) sessionId
              (world p) Hdb Hfaults)
    as (w1 & Hdelete & _ & _ & _ & sessions & Hlist & Hsessions).
  unfold handleDeleteChatConfirm. rewrite Huser, Hmodal, Hid.
  unfold bind at 1. unfold tryCatch at 1. unfold bind at 1. unfold await at 1.
  rewrite Hdelete. unfold bind at 1. rewrite loadChatHistory_trace.
  cbn [world]. destruct (firestoreService.getChatSessions _ w1) as [[l|e] w2];
    cbn [fst] in Hlist; [|discriminate].
  injection Hlist as ->.
  destruct (isCurrent (currentSessionId p) sessionId);
    eexists; (split; [reflexivity|]); cbn; repeat split; assumption.
Qed.

Lemma confirmed_deletion_witness :
  exists p1,
    handleDeleteChatConfirm samplePage = (Returned tt, p1)
    /\ deleteConfirmModal p1 = closedModal
    /\ Forall (fun session =>
                 exists docId d,
                   docId <> "c"
                   /\ Firestore.chat (world samplePage) !! docId = Some d
                   /\ session = firestoreService.withDocId (docId, d))
         (chatHistory p1)
    /\ if isCurrent (currentSessionId samplePage) "c"
       then currentSessionId p1 = None /\ localSessionId p1 = None
            /\ messages p1 = [] /\ uploadedFile p1 = None
       else currentSessionId p1 = currentSessionId samplePage
            /\ localSessionId p1 = localSessionId samplePage
            /\ messages p1 = messages samplePage
            /\ uploadedFile p1 = uploadedFile samplePage.
Proof.
  apply (confirmed_deletion_clears_session samplePage (ChatInterface.mkUser "u1") "c");
    reflexivity.
Defined.

(** X26.  When the store rejects the deletion, the handler still
    returns and closes the dialog; the failure is logged, and the side
    bar, the transcript, the current session, the active file and the
    stored sessions are what they were. *)
Theorem rejected_deletion_changes_nothing p u sessionId e rest :
  user p = Some u ->
  modalSessionId (deleteConfirmModal p) = Some sessionId ->
  nonEmpty sessionId = true ->
  Firestore.db (world p) = true ->
  Firestore.faults (world p) = Some e :: rest ->
  exists p1,
    handleDeleteChatConfirm p = (Returned tt, p1)
    /\ deleteConfirmModal p1 = closedModal
    /\ chatHistory p1 = chatHistory p
    /\ messages p1 = messages p
    /\ currentSessionId p1 = currentSessionId p
    /\ uploadedFile p1 = uploadedFile p
    /\ Firestore.chat (world p1) = Firestore.chat (world p)
    /\ Firestore.console (world p1)
       = Firestore.console (world p)
         ++ [(LogError, "Failed to delete chat session");
             (LogError, "Failed to delete chat")].
Proof.
  intros Huser Hmodal Hid Hdb Hfaults.
  unfold handleDeleteChatConfirm. rewrite Huser, Hmodal, Hid.
  unfold bind at 1. unfold tryCatch at 1. unfold bind at 1. unfold await at 1.
  rewrite StoreProps.deleteChatSession_trace, Hdb, Hfaults.
  eexists. split; [reflexivity|]. cbn. repeat split.
  now rewrite <- List.app_assoc.
Qed.

Lemma rejected_deletion_witness :
  exists p1,
    handleDeleteChatConfirm samplePageFaulty = (Returned tt, p1)
    /\ deleteConfirmModal p1 = closedModal
    /\ chatHistory p1 = chatHistory samplePageFaulty
    /\ messages p1 = messages samplePageFaulty
    /\ currentSessionId p1 = currentSessionId samplePageFaulty
    /\ uploadedFile p1 = uploadedFile samplePageFaulty
    /\ Firestore.chat (world p1) = Firestore.chat (world samplePageFaulty)
    /\ Firestore.console (world p1)
       = Firestore.console (world samplePageFaulty)
         ++ [(LogError, "Failed to delete chat session");
             (LogError, "Failed to delete chat")].
Proof.
  apply (rejected_deletion_changes_nothing samplePageFaulty
           (ChatInterface.mkUser "u1") "c" sampleFault []);
    reflexivity.
Defined.

(** *** Opening a session *)

Section Click.

Variable JSON_parse : string -> option JsValue.
Variable timestampToString : Z -> string.

Local Abbreviation click := (handleSessionClick JSON_parse timestampToString).
Local Abbreviation convert := (convertMessages timestampToString).

(** X27.  When reading the messages of the clicked session fails with an
    [Error], the handler returns after having switched: the clicked
    session is the current one, in the state and in [localStorage], the
    chat page is shown and the active file is cleared, while the
    transcript is still that of the session shown before. *)
Theorem failed_open_keeps_old_transcript p u sessionId message rest :
  user p = Some u ->
  isCurrent (currentSessionId p) sessionId = false ->
  nonEmpty sessionId = true ->
  Firestore.db (world p) = true ->
  Firestore.faults (world p) = Some (ErrorInstance message) :: rest ->
  exists p1,
    click sessionId p = (Returned tt, p1)
    /\ currentSessionId p1 = Some sessionId
    /\ localSessionId p1 = Some sessionId
    /\ currentPage p1 = "chat"
    /\ messages p1 = messages p
    /\ uploadedFile p1 = None.
Proof.
  intros Huser Hcurrent Hid Hdb Hfaults.
  unfold handleSessionClick. rewrite Huser, Hcurrent.
  cbv [tryCatch bind await updateCurrentSessionId setCurrentPage].
  cbn [world]. rewrite FirestoreProps.getMessages_trace, Hdb, Hfaults, Hid.
  eexists. split; [reflexivity|]. cbn. repeat split.
Qed.


(** X28.  Opening a session for which [getMessages] returns no message
    (an empty session, a missing document, or no Firestore handle)
    empties the transcript and clears the active file. *)
Theorem open_empty_session_clears p u sessionId :
  user p = Some u ->
  isCurrent (currentSessionId p) sessionId = false ->
  fst (firestoreService.getMessages JSON_parse sessionId (world p)) = Returned [] ->
  exists p1,
    click sessionId p = (Returned tt, p1)
    /\ currentSessionId p1 = Some sessionId
    /\ messages p1 = []
    /\ uploadedFile p1 = None
    /\ chatHistory p1 = chatHistory p.
Proof.
  intros Huser Hcurrent Hnone.
  unfold handleSessionClick. rewrite Huser, Hcurrent.
  cbv [tryCatch bind await updateCurrentSessionId setCurrentPage].
  cbn [world].
  destruct (firestoreService.getMessages JSON_parse sessionId (world p))
    as [[l|e] w]; cbn [fst] in Hnone; [|discriminate].
  injection Hnone as ->.
  eexists. split; [reflexivity|]. cbn. repeat split.
Qed.


Lemma firstFile_cons msg msgs :
  firstFile (msg :: msgs)
  = match Firestore.fileInfo msg with
    | Some fi =>
        if nonEmpty (fi_file_id fi) then Some (fileOfMessage msg fi)
        else firstFile msgs
    | None => firstFile msgs
    end.
Proof.
  unfold firstFile. cbn [List.find].
  destruct (hasFileId msg) eqn:Hhas; unfold hasFileId in Hhas;
    destruct (Firestore.fileInfo msg) as [fi|]; try discriminate;
    try rewrite Hhas; reflexivity.
Qed.

Lemma convert_messages msgs : forall index acc,
  Forall2 shows msgs (fst (convert index msgs acc))
  /\ snd (convert index msgs acc)
     = match acc with Some f => Some f | None => firstFile msgs end.
Proof.
  induction msgs as [|msg msgs IH]; intros index acc.
  - split; [constructor | now destruct acc].
  - cbn [convertMessages].
    match goal with
    | |- context [convertMessages _ (S index) msgs ?acc1] =>
        specialize (IH (S index) acc1);
        destruct (convertMessages timestampToString (S index) msgs acc1)
          as [rest1 file2]
    end.
    cbn [fst snd] in *. destruct IH as [Hshown Hfile]. split.
    + constructor; [|exact Hshown]. unfold shows.
      cbn [type content timestamp chartData followUpQuestions fileInfo
           tableData codeExecution isStreaming id].
      repeat split. intros i Hi Hne. unfold messageId. now rewrite Hi, Hne.
    + rewrite Hfile, firstFile_cons.
      destruct (Firestore.fileInfo msg) as [fi|]; destruct acc as [f|];
        try reflexivity.
      now destruct (nonEmpty (fi_file_id fi)).
Qed.

Lemma getChatSession_returns sessionId w :
  exists r w1, firestoreService.getChatSession sessionId w = (Returned r, w1).
Proof.
  cbv [firestoreService.getChatSession tryCatch bind ret Firestore.getDoc
       Firestore.reference Firestore.roundTrip Firestore.consoleError].
  destruct (Firestore.db w); [|eauto].
  destruct (Firestore.faults w) as [|[e|] rest]; cbn [Firestore.chat Firestore.withFaults];
    try destruct (Firestore.chat w !! sessionId); eauto.
Qed.

(** Opening a session that has messages. *)
Lemma click_trace p u sessionId msg msgs w1 :
  user p = Some u ->
  isCurrent (currentSessionId p) sessionId = false ->
  firestoreService.getMessages JSON_parse sessionId (world p)
  = (Returned (msg :: msgs), w1) ->
  exists w2,
    click sessionId p
    = (Returned tt,
       mkPage (fst (convert 0%nat (msg :: msgs) None))
         (match firstFile (msg :: msgs) with
          | Some f => Some (Restored f)
          | None =>
              fileOfSession
                (match fst (firestoreService.getChatSession sessionId w1) with
                 | Returned r => r
                 | Raised _ => None
                 end)
          end)
         (Some sessionId) (user p) (chatHistory p) (deleteConfirmModal p) "chat"
         (Firestore.clock w1)
         (if nonEmpty sessionId then Some sessionId else None) w2)
    /\ (firstFile (msg :: msgs) <> None -> w2 = w1).
Proof.
  intros Huser Hcurrent Hread.
  unfold handleSessionClick. rewrite Huser, Hcurrent.
  unfold tryCatch at 1. unfold bind at 1. unfold updateCurrentSessionId at 1.
  unfold bind at 1. unfold setCurrentPage at 1.
  unfold bind at 1. unfold await at 1. cbn [world]. rewrite Hread.
  destruct (convert_messages (msg :: msgs) 0%nat None) as [_ Hfile].
  destruct (convert 0%nat (msg :: msgs) None) as [converted file] eqn:Hconvert.
  cbn [fst snd] in *. subst file.
  cbv [bind await setMessages setInputKey setUploadedFile tryCatch
       Firestore.Date_now].
  cbn [world messages uploadedFile currentSessionId user chatHistory
       deleteConfirmModal currentPage inputKey localSessionId].
  rewrite ?Huser.
  destruct (firstFile (msg :: msgs)) as [f|].
  - eexists. split; [reflexivity | reflexivity].
  - cbn [world messages uploadedFile currentSessionId user chatHistory
         deleteConfirmModal currentPage inputKey localSessionId].
    destruct (getChatSession_returns sessionId w1) as (r & w2 & ->).
    cbn [fst world messages uploadedFile currentSessionId user chatHistory
         deleteConfirmModal currentPage inputKey localSessionId].
    rewrite ?Huser. eexists. split; [reflexivity | intros H; now destruct H].
Qed.

(** X29.  Opening a session that has messages shows them all, in the
    stored order: each message on screen has the role, text, time, chart,
    table, file and code block of the stored one and its id when it has
    one, and none is marked as streaming. *)
Theorem open_session_shows_stored_messages p u sessionId msg msgs :
  user p = Some u ->
  isCurrent (currentSessionId p) sessionId = false ->
  fst (firestoreService.getMessages JSON_parse sessionId (world p))
  = Returned (msg :: msgs) ->
  exists p1,
    click sessionId p = (Returned tt, p1)
    /\ currentSessionId p1 = Some sessionId
    /\ Forall2 shows (msg :: msgs) (messages p1).
Proof.
  intros Huser Hcurrent Hread.
  destruct (firestoreService.getMessages JSON_parse sessionId (world p))
    as [r w1] eqn:Hmessages.
  cbn [fst] in Hread. subst r.
  destruct (click_trace p u sessionId msg msgs w1 Huser Hcurrent Hmessages)
    as (w2 & -> & _).
  eexists. split; [reflexivity|]. cbn [currentSessionId messages].
  split; [reflexivity|]. apply convert_messages.
Qed.

(** X30.  The file made active on opening a session is that of the
    first stored message that names a file, and the session document is
    then not read; only when no message names one is it the file the
    session document names, if any. *)
Theorem open_session_restores_file p u sessionId msg msgs w1 :
  user p = Some u ->
  isCurrent (currentSessionId p) sessionId = false ->
  firestoreService.getMessages JSON_parse sessionId (world p)
  = (Returned (msg :: msgs), w1) ->
  exists p1,
    click sessionId p = (Returned tt, p1)
    /\ uploadedFile p1
       = match firstFile (msg :: msgs) with
         | Some f => Some (Restored f)
         | None =>
             fileOfSession
               (match fst (firestoreService.getChatSession sessionId w1) with
                | Returned r => r
                | Raised _ => None
                end)
         end
    /\ (firstFile (msg :: msgs) <> None -> world p1 = w1).
Proof.
  intros Huser Hcurrent Hmessages.
  destruct (click_trace p u sessionId msg msgs w1 Huser Hcurrent Hmessages)
    as (w2 & -> & Hworld).
  eexists. split; [reflexivity|]. cbn [uploadedFile world]. now split.
Qed.

End Click.

Lemma failed_open_witness :
  exists p1,
    handleSessionClick (fun _ => None) toString "a" samplePageFaulty
    = (Returned tt, p1)
    /\ currentSessionId p1 = Some "a"
    /\ localSessionId p1 = Some "a"
    /\ currentPage p1 = "chat"
    /\ messages p1 = messages samplePageFaulty
    /\ uploadedFile p1 = None.
Proof.
  apply (failed_open_keeps_old_transcript (fun _ => None) toString
           samplePageFaulty (ChatInterface.mkUser "u1") "a"
           "Missing or insufficient permissions." []);
    reflexivity.
Defined.

Lemma open_empty_session_witness :
  exists p1,
    handleSessionClick (fun _ => None) toString "a" samplePage = (Returned tt, p1)
    /\ currentSessionId p1 = Some "a"
    /\ messages p1 = []
    /\ uploadedFile p1 = None
    /\ chatHistory p1 = chatHistory samplePage.
Proof.
  apply (open_empty_session_clears (fun _ => None) toString samplePage
           (ChatInterface.mkUser "u1") "a");
    reflexivity.
Defined.

Lemma open_session_shows_witness :
  exists p1,
    handleSessionClick (fun _ => None) toString "m" samplePageHome
    = (Returned tt, p1)
    /\ currentSessionId p1 = Some "m"
    /\ Forall2 shows (sampleStoredQuestion :: [sampleStoredUpload]) (messages p1).
Proof.
  apply (open_session_shows_stored_messages (fun _ => None) toString
           samplePageHome (ChatInterface.mkUser "u1") "m"
           sampleStoredQuestion [sampleStoredUpload]);
    reflexivity.
Defined.

Lemma open_session_restores_witness :
  exists p1,
    handleSessionClick (fun _ => None) toString "m" samplePageHome
    = (Returned tt, p1)
    /\ uploadedFile p1
       = match firstFile (sampleStoredQuestion :: [sampleStoredUpload]) with
         | Some f => Some (Restored f)
         | None =>
             fileOfSession
               (match
                  fst (firestoreService.getChatSession "m"
                         (snd (firestoreService.getMessages (fun _ => None) "m"
                                 (world samplePageHome))))
                with
                | Returned r => r
                | Raised _ => None
                end)
         end
    /\ (firstFile (sampleStoredQuestion :: [sampleStoredUpload]) <> None ->
        world p1
        = snd (firestoreService.getMessages (fun _ => None) "m"
                 (world samplePageHome))).
Proof.
  apply (open_session_restores_file (fun _ => None) toString samplePageHome
           (ChatInterface.mkUser "u1") "m" sampleStoredQuestion [sampleStoredUpload]
           (snd (firestoreService.getMessages (fun _ => None) "m"
                   (world samplePageHome))));
    reflexivity.
Defined.

(** The file restored for the sample session. *)
Example restored_file_sample :
  option_map
    (fun f => match f with
              | Restored r => (rf_file_id r, rf_rows r)
              | Uploaded u => (ChatInterface.file_id u, None)
              end)
    (uploadedFile
       (snd (handleSessionClick (fun _ => None) toString "m" samplePageHome)))
  = Some ("f-1", Some (JsNumber 2)).
Proof. reflexivity. Qed.

End SessionProps.
